(** * queue_service: the registration and fan-out dispatch engine

    A shallow embedding of [src/index.js] (class [QueueHandler]), of
    [src/ValidateStoreFields.js] (class [ValidateStoreFields]) and of the
    earlier, self-validating revision of [QueueHandler] kept in
    [src/unnamed/part_000], followed by the properties of the specification
    that were checked against them.

    Conventions of the embedding:
    - JavaScript values are the inductive type [JsValue]; property access,
      truthiness, [typeof], [instanceof Array], [Object.keys] and [indexOf]
      are functions over it;
    - the backend behind [redis_io] is one [World]: the stored hashes, the
      errors the adapter will deliver, the wall clock and the trace of the
      calls made so far; every adapter call is a [World] transformer;
    - callbacks complete in the order in which the calls were issued, so an
      operation is a function from the state before the call to the outcome
      handed to the caller and the state after it. *)

From Stdlib Require Import String Ascii List ZArith Bool Lia DecimalString Permutation.
From stdpp Require Import gmap strings list fin_maps.
Import ListNotations.

Set Warnings "-register-all".

Local Open Scope Z_scope.
Local Open Scope list_scope.
Local Open Scope string_scope.

(** ** JavaScript values *)

Inductive JsValue : Type :=
| JUndefined
| JNull
| JBool (b : bool)
| JNum (n : Z)
| JStr (s : string)
| JArr (items : list JsValue)
| JObj (props : list (string * JsValue))
| JFun.

(** [!!v] *)
Definition truthy (v : JsValue) : bool :=
  match v with
  | JUndefined | JNull => false
  | JBool b => b
  | JNum n => negb (n =? 0)%Z
  | JStr s => negb (String.eqb s "")
  | JArr _ | JObj _ | JFun => true
  end.

Definition typeof (v : JsValue) : string :=
  match v with
  | JUndefined => "undefined"
  | JNull => "object"
  | JBool _ => "boolean"
  | JNum _ => "number"
  | JStr _ => "string"
  | JArr _ | JObj _ => "object"
  | JFun => "function"
  end.

Definition isUndefined (v : JsValue) : bool :=
  match v with JUndefined => true | _ => false end.

(** [v instanceof Array] *)
Definition instanceofArray (v : JsValue) : bool :=
  match v with JArr _ => true | _ => false end.

(** Own properties of an object literal, in insertion order. *)
Fixpoint lookupProp (name : string) (props : list (string * JsValue)) : option JsValue :=
  match props with
  | [] => None
  | (k, v) :: rest => if String.eqb k name then Some v else lookupProp name rest
  end.

(** [obj.name = v]: an existing property keeps its place, a new one goes last. *)
Fixpoint assignProp (name : string) (v : JsValue) (props : list (string * JsValue))
  : list (string * JsValue) :=
  match props with
  | [] => [(name, v)]
  | (k, old) :: rest =>
      if String.eqb k name then (k, v) :: rest else (k, old) :: assignProp name v rest
  end.

Fixpoint removeProp (name : string) (props : list (string * JsValue))
  : list (string * JsValue) :=
  match props with
  | [] => []
  | (k, v) :: rest =>
      if String.eqb k name then removeProp name rest else (k, v) :: removeProp name rest
  end.

(** [v.name]; strings and arrays answer [length], everything else that has no
    such property answers [undefined]. *)
Definition get (v : JsValue) (name : string) : JsValue :=
  match v with
  | JObj props => match lookupProp name props with Some x => x | None => JUndefined end
  | JArr items => if String.eqb name "length" then JNum (Z.of_nat (length items)) else JUndefined
  | JStr s => if String.eqb name "length" then JNum (Z.of_nat (String.length s)) else JUndefined
  | _ => JUndefined
  end.

(** [v.name = x] on an object. *)
Definition assign (name : string) (x : JsValue) (v : JsValue) : JsValue :=
  match v with
  | JObj props => JObj (assignProp name x props)
  | other => other
  end.

(** [Object.keys(v).length] *)
Definition objectKeysLength (v : JsValue) : Z :=
  match v with
  | JObj props => Z.of_nat (length props)
  | JArr items => Z.of_nat (length items)
  | JStr s => Z.of_nat (String.length s)
  | _ => 0
  end.

(** [Object.assign({}, v)] *)
Definition objectAssignEmpty (v : JsValue) : JsValue :=
  match v with
  | JObj props => JObj props
  | _ => JObj []
  end.

(** [xs.indexOf(x)], with the comparison [===] supplied by the caller. *)
Fixpoint indexOfFrom {A B : Type} (same : A -> B -> bool) (i : Z) (xs : list A) (x : B) : Z :=
  match xs with
  | [] => -1
  | y :: rest => if same y x then i else indexOfFrom same (i + 1) rest x
  end.

Definition indexOf {A B : Type} (same : A -> B -> bool) (xs : list A) (x : B) : Z :=
  indexOfFrom same 0 xs x.

(** [v === s] for a string [s]. *)
Definition strictEqualsString (v : JsValue) (s : string) : bool :=
  match v with JStr t => String.eqb t s | _ => false end.

(** [v.indexOf(s)] on an array value. *)
Definition arrayIndexOf (v : JsValue) (s : string) : Z :=
  match v with
  | JArr items => indexOf strictEqualsString items s
  | _ => -1
  end.

(** The string held by a value already checked to be one. *)
Definition stringOf (v : JsValue) : string :=
  match v with JStr s => s | _ => "" end.

(** ** Strings: [trim] and [toLowerCase] (one-byte characters) *)

Definition isSpace (c : ascii) : bool :=
  let n := nat_of_ascii c in
  (Nat.eqb n 32 || (Nat.leb 9 n && Nat.leb n 13))%bool.

Fixpoint trimStart (s : string) : string :=
  match s with
  | EmptyString => EmptyString
  | String c rest => if isSpace c then trimStart rest else s
  end.

Fixpoint trimEnd (s : string) : string :=
  match s with
  | EmptyString => EmptyString
  | String c rest =>
      match trimEnd rest with
      | EmptyString => if isSpace c then EmptyString else String c EmptyString
      | kept => String c kept
      end
  end.

Definition trim (s : string) : string := trimEnd (trimStart s).

Definition lowerChar (c : ascii) : ascii :=
  let n := nat_of_ascii c in
  if (Nat.leb 65 n && Nat.leb n 90)%bool then ascii_of_nat (n + 32) else c.

Fixpoint toLowerCase (s : string) : string :=
  match s with
  | EmptyString => EmptyString
  | String c rest => String (lowerChar c) (toLowerCase rest)
  end.

(** ** The clock: [moment(new Date()).format("YYYY-MM-DDTHH:mm:ss")]

    A clock reading is a number of seconds since 1970-01-01T00:00:00, shown
    in the proleptic Gregorian calendar at offset zero. *)

Definition digit (n : Z) : ascii := ascii_of_nat (48 + Z.to_nat (n mod 10)).

Definition pad2 (n : Z) : string :=
  String (digit (n / 10)) (String (digit n) EmptyString).

Definition pad4 (n : Z) : string :=
  String (digit (n / 1000)) (String (digit (n / 100)) (pad2 n)).

Definition civilFromDays (days : Z) : Z * Z * Z :=
  let z := days + 719468 in
  let era := z / 146097 in
  let doe := z - era * 146097 in
  let yoe := (doe - doe / 1460 + doe / 36524 - doe / 146096) / 365 in
  let doy := doe - (365 * yoe + yoe / 4 - yoe / 100) in
  let mp := (5 * doy + 2) / 153 in
  let d := doy - (153 * mp + 2) / 5 + 1 in
  let m := if (mp <? 10)%Z then mp + 3 else mp - 9 in
  let y := yoe + era * 400 + (if (m <=? 2)%Z then 1 else 0) in
  (y, m, d).

Definition formatDate (seconds : N) : string :=
  let t := Z.of_N seconds in
  let '(y, m, d) := civilFromDays (t / 86400) in
  let s := t mod 86400 in
  pad4 y +:+ "-" +:+ pad2 m +:+ "-" +:+ pad2 d +:+ "T"
    +:+ pad2 (s / 3600) +:+ ":" +:+ pad2 (s mod 3600 / 60) +:+ ":" +:+ pad2 (s mod 60).

(** ** The backend behind [redis_io] *)

Inductive AdapterOp : Type :=
| OpGetHashObject
| OpSetHashObject
| OpDeleteHashKey
| OpGetHashKey.

(** What an execution leaves behind: the adapter calls in the order they were
    issued, and the assignments to the instance slot [redisReadDate]. *)
Inductive Event : Type :=
| EvGet (group field : string)
| EvSet (group field : string) (value : JsValue)
| EvDelete (group field : string)
| EvKeys (group : string)
| EvReadDate (value : JsValue).

(** Modelled from the spec: the physical store behind the Backend Adapter and
    its surroundings, which [redis_io] reaches over the network. The contract
    [setField]/[getField]/[listFields] fixes neither the form in which a value
    comes back nor the order of a listing, so both are the backend's: [store]
    holds the hashes by group name, each with its fields in the order in which
    the backend lists them; [wire] is the form in which the backend holds, and
    hands back, a value that is not text; [place] is the position, among the
    fields a group has, at which the backend puts a field that is written.
    Then the adapter calls that fail and with which message, the clock reading
    after a given number of events, and the events so far (most recent
    first). *)
Record World : Type := mkWorld {
  store : gmap string (list (string * JsValue));
  wire : JsValue -> JsValue;
  place : string -> string -> list string -> nat;
  failure : AdapterOp -> string -> string -> option string;
  clock : nat -> N;
  trace : list Event
}.

Definition emit (e : Event) (w : World) : World :=
  {| store := store w; wire := wire w; place := place w; failure := failure w;
     clock := clock w; trace := e :: trace w |}.

Definition withStore (m : gmap string (list (string * JsValue))) (w : World) : World :=
  {| store := m; wire := wire w; place := place w; failure := failure w;
     clock := clock w; trace := trace w |}.

(** The same world when the adapter calls fail as [f] says. *)
Definition withFailure (f : AdapterOp -> string -> string -> option string) (w : World)
  : World :=
  {| store := store w; wire := wire w; place := place w; failure := f;
     clock := clock w; trace := trace w |}.

Definition hashOf (group : string) (w : World) : list (string * JsValue) :=
  default [] (store w !! group).

(** [moment(new Date()).format("YYYY-MM-DDTHH:mm:ss")] at this point of the run. *)
Definition now (w : World) : string := formatDate (clock w (length (trace w))).

(** Modelled from the spec: the error an adapter call delivers to its
    callback, an error object (always truthy) with its message. *)
Definition adapterError (msg : string) : JsValue := JObj [("message", JStr msg)].

(** Modelled from the spec: the [ack] of the write and delete capabilities. *)
Definition ack : JsValue := JNum 1.

(** Modelled from the spec: the [absent] of the get and delete capabilities. *)
Definition absent : JsValue := JNull.

(** Modelled from the spec: [redis_io]'s [getHashObject], the get-field
    capability of the Backend Adapter, [getField(group, field) -> value|absent];
    a failing call delivers its error and no value. *)
Definition getHashObject (group field : string) (w : World) : JsValue * JsValue * World :=
  let w1 := emit (EvGet group field) w in
  match failure w OpGetHashObject group field with
  | Some msg => (adapterError msg, JUndefined, w1)
  | None =>
      (JNull, match lookupProp field (hashOf group w) with Some v => v | None => absent end, w1)
  end.

(** Modelled from the spec: the form in which the backend holds a value
    written to it: text as it is, anything else as [wire] has it. *)
Definition held (w : World) (value : JsValue) : JsValue :=
  match value with
  | JStr _ => value
  | _ => wire w value
  end.

Fixpoint insertAt {A : Type} (n : nat) (x : A) (xs : list A) : list A :=
  match n, xs with
  | S m, y :: rest => y :: insertAt m x rest
  | _, _ => x :: xs
  end.

(** Modelled from the spec: a group once [field] has been written: the field
    holds [v] and stands at [position] among the other fields, which keep
    their order. *)
Definition hset (position : nat) (field : string) (v : JsValue)
  (fields : list (string * JsValue)) : list (string * JsValue) :=
  insertAt position (field, v) (removeProp field fields).

(** Modelled from the spec: [redis_io]'s [setHashObject], the set-field
    capability, [setField(group, field, value) -> ack]; a failing call leaves
    the stored hashes as they were. *)
Definition setHashObject (group field : string) (value : JsValue) (w : World)
  : JsValue * JsValue * World :=
  let w1 := emit (EvSet group field value) w in
  match failure w OpSetHashObject group field with
  | Some msg => (adapterError msg, JUndefined, w1)
  | None =>
      (JNull, ack,
       withStore
         (<[group := hset (place w group field (map fst (hashOf group w))) field (held w value)
                       (hashOf group w)]> (store w)) w1)
  end.

(** Modelled from the spec: [redis_io]'s [deleteHashKey], the delete-field
    capability, [deleteField(group, field) -> ack|absent]. *)
Definition deleteHashKey (group field : string) (w : World) : JsValue * JsValue * World :=
  let w1 := emit (EvDelete group field) w in
  match failure w OpDeleteHashKey group field with
  | Some msg => (adapterError msg, JUndefined, w1)
  | None =>
      (JNull,
       match lookupProp field (hashOf group w) with Some _ => ack | None => absent end,
       withStore (<[group := removeProp field (hashOf group w)]> (store w)) w1)
  end.

(** Modelled from the spec: [redis_io]'s [getHashKey], the list-fields
    capability, [listFields(group) -> ordered sequence of field names]: the
    fields of the group in the backend's order. *)
Definition getHashKey (group : string) (w : World) : JsValue * JsValue * World :=
  let w1 := emit (EvKeys group) w in
  match failure w OpGetHashKey group "" with
  | Some msg => (adapterError msg, JUndefined, w1)
  | None => (JNull, JArr (map (fun kv => JStr (fst kv)) (hashOf group w)), w1)
  end.

(** ** What a call hands back to its caller *)

Inductive Outcome : Type :=
| Thrown (e : JsValue)                 (* throw new Error(e), to the caller *)
| CalledBack (err result : JsValue)    (* callback(err, result) *)
| Completed                            (* no callback, nothing thrown *)
| ThrownLater (e : JsValue).           (* the call has returned; throw new Error(e) in the
                                          final callback, once the adapter has answered *)

(** [callback(err, result)]: calling what is not a function throws. *)
Definition invoke (callback err result : JsValue) : Outcome :=
  if String.eqb (typeof callback) "function" then CalledBack err result
  else Thrown (JStr "TypeError: callback is not a function").

(** [throw new Error(err)] in the final callback of [async.eachOf]. The
    adapter answers after the call that reached it has returned, so the error
    is the caller's only when the final callback ran without an adapter call
    under way, and is thrown out of the adapter's callback otherwise. *)
Definition raise (before after : World) (err : JsValue) : Outcome :=
  if Nat.eqb (length (trace after)) (length (trace before)) then Thrown err
  else ThrownLater err.

(** [x.length === 0] *)
Definition lengthIsZero (v : JsValue) : bool :=
  match get v "length" with JNum n => (n =? 0)%Z | _ => false end.

(** ** src/ValidateStoreFields.js *)

Inductive Validation : Type :=
| Throws (msg : string)
| Returns (v : JsValue).

Definition msgCallbackExpected : string := "Callback is expected and must be a function".
Definition msgQueueData : string :=
  "'Queue data' is either missing or not in the specified format".
Definition msgIdentifier : string :=
  "'Identifier' is either missing or not in the specified format".
Definition msgKey : string := "'Key' is either missing or not in the specified format".
Definition msgStore : string := "'Store' value is either blank or not in the specified format".
Definition msgValue : string := "'Value' is either missing or not in the specified format".
Definition msgTargetType : string :=
  "'Target type' is either missing or not in the specified format".
Definition msgNotValidStore : string := "Not a valid queue store".
Definition msgCallbackNotFunction : string := "Callback is not a function".
Definition msgMinimumOne : string := "Minimum one valid queue store is required".
Definition msgConnectionConfig : string :=
  "'Connection config' is either missing or not in the specified format".

(** [!x || typeof x !== "string" || x.trim() === ""] *)
Definition blankString (x : JsValue) : bool :=
  (negb (truthy x) || negb (String.eqb (typeof x) "string")
   || String.eqb (trim (stringOf x)) "")%bool.

(** [!x || typeof x !== "object" || Object.keys(x).length === 0] *)
Definition emptyObject (x : JsValue) : bool :=
  (negb (truthy x) || negb (String.eqb (typeof x) "object")
   || (objectKeysLength x =? 0)%Z)%bool.

(** [x !== undefined && (!(x instanceof Array) || x.length === 0)] *)
Definition badStore (x : JsValue) : bool :=
  (negb (isUndefined x) && (negb (instanceofArray x) || lengthIsZero x))%bool.

Definition validateQueueFields (fields callback skipFields : JsValue) : Validation :=
  if (isUndefined callback || negb (String.eqb (typeof callback) "function"))%bool then
    Throws msgCallbackExpected
  else if emptyObject fields then
    Returns (JStr msgQueueData)
  else if blankString (get fields "identifier") then
    Returns (JStr msgIdentifier)
  else if (((truthy skipFields && negb (truthy (get skipFields "key")))
            || isUndefined skipFields)
           && blankString (get fields "key"))%bool then
    Returns (JStr msgKey)
  else if badStore (get fields "store") then
    Returns (JStr msgStore)
  else
    Returns (JBool false).

(** ** The instance *)

Module Config.
(** One entry of the connection configuration, as the schema in
    [config.constructor.schema.elements] lays it out. *)
Record t : Type := make {
  queueConnector : JsValue;
  serviceName : string;
  identifierSet : list string
}.
End Config.

Record Entry : Type := mkEntry {
  connection : JsValue;
  serviceName : string;
  identifierSet : list string
}.

Record QueueHandler : Type := mkQueueHandler {
  connectionHandler : list (string * Entry);
  servicesInfo : string;
  redisReadDate : JsValue
}.

(** [this.connectionHandler.name = entry] *)
Fixpoint assignEntry (name : string) (entry : Entry) (handlers : list (string * Entry))
  : list (string * Entry) :=
  match handlers with
  | [] => [(name, entry)]
  | (k, old) :: rest =>
      if String.eqb k name then (k, entry) :: rest else (k, old) :: assignEntry name entry rest
  end.

(** The field of [registeredServices] that belongs to an identifier:
    [`${serviceName}_${identifier}`]. *)
Definition registrationKey (service identifier : string) : string :=
  service +:+ "_" +:+ identifier.

Definition msgNotRegistered (identifier : string) : string :=
  "This service is not registered with redis store for the '" +:+ identifier
    +:+ "' identifier".

(** [value.identifierSet.indexOf(identifier) === -1] *)
Definition notRegistered (value : Entry) (identifier : JsValue) : bool :=
  (indexOf (fun s v => strictEqualsString v s) (identifierSet value) identifier =? -1)%Z.

(** ** async.eachOf and async.each

    Every iteratee is started, in the order of the collection; the final
    callback fires once, with the first error an iteratee reports or with
    [null] when all of them are through. A leg therefore yields the error it
    reports, the state at the moment it reports and the state once the work it
    started has run. *)

Definition Leg (S : Type) : Type := S -> JsValue * S * S.

Definition atOnce {S : Type} (f : S -> JsValue * S) : Leg S :=
  fun s => let '(err, s1) := f s in (err, s1, s1).

Fixpoint eachOf {A S : Type} (coll : list (string * A)) (iteratee : A -> string -> Leg S)
  (s : S) : JsValue * S * S :=
  match coll with
  | [] => (JNull, s, s)
  | (key, value) :: rest =>
      let '(err, seen, s1) := iteratee value key s in
      let '(err', seen', s2) := eachOf rest iteratee s1 in
      if truthy err then (err, seen, s2) else (err', seen', s2)
  end.

(** ** src/index.js: the constructor

    [new QueueHandler(connectionConfig)] runs in two stretches. Before it
    returns it has walked the configuration, filled the registration table and
    sent one lookup for every identifier that is not blank. The adapter
    answers afterwards: each answer runs the rest of that identifier's
    waterfall, and the first error among the answers makes the final callback
    of [async.eachOf] throw, out of the adapter's callback and not out of the
    constructor. Answers are taken in the order of the lookups. *)

(** Modelled from the spec: the schema validator [sanitation.paramsValidator]
    is an external collaborator and the configuration reaches the constructor
    already schema-validated, so [validation.elements] is the configuration. *)
Definition paramsValidator (connectionConfig : list (string * Config.t))
  : list (string * Config.t) := connectionConfig.

(** A lookup that has been sent, with what the adapter is going to answer. *)
Record Lookup : Type := mkLookup {
  lookupKey : string;
  lookupErr : JsValue;
  lookupResponse : JsValue
}.

(** The [async.each] over [value.identifierSet], up to the adapter calls:
    every identifier that is not blank is pushed on the table's set, trimmed,
    and its lookup is sent. *)
Fixpoint registerEach (info service : string) (names registered : list string)
  (sent : list Lookup) (w : World) : list string * list Lookup * World :=
  match names with
  | [] => (registered, sent, w)
  | identifierName :: rest =>
      if String.eqb (trim identifierName) "" then
        registerEach info service rest registered sent w
      else
        let '(err, response, w1) :=
          getHashObject info (registrationKey service (trim identifierName)) w in
        registerEach info service rest (registered ++ [trim identifierName])%list
          (sent ++ [mkLookup (registrationKey service (trim identifierName)) err response])%list
          w1
  end.

(** The [async.eachOf] over [validation.elements], up to the adapter calls. A
    store that is not redis calls the final callback at once, which throws
    while the constructor is still running. *)
Fixpoint registerStores (info : string) (elements : list (string * Config.t))
  (handlers : list (string * Entry)) (sent : list Lookup) (w : World)
  : JsValue * list (string * Entry) * list Lookup * World :=
  match elements with
  | [] => (JNull, handlers, sent, w)
  | (serviceStore, value) :: rest =>
      if String.eqb (toLowerCase serviceStore) "redis" then
        let '(registered, sent1, w1) :=
          registerEach info (Config.serviceName value) (Config.identifierSet value) [] sent w in
        registerStores info rest
          (assignEntry "redis"
             {| connection := Config.queueConnector value;
                serviceName := Config.serviceName value;
                identifierSet := registered |} handlers)
          sent1 w1
      else (JStr msgNotValidStore, handlers, sent, w)
  end.

(** The answers to the lookups, in the order sent: an error ends that
    identifier's waterfall, and the first one is what the final callback gets;
    a truthy response ends it too; otherwise the first-seen date is written
    and the outcome of the write is dropped. *)
Fixpoint answerEach (info date : string) (sent : list Lookup) (w : World) : JsValue * World :=
  match sent with
  | [] => (JNull, w)
  | lookup :: rest =>
      if truthy (lookupErr lookup) then
        let '(_, w1) := answerEach info date rest w in (lookupErr lookup, w1)
      else if truthy (lookupResponse lookup) then answerEach info date rest w
      else
        let '(_, _, w1) := setHashObject info (lookupKey lookup) (JStr date) w in
        answerEach info date rest w1
  end.

(** What [new QueueHandler(connectionConfig)] comes to: it throws; or it
    returns the instance; or it returns the instance and the final callback
    throws once the adapter has answered. *)
Inductive Constructed : Type :=
| Fails (e : JsValue)
| Builds (this : QueueHandler)
| BuildsThenThrows (this : QueueHandler) (e : JsValue).

Definition constructor (connectionConfig : list (string * Config.t)) (w : World)
  : Constructed * World :=
  if Nat.eqb (length connectionConfig) 0 then (Fails (JStr msgConnectionConfig), w)
  else
    let elements := paramsValidator connectionConfig in
    if Nat.eqb (length elements) 0 then (Fails (JStr msgMinimumOne), w)
    else
      let date := now w in
      let '(err, handlers, sent, w1) := registerStores "registeredServices" elements [] [] w in
      let '(late, w2) := answerEach "registeredServices" date sent w1 in
      let this := {| connectionHandler := handlers;
                     servicesInfo := "registeredServices";
                     redisReadDate := JUndefined |} in
      if truthy err then (Fails err, w2)
      else if truthy late then (BuildsThenThrows this late, w2)
      else (Builds this, w2).

(** ** The per-backend legs shared by both revisions *)

(** [!x || !(x instanceof Array) || x.length === 0] *)
Definition badTargetType (x : JsValue) : bool :=
  (negb (truthy x) || negb (instanceofArray x) || lengthIsZero x)%bool.

(** The activation of a read: the instance, the local [result] and the world. *)
Record Frame : Type := mkFrame {
  self : QueueHandler;
  result : JsValue;
  world : World
}.

Definition withWorld (w : World) (st : Frame) : Frame :=
  {| self := self st; result := result st; world := w |}.

Definition withResult (r : JsValue) (st : Frame) : Frame :=
  {| self := self st; result := r; world := world st |}.

(** [this.redisReadDate = v] *)
Definition setReadDate (v : JsValue) (st : Frame) : Frame :=
  {| self := {| connectionHandler := connectionHandler (self st);
                servicesInfo := servicesInfo (self st);
                redisReadDate := v |};
     result := result st;
     world := emit (EvReadDate v) (world st) |}.

(** [result.redis.push(row)] *)
Definition pushRow (row : JsValue) (r : JsValue) : JsValue :=
  match get r "redis" with
  | JArr rows => assign "redis" (JArr (rows ++ [row])%list) r
  | _ => r
  end.

Definition itemsOf (v : JsValue) : list JsValue :=
  match v with JArr items => items | _ => [] end.

Section Legs.

(** The store filter test of the revision at hand:
    does [queueData.store] keep this backend out? *)
Variable excludes : JsValue -> string -> bool.

Definition pushLeg (queueData : JsValue) (value : Entry) (serviceStore : string)
  (w : World) : JsValue * World :=
  if excludes queueData serviceStore then (JNull, w)
  else if String.eqb (toLowerCase serviceStore) "redis" then
    if notRegistered value (get queueData "identifier") then
      (JStr (msgNotRegistered (stringOf (get queueData "identifier"))), w)
    else
      let '(err, _, w1) :=
        setHashObject (stringOf (get queueData "identifier")) (stringOf (get queueData "key"))
          (get queueData "value") w in
      (err, w1)
  else (JStr msgNotValidStore, w).

Definition readLeg (this : QueueHandler) (readQueueData : JsValue) (value : Entry)
  (serviceStore : string) (st : JsValue * World) : JsValue * (JsValue * World) :=
  if excludes readQueueData serviceStore then (JNull, st)
  else if String.eqb (toLowerCase serviceStore) "redis" then
    if notRegistered value (get readQueueData "identifier") then
      (JStr (msgNotRegistered (stringOf (get readQueueData "identifier"))), st)
    else
      let '(err, response, w1) :=
        getHashObject (stringOf (get readQueueData "identifier"))
          (stringOf (get readQueueData "key")) (snd st) in
      let result1 :=
        if (truthy response && truthy (get response "length"))%bool
        then assign "redis" response (fst st) else fst st in
      if truthy err then (err, (result1, w1))
      else if negb (truthy response) then (JNull, (result1, w1))
      else
        let '(_, _, w2) :=
          setHashObject (servicesInfo this)
            (registrationKey (serviceName value) (stringOf (get readQueueData "identifier")))
            (if truthy (redisReadDate this) then redisReadDate this else JStr (now w1)) w1 in
        (JNull, (result1, w2))
  else (JStr msgNotValidStore, st).

Definition readKeysLeg (readKeyQueueData : JsValue) (value : Entry) (serviceStore : string)
  (st : JsValue * World) : JsValue * (JsValue * World) :=
  if excludes readKeyQueueData serviceStore then (JNull, st)
  else if String.eqb (toLowerCase serviceStore) "redis" then
    if notRegistered value (get readKeyQueueData "identifier") then
      (JStr (msgNotRegistered (stringOf (get readKeyQueueData "identifier"))), st)
    else
      let '(err, response, w1) :=
        getHashKey (stringOf (get readKeyQueueData "identifier")) (snd st) in
      (err,
       (if (truthy response && truthy (get response "length"))%bool
        then assign "redis" response (fst st) else fst st, w1))
  else (JStr msgNotValidStore, st).

Definition deleteLeg (deleteQueueData : JsValue) (value : Entry) (serviceStore : string)
  (st : JsValue * World) : JsValue * (JsValue * World) :=
  if excludes deleteQueueData serviceStore then (JNull, st)
  else if String.eqb (toLowerCase serviceStore) "redis" then
    if notRegistered value (get deleteQueueData "identifier") then
      (JStr (msgNotRegistered (stringOf (get deleteQueueData "identifier"))), st)
    else
      let '(err, response, w1) :=
        deleteHashKey (stringOf (get deleteQueueData "identifier"))
          (stringOf (get deleteQueueData "key")) (snd st) in
      (err, (if truthy response then assign "redis" response (fst st) else fst st, w1))
  else (JStr msgNotValidStore, st).

(** What the dispatch of [readFromQueue] hands to its callback. *)
Definition readDispatch (this : QueueHandler) (readQueueData : JsValue) (w : World)
  : JsValue * JsValue * World :=
  let '(err, seen, final) :=
    eachOf (connectionHandler this)
      (fun value serviceStore => atOnce (readLeg this readQueueData value serviceStore))
      (JObj [], w) in
  (err, fst seen, snd final).

End Legs.

(** ** src/index.js: the operations *)

Module Index.

(** [queueData.store !== undefined &&
     queueData.store.indexOf(serviceStore.toLowerCase()) === -1] *)
Definition storeExcludes (queueData : JsValue) (serviceStore : string) : bool :=
  (negb (isUndefined (get queueData "store"))
   && (arrayIndexOf (get queueData "store") (toLowerCase serviceStore) =? -1)%Z)%bool.

Definition pushToQueue (this : QueueHandler) (queueData callback : JsValue) (w : World)
  : Outcome * World :=
  let report (errMsg : JsValue) :=
    if negb (isUndefined callback) then invoke callback errMsg JNull else Thrown errMsg in
  match validateQueueFields queueData callback JUndefined with
  | Throws msg => (Thrown (JStr msg), w)
  | Returns validInsertFields =>
      if truthy validInsertFields then (report validInsertFields, w)
      else if emptyObject (get queueData "value") then (report (JStr msgValue), w)
      else if badTargetType (get (get queueData "value") "targetType") then
        (report (JStr msgTargetType), w)
      else
        let '(err, _, w1) :=
          eachOf (connectionHandler this)
            (fun value serviceStore => atOnce (pushLeg storeExcludes queueData value serviceStore))
            w in
        if negb (isUndefined callback) then (invoke callback err JUndefined, w1)
        else if truthy err then (raise w w1 err, w1)
        else (Completed, w1)
  end.

Definition readFromQueue (this : QueueHandler) (readQueueData callback : JsValue) (w : World)
  : Outcome * World :=
  match validateQueueFields readQueueData callback JUndefined with
  | Throws msg => (Thrown (JStr msg), w)
  | Returns validReadFields =>
      if truthy validReadFields then (invoke callback validReadFields JUndefined, w)
      else
        let '(err, res, w1) := readDispatch storeExcludes this readQueueData w in
        (invoke callback err res, w1)
  end.

Definition readKeysFromQueue (this : QueueHandler) (readKeyQueueData callback : JsValue)
  (w : World) : Outcome * World :=
  match validateQueueFields readKeyQueueData callback (JObj [("key", JBool true)]) with
  | Throws msg => (Thrown (JStr msg), w)
  | Returns validReadKeyFields =>
      if truthy validReadKeyFields then (invoke callback validReadKeyFields JUndefined, w)
      else
        let '(err, seen, final) :=
          eachOf (connectionHandler this)
            (fun value serviceStore =>
               atOnce (readKeysLeg storeExcludes readKeyQueueData value serviceStore))
            (JObj [], w) in
        (invoke callback err (fst seen), snd final)
  end.

(** The [async.each] over [keyList]. [fired] holds what the final callback
    was given once a read has failed; the reads started for the remaining
    keys still run. The callback handed to [readFromQueue] is a function, so
    that call always calls back. *)
Fixpoint readEachKey (readKeyValQueueData : JsValue) (keyList : list JsValue)
  (fired : option (JsValue * Frame)) (st : Frame) : JsValue * Frame * Frame :=
  match keyList with
  | [] =>
      match fired with
      | Some (err, seen) => (err, seen, st)
      | None => let st1 := setReadDate JNull st in (JNull, st1, st1)
      end
  | name :: rest =>
      let dataObj :=
        assign "store" (JArr [JStr "redis"])
          (assign "key" name (objectAssignEmpty readKeyValQueueData)) in
      let '(outcome, w1) := readFromQueue (self st) dataObj JFun (world st) in
      let '(err, response) :=
        match outcome with
        | CalledBack err response => (err, response)
        | _ => (JUndefined, JUndefined)
        end in
      let st1 :=
        if (truthy response && truthy (get response "redis")
            && truthy (get (get response "redis") "length"))%bool
        then withResult (pushRow (assign "value" (get response "redis") dataObj) (result st))
               (withWorld w1 st)
        else withWorld w1 st in
      match fired with
      | Some _ => readEachKey readKeyValQueueData rest fired st1
      | None =>
          if truthy err then
            let st2 := setReadDate JNull st1 in
            readEachKey readKeyValQueueData rest (Some (err, st2)) st2
          else readEachKey readKeyValQueueData rest None st1
      end
  end.

Definition keysAndValuesLeg (readKeyValQueueData : JsValue) (value : Entry)
  (serviceStore : string) : Leg Frame :=
  fun st =>
    if storeExcludes readKeyValQueueData serviceStore then (JNull, st, st)
    else if String.eqb (toLowerCase serviceStore) "redis" then
      if notRegistered value (get readKeyValQueueData "identifier") then
        (JStr (msgNotRegistered (stringOf (get readKeyValQueueData "identifier"))), st, st)
      else
        let '(err, keyList, w1) :=
          getHashKey (stringOf (get readKeyValQueueData "identifier")) (world st) in
        let st1 := setReadDate (JStr (now w1)) (withWorld w1 st) in
        if truthy err then
          let st2 := setReadDate JNull st1 in (err, st2, st2)
        else if (negb (truthy keyList) || lengthIsZero keyList)%bool then
          let st2 := setReadDate JNull st1 in (JNull, st2, st2)
        else
          readEachKey readKeyValQueueData (itemsOf keyList) None
            (withResult (assign "redis" (JArr []) (result st1)) st1)
    else (JStr msgNotValidStore, st, st).

Definition readKeysAndValuesFromQueue (this : QueueHandler)
  (readKeyValQueueData callback : JsValue) (w : World) : Outcome * QueueHandler * World :=
  match validateQueueFields readKeyValQueueData callback (JObj [("key", JBool true)]) with
  | Throws msg => (Thrown (JStr msg), this, w)
  | Returns validReadKeyAndValueFields =>
      if truthy validReadKeyAndValueFields then
        (invoke callback validReadKeyAndValueFields JUndefined, this, w)
      else
        let '(err, seen, final) :=
          eachOf (connectionHandler this) (keysAndValuesLeg readKeyValQueueData)
            {| self := this; result := JObj []; world := w |} in
        (invoke callback err (result seen), self final, world final)
  end.

Definition deleteKeyFromQueue (this : QueueHandler) (deleteQueueData callback : JsValue)
  (w : World) : Outcome * World :=
  match validateQueueFields deleteQueueData callback JUndefined with
  | Throws msg => (Thrown (JStr msg), w)
  | Returns validDeleteKeyFields =>
      if truthy validDeleteKeyFields then (invoke callback validDeleteKeyFields JUndefined, w)
      else
        let '(err, seen, final) :=
          eachOf (connectionHandler this)
            (fun value serviceStore =>
               atOnce (deleteLeg storeExcludes deleteQueueData value serviceStore))
            (JObj [], w) in
        if negb (isUndefined callback) then (invoke callback err (fst seen), snd final)
        else if truthy err then (raise w (snd final) err, snd final)
        else (Completed, snd final)
  end.

End Index.

(** ** src/unnamed/part_000: the earlier revision, which validates in place

    Each operation replaces a missing [queueData.store] by an empty array on
    the caller's object; the object as the call leaves it is returned next to
    the outcome. *)

Module Part000.

(** [queueData.store.length !== 0 &&
     queueData.store.indexOf(serviceStore.toLowerCase()) === -1] *)
Definition storeExcludes (queueData : JsValue) (serviceStore : string) : bool :=
  (negb (lengthIsZero (get queueData "store"))
   && (arrayIndexOf (get queueData "store") (toLowerCase serviceStore) =? -1)%Z)%bool.

(** [queueData.store = (queueData.store === undefined ? new Array() : queueData.store)] *)
Definition defaultStore (queueData : JsValue) : JsValue :=
  assign "store"
    (if isUndefined (get queueData "store") then JArr [] else get queueData "store")
    queueData.

Definition pushToQueue (this : QueueHandler) (queueData callback : JsValue) (w : World)
  : Outcome * JsValue * World :=
  let report (errMsg : string) :=
    if negb (isUndefined callback) then invoke callback (JStr errMsg) JNull
    else Thrown (JStr errMsg) in
  if emptyObject queueData then (report msgQueueData, queueData, w)
  else if blankString (get queueData "identifier") then (report msgIdentifier, queueData, w)
  else if blankString (get queueData "key") then (report msgKey, queueData, w)
  else if emptyObject (get queueData "value") then (report msgValue, queueData, w)
  else if badTargetType (get (get queueData "value") "targetType") then
    (report msgTargetType, queueData, w)
  else if badStore (get queueData "store") then (report msgStore, queueData, w)
  else if (negb (isUndefined callback)
           && negb (String.eqb (typeof callback) "function"))%bool then
    (Thrown (JStr msgCallbackNotFunction), queueData, w)
  else
    let queueData1 := defaultStore queueData in
    let '(err, _, w1) :=
      eachOf (connectionHandler this)
        (fun value serviceStore => atOnce (pushLeg storeExcludes queueData1 value serviceStore))
        w in
    if negb (isUndefined callback) then (invoke callback err JUndefined, queueData1, w1)
    else if truthy err then (raise w w1 err, queueData1, w1)
    else (Completed, queueData1, w1).

Definition readFromQueue (this : QueueHandler) (queueData callback : JsValue) (w : World)
  : Outcome * JsValue * World :=
  if emptyObject queueData then (invoke callback (JStr msgQueueData) JUndefined, queueData, w)
  else if blankString (get queueData "identifier") then
    (invoke callback (JStr msgIdentifier) JUndefined, queueData, w)
  else if blankString (get queueData "key") then
    (invoke callback (JStr msgKey) JUndefined, queueData, w)
  else if badStore (get queueData "store") then
    (invoke callback (JStr msgStore) JUndefined, queueData, w)
  else if (isUndefined callback || negb (String.eqb (typeof callback) "function"))%bool then
    (Thrown (JStr msgCallbackExpected), queueData, w)
  else
    let queueData1 := defaultStore queueData in
    let '(err, res, w1) := readDispatch storeExcludes this queueData1 w in
    (invoke callback err res, queueData1, w1).

Definition readKeysFromQueue (this : QueueHandler) (queueData callback : JsValue) (w : World)
  : Outcome * JsValue * World :=
  if emptyObject queueData then (invoke callback (JStr msgQueueData) JUndefined, queueData, w)
  else if blankString (get queueData "identifier") then
    (invoke callback (JStr msgIdentifier) JUndefined, queueData, w)
  else if badStore (get queueData "store") then
    (invoke callback (JStr msgStore) JUndefined, queueData, w)
  else if (isUndefined callback || negb (String.eqb (typeof callback) "function"))%bool then
    (Thrown (JStr msgCallbackExpected), queueData, w)
  else
    let queueData1 := defaultStore queueData in
    let '(err, seen, final) :=
      eachOf (connectionHandler this)
        (fun value serviceStore =>
           atOnce (readKeysLeg storeExcludes queueData1 value serviceStore))
        (JObj [], w) in
    (invoke callback err (fst seen), queueData1, snd final).

(** The [async.each] over [keyList] of this revision: the copy of the
    request keeps the request's [store], and a row is pushed when the object
    [readFromQueue] hands back has a [length]. *)
Fixpoint readEachKey (queueData : JsValue) (keyList : list JsValue)
  (fired : option (JsValue * Frame)) (st : Frame) : JsValue * Frame * Frame :=
  match keyList with
  | [] =>
      match fired with
      | Some (err, seen) => (err, seen, st)
      | None => let st1 := setReadDate JNull st in (JNull, st1, st1)
      end
  | name :: rest =>
      let '(outcome, dataObj, w1) :=
        readFromQueue (self st) (assign "key" name (objectAssignEmpty queueData)) JFun
          (world st) in
      let '(err, response) :=
        match outcome with
        | CalledBack err response => (err, response)
        | _ => (JUndefined, JUndefined)
        end in
      let st1 :=
        if (truthy response && truthy (get response "length"))%bool
        then withResult (pushRow (assign "value" (get response "redis") dataObj) (result st))
               (withWorld w1 st)
        else withWorld w1 st in
      match fired with
      | Some _ => readEachKey queueData rest fired st1
      | None =>
          if truthy err then
            let st2 := setReadDate JNull st1 in
            readEachKey queueData rest (Some (err, st2)) st2
          else readEachKey queueData rest None st1
      end
  end.

Definition keysAndValuesLeg (queueData : JsValue) (value : Entry) (serviceStore : string)
  : Leg Frame :=
  fun st =>
    if storeExcludes queueData serviceStore then (JNull, st, st)
    else if String.eqb (toLowerCase serviceStore) "redis" then
      if notRegistered value (get queueData "identifier") then
        (JStr (msgNotRegistered (stringOf (get queueData "identifier"))), st, st)
      else
        let '(err, keyList, w1) :=
          getHashKey (stringOf (get queueData "identifier")) (world st) in
        let st1 := setReadDate (JStr (now w1)) (withWorld w1 st) in
        if truthy err then
          let st2 := setReadDate JNull st1 in (err, st2, st2)
        else if (negb (truthy keyList) || lengthIsZero keyList)%bool then
          let st2 := setReadDate JNull st1 in (JNull, st2, st2)
        else
          readEachKey queueData (itemsOf keyList) None
            (withResult (assign "redis" (JArr []) (result st1)) st1)
    else (JStr msgNotValidStore, st, st).

Definition readKeysAndValuesFromQueue (this : QueueHandler) (queueData callback : JsValue)
  (w : World) : Outcome * JsValue * QueueHandler * World :=
  if emptyObject queueData then
    (invoke callback (JStr msgQueueData) JUndefined, queueData, this, w)
  else if blankString (get queueData "identifier") then
    (invoke callback (JStr msgIdentifier) JUndefined, queueData, this, w)
  else if badStore (get queueData "store") then
    (invoke callback (JStr msgStore) JUndefined, queueData, this, w)
  else if (isUndefined callback || negb (String.eqb (typeof callback) "function"))%bool then
    (Thrown (JStr msgCallbackExpected), queueData, this, w)
  else
    let queueData1 := defaultStore queueData in
    let '(err, seen, final) :=
      eachOf (connectionHandler this) (keysAndValuesLeg queueData1)
        {| self := this; result := JObj []; world := w |} in
    (invoke callback err (result seen), queueData1, self final, world final).

Definition deleteKeyFromQueue (this : QueueHandler) (queueData callback : JsValue) (w : World)
  : Outcome * JsValue * World :=
  if emptyObject queueData then (invoke callback (JStr msgQueueData) JUndefined, queueData, w)
  else if blankString (get queueData "identifier") then
    (invoke callback (JStr msgIdentifier) JUndefined, queueData, w)
  else if blankString (get queueData "key") then
    (invoke callback (JStr msgKey) JUndefined, queueData, w)
  else if badStore (get queueData "store") then
    (invoke callback (JStr msgStore) JUndefined, queueData, w)
  else if (negb (isUndefined callback)
           && negb (String.eqb (typeof callback) "function"))%bool then
    (Thrown (JStr msgCallbackNotFunction), queueData, w)
  else
    let queueData1 := defaultStore queueData in
    let '(err, seen, final) :=
      eachOf (connectionHandler this)
        (fun value serviceStore =>
           atOnce (deleteLeg storeExcludes queueData1 value serviceStore))
        (JObj [], w) in
    if negb (isUndefined callback) then (invoke callback err (fst seen), queueData1, snd final)
    else if truthy err then (raise w (snd final) err, queueData1, snd final)
    else (Completed, queueData1, snd final).

End Part000.

(** ** Vocabulary of the properties *)

(** What the backend holds under a field, [absent] when there is none. *)
Definition storedValue (group field : string) (w : World) : JsValue :=
  match lookupProp field (hashOf group w) with Some v => v | None => absent end.

(** [v && v.length]: the test under which a read reports what the backend
    hands back. *)
Definition sized (v : JsValue) : bool := (truthy v && truthy (get v "length"))%bool.

(** [this.redisReadDate || moment(new Date()).format(...)] *)
Definition stampOf (this : QueueHandler) (w : World) : JsValue :=
  if truthy (redisReadDate this) then redisReadDate this else JStr (now w).

(** No adapter call fails. *)
Definition faultFree (w : World) : Prop :=
  forall (op : AdapterOp) (group field : string), failure w op group field = None.

(** A request that names a group and a field by non-blank strings and whose
    store filter, when there is one, lets the redis backend in. *)
Definition addresses (q : JsValue) (identifier key : string) : Prop :=
  emptyObject q = false /\
  get q "identifier" = JStr identifier /\ trim identifier <> "" /\
  get q "key" = JStr key /\ trim key <> "" /\
  badStore (get q "store") = false /\ Index.storeExcludes q "redis" = false.

(** The same for the operations on a whole group. *)
Definition addressesGroup (q : JsValue) (identifier : string) : Prop :=
  emptyObject q = false /\
  get q "identifier" = JStr identifier /\ trim identifier <> "" /\
  badStore (get q "store") = false /\ Index.storeExcludes q "redis" = false.

(** The identifiers a configuration entry registers: the non-blank ones,
    trimmed, in the order given. *)
Definition registeredNames (names : list string) : list string :=
  map trim (List.filter (fun name => negb (String.eqb (trim name) "")) names).

(** The entry of the registration table that a configuration entry leaves. *)
Definition entryOf (value : Config.t) : Entry :=
  {| connection := Config.queueConnector value;
     serviceName := Config.serviceName value;
     identifierSet := registeredNames (Config.identifierSet value) |}.

(** Every configured store is a redis store. *)
Definition allRedis (elements : list (string * Config.t)) : Prop :=
  Forall (fun element => toLowerCase (fst element) = "redis") elements.

(** The events of [later] are those of [earlier] followed by [events]
    (most recent first). *)
Definition extends (earlier later : World) (events : list Event) : Prop :=
  trace later = (events ++ trace earlier)%list.


(** What a read may leave in the trace while the slot holds [slot]: lookups,
    and timestamp writes that carry the slot's value when it is truthy. *)
Definition readEvent (slot : JsValue) (e : Event) : Prop :=
  match e with
  | EvGet _ _ => True
  | EvSet _ _ v => truthy slot = true -> v = slot
  | _ => False
  end.


(** The values written by the [setHashObject] calls among [events]. *)
Definition writtenValues (events : list Event) : list JsValue :=
  flat_map (fun e => match e with EvSet _ _ v => [v] | _ => [] end) events.






(** The row [readKeysAndValuesFromQueue] pushes for a key: the copy of the
    request with [key], [store] and [value] set. *)
Definition rowOf (q : JsValue) (key : string) (v : JsValue) : JsValue :=
  assign "value" v
    (assign "store" (JArr [JStr "redis"]) (assign "key" (JStr key) (objectAssignEmpty q))).

(** The rows for the fields [kvs] of a group: one for each value that is
    truthy and has a truthy [length]. *)
Definition rowsOf (q : JsValue) (kvs : list (string * JsValue)) : list JsValue :=
  flat_map (fun kv =>
              if (truthy (snd kv) && truthy (get (snd kv) "length"))%bool
              then [rowOf q (fst kv) (snd kv)] else []) kvs.

(** How many of the fields [kvs] hold a truthy value. *)
Definition truthyValues (kvs : list (string * JsValue)) : nat :=
  length (List.filter (fun kv => truthy (snd kv)) kvs).

(** [{identifier: identifier, key: key, value: value}] *)
Definition insertRequest (identifier key : string) (value : JsValue) : JsValue :=
  JObj [("identifier", JStr identifier); ("key", JStr key); ("value", value)].

(** Insert the fields [kvs] under [identifier], one [pushToQueue] after the other. *)
Definition insertAll (this : QueueHandler) (identifier : string)
  (kvs : list (string * JsValue)) (w : World) : World :=
  fold_left
    (fun u kv => snd (Index.pushToQueue this (insertRequest identifier (fst kv) (snd kv)) JFun u))
    kvs w.

(** A key and a value that Insert accepts. *)
Definition insertable (kv : string * JsValue) : Prop :=
  trim (fst kv) <> "" /\ emptyObject (snd kv) = false
  /\ badTargetType (get (snd kv) "targetType") = false.

(** A configured store that is redis. *)
Definition isRedis (element : string * Config.t) : bool :=
  String.eqb (toLowerCase (fst element)) "redis".

(** The configured stores up to the first one that is not redis. *)
Fixpoint redisStores (elements : list (string * Config.t)) : list (string * Config.t) :=
  match elements with
  | [] => []
  | element :: rest => if isRedis element then element :: redisStores rest else []
  end.

(** The registration keys of a configuration, in the order of its entries and
    of their identifiers: one for each identifier that is not blank. *)
Definition keysOf (elements : list (string * Config.t)) : list string :=
  flat_map
    (fun element =>
       map (registrationKey (Config.serviceName (snd element)))
         (registeredNames (Config.identifierSet (snd element))))
    elements.

(** The lookup of [key] with the answer the backend has for it. *)
Definition answerOf (info : string) (w : World) (key : string) : Lookup :=
  match failure w OpGetHashObject info key with
  | Some msg => mkLookup key (adapterError msg) JUndefined
  | None => mkLookup key JNull (storedValue info key w)
  end.

(** The world after the adapter calls [events] have been sent (first one
    first). *)
Definition emitAll (events : list Event) (w : World) : World :=
  fold_left (fun u e => emit e u) events w.

(** A request that names a group and a field by non-blank strings, whatever
    its store filter. *)
Definition names (q : JsValue) (identifier key : string) : Prop :=
  emptyObject q = false /\
  get q "identifier" = JStr identifier /\ trim identifier <> "" /\
  get q "key" = JStr key /\ trim key <> "".

(** A store filter that is a non-empty array without the string [redis]. *)
Definition filtersOut (q : JsValue) (items : list JsValue) : Prop :=
  get q "store" = JArr items /\ items <> []
  /\ (forall item, In item items -> strictEqualsString item "redis" = false).

(** An event of construction: a lookup in the meta-group, or a write to it
    that carries [date]. *)
Definition registrationEvent (date : string) (e : Event) : Prop :=
  (exists field, e = EvGet "registeredServices" field)
  \/ (exists field, e = EvSet "registeredServices" field (JStr date)).

(** The result of a listing: no entry for [redis], or an empty one. *)
Definition noRows (r : JsValue) : Prop :=
  get r "redis" = JUndefined \/ get r "redis" = JArr [].

(** ** A small deployment to run the operations on *)

Module Sample.

(** Where a field stands among [keys], and their number when it is not there. *)
Fixpoint keptPlace (field : string) (keys : list string) : nat :=
  match keys with
  | [] => 0
  | k :: rest => if String.eqb k field then 0 else S (keptPlace field rest)
  end.

(** An empty server on which no call fails, which hands values back as they
    were written and lists fields in the order in which they were first
    written; the clock advances one second per event from
    2023-11-14T22:13:20. *)
Definition world : World :=
  {| store := ∅;
     wire := fun v => v;
     place := fun _ field keys => keptPlace field keys;
     failure := fun _ _ _ => None;
     clock := fun n => (1700000000 + N.of_nat n)%N;
     trace := [] |}.

Definition config : list (string * Config.t) :=
  [("redis", Config.make JNull "svc" ["orders"])].

Definition entry : Entry :=
  {| connection := JNull; serviceName := "svc"; identifierSet := ["orders"] |}.

Definition handler : QueueHandler :=
  {| connectionHandler := [("redis", entry)];
     servicesInfo := "registeredServices";
     redisReadDate := JUndefined |}.

(** The server once [config] has been registered on it. *)
Definition ready : World := snd (constructor config world).

(** [{targetType: ["email"]}] *)
Definition email : JsValue := JObj [("targetType", JArr [JStr "email"])].

(** [{targetType: ["email"], length: 1}] *)
Definition sized : JsValue := JObj [("targetType", JArr [JStr "email"]); ("length", JNum 1)].

(** [{identifier: "orders", key: key, value: value}] *)
Definition order (key : string) (value : JsValue) : JsValue :=
  JObj [("identifier", JStr "orders"); ("key", JStr key); ("value", value)].

(** [{identifier: "orders"}] *)
Definition orders : JsValue := JObj [("identifier", JStr "orders")].


(** The same empty server when it answers no lookup. *)
Definition unreachable : World :=
  withFailure
    (fun op _ _ => match op with OpGetHashObject => Some "ECONNREFUSED" | _ => None end) world.

End Sample.

(** ** The same deployment with a backend that fails *)

Module Faulty.

(** The world [w] when every adapter call fails with [msg]. *)
Definition down (msg : string) (w : World) : World :=
  withFailure (fun _ _ _ => Some msg) w.

(** The world [w] when the writes to the meta-group, and only they, fail. *)
Definition stampless (msg : string) (w : World) : World :=
  withFailure
    (fun op group _ =>
       match op with
       | OpSetHashObject => if String.eqb group "registeredServices" then Some msg else None
       | _ => None
       end) w.

(** [Sample.ready] once [{targetType: ["email"], length: 1}] is stored under
    [orders]/[o1]. *)
Definition stocked : World :=
  snd (Index.pushToQueue Sample.handler (Sample.order "o1" Sample.sized) JFun Sample.ready).

End Faulty.

(** ** The same deployment on a backend that holds text *)

Module Textual.

Definition quoted (s : string) : string :=
  String (ascii_of_nat 34) (s ++ String (ascii_of_nat 34) EmptyString).

Fixpoint commas (parts : list string) : string :=
  match parts with
  | [] => ""
  | [part] => part
  | part :: rest => part ++ "," ++ commas rest
  end.

(** The text of a value, in the manner of JSON. *)
Fixpoint stringify (v : JsValue) : string :=
  match v with
  | JUndefined | JNull | JFun => "null"
  | JBool b => if b then "true" else "false"
  | JNum n => NilZero.string_of_int (Z.to_int n)
  | JStr s => quoted s
  | JArr items => "[" ++ commas (map stringify items) ++ "]"
  | JObj props =>
      "{" ++ commas (map (fun kv => quoted (fst kv) ++ ":" ++ stringify (snd kv)) props) ++ "}"
  end.

(** [Sample.world] when the backend holds a value that is not text as its
    text. *)
Definition world : World :=
  {| store := ∅;
     wire := fun v => JStr (stringify v);
     place := fun _ field keys => Sample.keptPlace field keys;
     failure := fun _ _ _ => None;
     clock := fun n => (1700000000 + N.of_nat n)%N;
     trace := [] |}.

(** The server once [Sample.config] has been registered on it. *)
Definition ready : World := snd (constructor Sample.config world).

(** The same backend when it puts a field that is new in front of the fields
    a group has. *)
Definition fronting : World :=
  {| store := ∅;
     wire := fun v => JStr (stringify v);
     place := fun _ field keys =>
       if Nat.eqb (Sample.keptPlace field keys) (length keys) then 0%nat
       else Sample.keptPlace field keys;
     failure := fun _ _ _ => None;
     clock := fun n => (1700000000 + N.of_nat n)%N;
     trace := [] |}.

End Textual.

(** * Properties *)

(** ** Values, strings and the clock *)

Example formatDate_epoch : formatDate 0 = "1970-01-01T00:00:00".
Proof. reflexivity. Qed.

Example formatDate_billion : formatDate 1000000000 = "2001-09-09T01:46:40".
Proof. vm_compute. reflexivity. Qed.

Example formatDate_leap_day : formatDate 1709251199 = "2024-02-29T23:59:59".
Proof. vm_compute. reflexivity. Qed.

Example trim_example : trim "  orders 1 " = "orders 1".
Proof. reflexivity. Qed.

Example toLowerCase_example : toLowerCase "ReDiS" = "redis".
Proof. reflexivity. Qed.

Lemma formatDate_truthy (t : N) : truthy (JStr (formatDate t)) = true.
Proof.
  unfold formatDate. destruct (civilFromDays (Z.of_N t / 86400)) as [[y m] d].
  reflexivity.
Qed.

Lemma now_truthy (w : World) : truthy (JStr (now w)) = true.
Proof. apply formatDate_truthy. Qed.

Lemma truthy_JStr (s : string) : truthy (JStr s) = true <-> s <> "".
Proof.
  simpl. destruct (String.eqb_spec s "") as [->|Hne]; simpl; split; intros H.
  - discriminate H.
  - exfalso. apply H. reflexivity.
  - exact Hne.
  - reflexivity.
Qed.

Lemma trim_nonblank_nonempty (s : string) : trim s <> "" -> s <> "".
Proof. intros H ->. apply H. reflexivity. Qed.

Lemma blankString_JStr (s : string) : trim s <> "" -> blankString (JStr s) = false.
Proof.
  intros H. unfold blankString. simpl.
  destruct (String.eqb_spec s "") as [->|_]; [exfalso; apply H; reflexivity|].
  destruct (String.eqb_spec (trim s) ""); [contradiction|reflexivity].
Qed.

Lemma lookupProp_assignProp_eq (name : string) (v : JsValue) (props : list (string * JsValue)) :
  lookupProp name (assignProp name v props) = Some v.
Proof.
  induction props as [|[k old] rest IH]; simpl.
  - rewrite String.eqb_refl. reflexivity.
  - destruct (String.eqb_spec k name) as [->|Hne]; simpl.
    + rewrite String.eqb_refl. reflexivity.
    + destruct (String.eqb_spec k name); [contradiction|exact IH].
Qed.

Lemma lookupProp_assignProp_ne (name other : string) (v : JsValue)
  (props : list (string * JsValue)) :
  name <> other -> lookupProp other (assignProp name v props) = lookupProp other props.
Proof.
  intros Hne. induction props as [|[k old] rest IH]; simpl.
  - destruct (String.eqb_spec name other); [contradiction|reflexivity].
  - destruct (String.eqb_spec k name) as [->|Hk]; simpl.
    + destruct (String.eqb_spec name other); [contradiction|reflexivity].
    + rewrite IH. reflexivity.
Qed.

Lemma lookupProp_removeProp_eq (name : string) (props : list (string * JsValue)) :
  lookupProp name (removeProp name props) = None.
Proof.
  induction props as [|[k v] rest IH]; simpl; [reflexivity|].
  destruct (String.eqb_spec k name) as [->|Hk]; simpl; [exact IH|].
  destruct (String.eqb_spec k name); [contradiction|exact IH].
Qed.

Lemma indexOfFrom_bound {A B : Type} (same : A -> B -> bool) (xs : list A) (x : B) (i : Z) :
  indexOfFrom same i xs x = -1 \/ i <= indexOfFrom same i xs x.
Proof.
  revert i. induction xs as [|y rest IH]; intros i; simpl; [left; reflexivity|].
  destruct (same y x); [right; lia|].
  destruct (IH (i + 1)) as [H|H]; [left; exact H|right; lia].
Qed.

Lemma indexOfFrom_found {A B : Type} (same : A -> B -> bool) (xs : list A) (x : B) (i : Z) :
  0 <= i -> (exists y, In y xs /\ same y x = true) -> indexOfFrom same i xs x <> -1.
Proof.
  revert i. induction xs as [|y rest IH]; intros i Hi [z [Hin Hz]]; simpl.
  - destruct Hin.
  - destruct (same y x) eqn:E; [lia|].
    destruct Hin as [->|Hin]; [congruence|].
    apply IH; [lia|]. exists z. split; assumption.
Qed.

Lemma indexOfFrom_missing {A B : Type} (same : A -> B -> bool) (xs : list A) (x : B) (i : Z) :
  (forall y, In y xs -> same y x = false) -> indexOfFrom same i xs x = -1.
Proof.
  revert i. induction xs as [|y rest IH]; intros i H; simpl; [reflexivity|].
  rewrite (H y (or_introl eq_refl)). apply IH. intros z Hz. apply H. right. exact Hz.
Qed.

Lemma registered_found (value : Entry) (identifier : string) :
  In identifier (identifierSet value) -> notRegistered value (JStr identifier) = false.
Proof.
  intros Hin. unfold notRegistered, indexOf.
  apply Z.eqb_neq. apply indexOfFrom_found; [lia|].
  exists identifier. split; [exact Hin|]. simpl. apply String.eqb_refl.
Qed.

Lemma unregistered_missing (value : Entry) (identifier : string) :
  ~ In identifier (identifierSet value) -> notRegistered value (JStr identifier) = true.
Proof.
  intros Hout. unfold notRegistered, indexOf.
  apply Z.eqb_eq. apply indexOfFrom_missing.
  intros y Hy. simpl. apply String.eqb_neq. intros ->. contradiction.
Qed.

(** ** The adapter *)

Lemma hashOf_withStore_insert (group : string) (h : list (string * JsValue)) (w w1 : World) :
  hashOf group (withStore (<[group := h]> (store w)) w1) = h.
Proof. unfold hashOf. cbn [store withStore]. rewrite lookup_insert_eq. reflexivity. Qed.

Lemma hashOf_withStore_insert_ne (group other : string) (h : list (string * JsValue))
  (w w1 : World) :
  group <> other -> hashOf other (withStore (<[group := h]> (store w)) w1) = hashOf other w.
Proof.
  intros Hne. unfold hashOf. cbn [store withStore]. rewrite lookup_insert_ne by exact Hne.
  reflexivity.
Qed.

Lemma lookupProp_insertAt_eq (n : nat) (name : string) (v : JsValue)
  (props : list (string * JsValue)) :
  lookupProp name props = None -> lookupProp name (insertAt n (name, v) props) = Some v.
Proof.
  revert props. induction n as [|m IH]; intros props Hnone.
  - destruct props; cbn [insertAt lookupProp]; rewrite String.eqb_refl; reflexivity.
  - destruct props as [|[k x] rest]; cbn [insertAt lookupProp].
    + rewrite String.eqb_refl. reflexivity.
    + cbn [lookupProp] in Hnone. destruct (String.eqb k name); [discriminate Hnone|].
      apply IH. exact Hnone.
Qed.

Lemma lookupProp_insertAt_ne (n : nat) (name other : string) (v : JsValue)
  (props : list (string * JsValue)) :
  name <> other -> lookupProp other (insertAt n (name, v) props) = lookupProp other props.
Proof.
  intros Hne. revert props. induction n as [|m IH]; intros props.
  - destruct props; cbn [insertAt lookupProp];
      destruct (String.eqb_spec name other); try contradiction; reflexivity.
  - destruct props as [|[k x] rest]; cbn [insertAt lookupProp].
    + destruct (String.eqb_spec name other); [contradiction|reflexivity].
    + rewrite IH. reflexivity.
Qed.

Lemma lookupProp_removeProp_other (name other : string) (props : list (string * JsValue)) :
  name <> other -> lookupProp other (removeProp name props) = lookupProp other props.
Proof.
  intros Hne. induction props as [|[k v] rest IH]; [reflexivity|].
  cbn [removeProp lookupProp]. destruct (String.eqb_spec k name) as [->|Hk].
  - destruct (String.eqb_spec name other); [contradiction|exact IH].
  - cbn [lookupProp]. rewrite IH. reflexivity.
Qed.

Lemma lookupProp_hset_eq (position : nat) (name : string) (v : JsValue)
  (props : list (string * JsValue)) :
  lookupProp name (hset position name v props) = Some v.
Proof. unfold hset. apply lookupProp_insertAt_eq. apply lookupProp_removeProp_eq. Qed.

Lemma lookupProp_hset_ne (position : nat) (name other : string) (v : JsValue)
  (props : list (string * JsValue)) :
  name <> other -> lookupProp other (hset position name v props) = lookupProp other props.
Proof.
  intros Hne. unfold hset. rewrite lookupProp_insertAt_ne by exact Hne.
  apply lookupProp_removeProp_other. exact Hne.
Qed.

Lemma setHashObject_ok (group field : string) (value : JsValue) (w : World) :
  failure w OpSetHashObject group field = None ->
  setHashObject group field value w =
    (JNull, ack,
     withStore
       (<[group := hset (place w group field (map fst (hashOf group w))) field (held w value)
                     (hashOf group w)]> (store w))
       (emit (EvSet group field value) w)).
Proof. intros H. unfold setHashObject. rewrite H. reflexivity. Qed.

Lemma setHashObject_wire (group field : string) (value : JsValue) (w : World) :
  wire (snd (setHashObject group field value w)) = wire w.
Proof. unfold setHashObject. destruct (failure w _ _ _); reflexivity. Qed.

Lemma setHashObject_place (group field : string) (value : JsValue) (w : World) :
  place (snd (setHashObject group field value w)) = place w.
Proof. unfold setHashObject. destruct (failure w _ _ _); reflexivity. Qed.

Lemma setHashObject_trace (group field : string) (value : JsValue) (w : World) :
  trace (snd (setHashObject group field value w)) = EvSet group field value :: trace w.
Proof. unfold setHashObject. destruct (failure w _ _ _); reflexivity. Qed.

Lemma setHashObject_failure (group field : string) (value : JsValue) (w : World) :
  failure (snd (setHashObject group field value w)) = failure w.
Proof. unfold setHashObject. destruct (failure w _ _ _); reflexivity. Qed.


Lemma setHashObject_other_group (group field other : string) (value : JsValue) (w : World) :
  group <> other -> hashOf other (snd (setHashObject group field value w)) = hashOf other w.
Proof.
  intros Hne. unfold setHashObject. destruct (failure w _ _ _); cbn [snd].
  - reflexivity.
  - apply hashOf_withStore_insert_ne. exact Hne.
Qed.

Lemma storedValue_after_set (group field : string) (value : JsValue) (w : World) :
  failure w OpSetHashObject group field = None ->
  storedValue group field (snd (setHashObject group field value w)) = held w value.
Proof.
  intros H. rewrite (setHashObject_ok _ _ _ _ H). cbn [snd]. unfold storedValue.
  rewrite hashOf_withStore_insert, lookupProp_hset_eq. reflexivity.
Qed.

(** ** One configured backend: what each operation of src/index.js does *)

Lemma validateQueueFields_addressed (q : JsValue) (identifier key : string) :
  addresses q identifier key -> validateQueueFields q JFun JUndefined = Returns (JBool false).
Proof.
  intros (Hobj & Hid & Hidn & Hkey & Hkeyn & Hstore & _).
  unfold validateQueueFields. cbn [isUndefined typeof String.eqb Ascii.eqb Bool.eqb negb orb].
  rewrite Hobj, Hid, Hkey, Hstore, (blankString_JStr _ Hidn), (blankString_JStr _ Hkeyn).
  cbn. reflexivity.
Qed.

Lemma validateQueueFields_group (q : JsValue) (identifier : string) :
  addressesGroup q identifier ->
  validateQueueFields q JFun (JObj [("key", JBool true)]) = Returns (JBool false).
Proof.
  intros (Hobj & Hid & Hidn & Hstore & _).
  unfold validateQueueFields. cbn [isUndefined typeof String.eqb Ascii.eqb Bool.eqb negb orb].
  rewrite Hobj, Hid, Hstore, (blankString_JStr _ Hidn).
  cbn. reflexivity.
Qed.

Lemma readDispatch_registered (excludes : JsValue -> string -> bool) (this : QueueHandler)
  (entry : Entry) (q : JsValue) (identifier key : string) (w : World) :
  connectionHandler this = [("redis", entry)] ->
  excludes q "redis" = false ->
  get q "identifier" = JStr identifier ->
  get q "key" = JStr key ->
  In identifier (identifierSet entry) ->
  failure w OpGetHashObject identifier key = None ->
  readDispatch excludes this q w =
    (JNull,
     if (truthy (storedValue identifier key w)
         && truthy (get (storedValue identifier key w) "length"))%bool
     then JObj [("redis", storedValue identifier key w)] else JObj [],
     if truthy (storedValue identifier key w) then
       snd (setHashObject (servicesInfo this) (registrationKey (serviceName entry) identifier)
              (stampOf this (emit (EvGet identifier key) w)) (emit (EvGet identifier key) w))
     else emit (EvGet identifier key) w).
Proof.
  intros Hthis Hex Hid Hkey Hreg Hok.
  unfold readDispatch. rewrite Hthis. cbn [eachOf]. unfold atOnce, readLeg.
  rewrite Hex. change (toLowerCase "redis") with "redis". cbn [String.eqb Ascii.eqb Bool.eqb].
  rewrite Hid, Hkey. cbn [stringOf]. rewrite (registered_found _ _ Hreg).
  cbn [fst snd]. unfold getHashObject. rewrite Hok. cbn [snd fst truthy negb].
  fold (storedValue identifier key w).
  destruct (truthy (storedValue identifier key w)) eqn:Hv; cbn [andb negb].
  - unfold stampOf.
    destruct (setHashObject _ _ _ _) as [[e r] w2] eqn:Hset. cbn.
    destruct (truthy (get (storedValue identifier key w) "length")); reflexivity.
  - reflexivity.
Qed.

Lemma readFromQueue_registered (this : QueueHandler) (entry : Entry) (q : JsValue)
  (identifier key : string) (w : World) :
  connectionHandler this = [("redis", entry)] ->
  In identifier (identifierSet entry) ->
  addresses q identifier key ->
  failure w OpGetHashObject identifier key = None ->
  Index.readFromQueue this q JFun w =
    (CalledBack JNull
       (if (truthy (storedValue identifier key w)
            && truthy (get (storedValue identifier key w) "length"))%bool
        then JObj [("redis", storedValue identifier key w)] else JObj []),
     if truthy (storedValue identifier key w) then
       snd (setHashObject (servicesInfo this) (registrationKey (serviceName entry) identifier)
              (stampOf this (emit (EvGet identifier key) w)) (emit (EvGet identifier key) w))
     else emit (EvGet identifier key) w).
Proof.
  intros Hthis Hreg Hq Hok.
  unfold Index.readFromQueue. rewrite (validateQueueFields_addressed _ _ _ Hq).
  cbn [truthy].
  destruct Hq as (_ & Hid & _ & Hkey & _ & _ & Hex).
  rewrite (readDispatch_registered _ _ _ _ _ _ _ Hthis Hex Hid Hkey Hreg Hok).
  reflexivity.
Qed.

Lemma pushToQueue_registered (this : QueueHandler) (entry : Entry) (q : JsValue)
  (identifier key : string) (w : World) :
  connectionHandler this = [("redis", entry)] ->
  In identifier (identifierSet entry) ->
  addresses q identifier key ->
  emptyObject (get q "value") = false ->
  badTargetType (get (get q "value") "targetType") = false ->
  failure w OpSetHashObject identifier key = None ->
  Index.pushToQueue this q JFun w =
    (CalledBack JNull JUndefined,
     withStore
       (<[identifier := hset (place w identifier key (map fst (hashOf identifier w))) key
                          (held w (get q "value")) (hashOf identifier w)]> (store w))
       (emit (EvSet identifier key (get q "value")) w)).
Proof.
  intros Hthis Hreg Hq Hval Htarget Hok.
  unfold Index.pushToQueue. rewrite (validateQueueFields_addressed _ _ _ Hq).
  cbn [truthy]. rewrite Hval, Htarget.
  destruct Hq as (_ & Hid & _ & Hkey & _ & _ & Hex).
  rewrite Hthis. cbn [eachOf]. unfold atOnce, pushLeg.
  rewrite Hex. change (toLowerCase "redis") with "redis". cbn [String.eqb Ascii.eqb Bool.eqb].
  rewrite Hid, Hkey. cbn [stringOf]. rewrite (registered_found _ _ Hreg).
  rewrite (setHashObject_ok _ _ _ _ Hok). reflexivity.
Qed.

Lemma deleteKeyFromQueue_registered (this : QueueHandler) (entry : Entry) (q : JsValue)
  (identifier key : string) (w : World) :
  connectionHandler this = [("redis", entry)] ->
  In identifier (identifierSet entry) ->
  addresses q identifier key ->
  failure w OpDeleteHashKey identifier key = None ->
  Index.deleteKeyFromQueue this q JFun w =
    (CalledBack JNull
       (match lookupProp key (hashOf identifier w) with
        | Some _ => JObj [("redis", ack)]
        | None => JObj []
        end),
     withStore (<[identifier := removeProp key (hashOf identifier w)]> (store w))
       (emit (EvDelete identifier key) w)).
Proof.
  intros Hthis Hreg Hq Hok.
  unfold Index.deleteKeyFromQueue. rewrite (validateQueueFields_addressed _ _ _ Hq).
  cbn [truthy].
  destruct Hq as (_ & Hid & _ & Hkey & _ & _ & Hex).
  rewrite Hthis. cbn [eachOf]. unfold atOnce, deleteLeg.
  rewrite Hex. change (toLowerCase "redis") with "redis". cbn [String.eqb Ascii.eqb Bool.eqb].
  rewrite Hid, Hkey. cbn [stringOf fst snd]. rewrite (registered_found _ _ Hreg).
  unfold deleteHashKey. rewrite Hok.
  destruct (lookupProp key (hashOf identifier w)); reflexivity.
Qed.

Lemma sample_constructed : fst (constructor Sample.config Sample.world) = Builds Sample.handler.
Proof. vm_compute. reflexivity. Qed.

Lemma sample_ready_faultFree : faultFree Sample.ready.
Proof. intros op group field. reflexivity. Qed.

Lemma sample_order_addresses (key : string) (value : JsValue) :
  trim key <> "" -> addresses (Sample.order key value) "orders" key.
Proof.
  intros Hkey. unfold addresses. repeat split; try reflexivity; try exact Hkey.
  intros H. vm_compute in H. discriminate H.
Qed.

Lemma emptyObject_truthy (v : JsValue) : emptyObject v = false -> truthy v = true.
Proof.
  unfold emptyObject. intros H. destruct (truthy v); [reflexivity|discriminate H].
Qed.

(** ** Insert, read, delete *)

Lemma sized_truthy (v : JsValue) : sized v = true -> truthy v = true.
Proof. unfold sized. intros H. apply andb_prop in H. exact (proj1 H). Qed.



(** The example of the specification on the backend that holds text: the
    value comes back as its text, and after the delete, which is
    acknowledged, nothing comes back. *)
Example insert_read_delete_read_sample :
  let q := Sample.order "o1" Sample.email in
  let inserted := Index.pushToQueue Sample.handler q JFun Textual.ready in
  let read := Index.readFromQueue Sample.handler q JFun (snd inserted) in
  let deleted := Index.deleteKeyFromQueue Sample.handler q JFun (snd read) in
  let reread := Index.readFromQueue Sample.handler q JFun (snd deleted) in
  fst inserted = CalledBack JNull JUndefined /\
  fst read =
    CalledBack JNull
      (JObj [("redis", JStr (Textual.stringify (JObj [("targetType", JArr [JStr "email"])])))]) /\
  fst deleted = CalledBack JNull (JObj [("redis", ack)]) /\
  fst reread = CalledBack JNull (JObj []).
Proof. vm_compute. repeat split; reflexivity. Qed.

(** ** Reading: when the timestamp is written and when a result is reported *)

(** C10. In [readFromQueue] the last-read timestamp is written to
    [registeredServices] whenever the backend returns a truthy value, while the
    backend's entry is added to the result only when that value also has a
    truthy [length] (for the length of a string or an array: a positive one).
    Hence a value that the backend hands back as a non-empty object without a
    [length] is stamped, and the stamp is held as the last-read time when the
    write succeeds (as it is when it is a string, which a timestamp is), yet
    no result is reported for the backend. *)
Theorem read_stamps_truthy_reports_sized (this : QueueHandler) (entry : Entry)
  (q : JsValue) (identifier key : string) (w : World) :
  connectionHandler this = [("redis", entry)] ->
  In identifier (identifierSet entry) ->
  addresses q identifier key ->
  failure w OpGetHashObject identifier key = None ->
  let found := storedValue identifier key w in
  let field := registrationKey (serviceName entry) identifier in
  let stamp := stampOf this (emit (EvGet identifier key) w) in
  let after := snd (Index.readFromQueue this q JFun w) in
  trace after =
    ((if truthy found then [EvSet (servicesInfo this) field stamp] else [])
       ++ EvGet identifier key :: trace w)%list /\
  fst (Index.readFromQueue this q JFun w) =
    CalledBack JNull
      (if (truthy found && truthy (get found "length"))%bool
       then JObj [("redis", found)] else JObj []) /\
  (forall n : Z, get found "length" = JNum n -> 0 <= n ->
     (truthy (get found "length") = true <-> 0 < n)) /\
  (emptyObject found = false -> get found "length" = JUndefined ->
   trace after = EvSet (servicesInfo this) field stamp :: EvGet identifier key :: trace w /\
   (failure w OpSetHashObject (servicesInfo this) field = None ->
    storedValue (servicesInfo this) field after = held w stamp
    /\ (forall s, stamp = JStr s -> storedValue (servicesInfo this) field after = stamp)) /\
   fst (Index.readFromQueue this q JFun w) = CalledBack JNull (JObj [])).
Proof.
  intros Hthis Hreg Hq Hok found field stamp after.
  subst after.
  rewrite (readFromQueue_registered _ _ _ _ _ _ Hthis Hreg Hq Hok).
  fold found field stamp. cbn [fst snd].
  split; [|split; [reflexivity|split]].
  - destruct (truthy found); [|reflexivity].
    rewrite setHashObject_trace. reflexivity.
  - intros n Hn Hpos. rewrite Hn. cbn [truthy].
    destruct (Z.eqb_spec n 0) as [->|Hne]; cbn [negb].
    + split; intros H; [discriminate H|lia].
    + split; intros H; [lia|reflexivity].
  - intros Hobj Hlen. rewrite (emptyObject_truthy _ Hobj), Hlen.
    split; [|split].
    + rewrite setHashObject_trace. reflexivity.
    + intros Hset.
      pose proof (storedValue_after_set (servicesInfo this) field stamp
                    (emit (EvGet identifier key) w) Hset) as Hheld.
      split; [exact Hheld|].
      intros s Hs. rewrite Hheld, Hs. reflexivity.
    + reflexivity.
Qed.

Lemma read_stamps_truthy_reports_sized_witness :
  let w := snd (Index.pushToQueue Sample.handler (Sample.order "o1" Sample.email) JFun
                  Sample.ready) in
  let q := Sample.order "o1" Sample.email in
  trace (snd (Index.readFromQueue Sample.handler q JFun w)) =
    EvSet (servicesInfo Sample.handler) (registrationKey (serviceName Sample.entry) "orders")
      (stampOf Sample.handler (emit (EvGet "orders" "o1") w))
      :: EvGet "orders" "o1" :: trace w /\
  fst (Index.readFromQueue Sample.handler q JFun w) = CalledBack JNull (JObj []).
Proof.
  intros w q.
  destruct (read_stamps_truthy_reports_sized Sample.handler Sample.entry q "orders" "o1" w)
    as (_ & _ & _ & H).
  - reflexivity.
  - simpl. left. reflexivity.
  - apply sample_order_addresses. intros H. vm_compute in H. discriminate H.
  - reflexivity.
  - destruct H as (Htrace & _ & Hout).
    + vm_compute. reflexivity.
    + vm_compute. reflexivity.
    + split; [exact Htrace|exact Hout].
Defined.

(** ** Calls without a callback *)

(** C2, on the code: every operation of [src/index.js], Insert and Delete
    included, hands its callback to [validateQueueFields] first, so a call
    without one throws before anything is validated or sent to the backend. *)
Theorem index_operations_require_callback (this : QueueHandler) (q : JsValue) (w : World) :
  Index.pushToQueue this q JUndefined w = (Thrown (JStr msgCallbackExpected), w) /\
  Index.deleteKeyFromQueue this q JUndefined w = (Thrown (JStr msgCallbackExpected), w) /\
  Index.readFromQueue this q JUndefined w = (Thrown (JStr msgCallbackExpected), w) /\
  Index.readKeysFromQueue this q JUndefined w = (Thrown (JStr msgCallbackExpected), w) /\
  Index.readKeysAndValuesFromQueue this q JUndefined w =
    (Thrown (JStr msgCallbackExpected), this, w).
Proof. repeat split. Qed.

(** The earlier revision does what C2 says: without a callback the insert and
    the delete run, and only an error would be thrown. *)
Lemma part000_runs_without_callback :
  let q := Sample.order "o1" Sample.email in
  let inserted := Part000.pushToQueue Sample.handler q JUndefined Sample.ready in
  fst (fst inserted) = Completed /\
  storedValue "orders" "o1" (snd inserted) = Sample.email /\
  let deleted := Part000.deleteKeyFromQueue Sample.handler q JUndefined (snd inserted) in
  fst (fst deleted) = Completed /\
  storedValue "orders" "o1" (snd deleted) = absent.
Proof. vm_compute. repeat split. Qed.

Lemma index_throws_where_part000_runs :
  let q := Sample.order "o1" Sample.email in
  Index.pushToQueue Sample.handler q JUndefined Sample.ready =
    (Thrown (JStr msgCallbackExpected), Sample.ready) /\
  fst (fst (Part000.pushToQueue Sample.handler q JUndefined Sample.ready)) = Completed.
Proof.
  split.
  - generalize Sample.ready. intros w. reflexivity.
  - vm_compute. reflexivity.
Qed.

(** ** What Insert looks at inside the value *)

Lemma pushLeg_outcome_payload (excludes : JsValue -> string -> bool) (q1 q2 : JsValue)
  (value : Entry) (serviceStore : string) (w1 w2 : World) :
  excludes q1 serviceStore = excludes q2 serviceStore ->
  get q1 "identifier" = get q2 "identifier" ->
  get q1 "key" = get q2 "key" ->
  failure w1 = failure w2 ->
  fst (pushLeg excludes q1 value serviceStore w1) = fst (pushLeg excludes q2 value serviceStore w2)
  /\ failure (snd (pushLeg excludes q1 value serviceStore w1)) =
     failure (snd (pushLeg excludes q2 value serviceStore w2)).
Proof.
  intros Hex Hid Hkey Hfail. unfold pushLeg. rewrite Hex, Hid, Hkey.
  destruct (excludes q2 serviceStore); [split; [reflexivity|exact Hfail]|].
  destruct (String.eqb (toLowerCase serviceStore) "redis"); [|split; [reflexivity|exact Hfail]].
  destruct (notRegistered value (get q2 "identifier")); [split; [reflexivity|exact Hfail]|].
  unfold setHashObject. rewrite Hfail.
  destruct (failure w2 OpSetHashObject _ _); cbn [fst snd failure emit withStore];
    split; try reflexivity; exact Hfail.
Qed.

Lemma eachOf_atOnce_cons {A S : Type} (f : A -> string -> S -> JsValue * S) (key : string)
  (value : A) (rest : list (string * A)) (s : S) :
  eachOf ((key, value) :: rest) (fun v k => atOnce (f v k)) s =
    (let '(err, s1) := f value key s in
     let '(err', seen', s2) := eachOf rest (fun v k => atOnce (f v k)) s1 in
     if truthy err then (err, s1, s2) else (err', seen', s2)).
Proof. cbn [eachOf]. unfold atOnce at 1. destruct (f value key s). reflexivity. Qed.

Lemma eachOf_push_outcome_payload (excludes : JsValue -> string -> bool) (q1 q2 : JsValue)
  (handlers : list (string * Entry)) :
  (forall serviceStore, excludes q1 serviceStore = excludes q2 serviceStore) ->
  get q1 "identifier" = get q2 "identifier" ->
  get q1 "key" = get q2 "key" ->
  forall w1 w2 : World,
    failure w1 = failure w2 ->
    fst (fst (eachOf handlers (fun value serviceStore =>
                                 atOnce (pushLeg excludes q1 value serviceStore)) w1)) =
    fst (fst (eachOf handlers (fun value serviceStore =>
                                 atOnce (pushLeg excludes q2 value serviceStore)) w2))
    /\ failure (snd (eachOf handlers (fun value serviceStore =>
                                       atOnce (pushLeg excludes q1 value serviceStore)) w1)) =
       failure (snd (eachOf handlers (fun value serviceStore =>
                                       atOnce (pushLeg excludes q2 value serviceStore)) w2)).
Proof.
  intros Hex Hid Hkey.
  induction handlers as [|[name value] rest IH]; intros w1 w2 Hfail.
  - split; [reflexivity|exact Hfail].
  - rewrite !eachOf_atOnce_cons.
    destruct (pushLeg_outcome_payload excludes q1 q2 value name w1 w2 (Hex name) Hid Hkey Hfail)
      as [Herr Hnext].
    destruct (pushLeg excludes q1 value name w1) as [err1 u1].
    destruct (pushLeg excludes q2 value name w2) as [err2 u2].
    cbn [fst snd] in Herr, Hnext. subst err2.
    destruct (IH u1 u2 Hnext) as [Herr' Hfinal].
    destruct (eachOf rest _ u1) as [[e1 seen1] final1].
    destruct (eachOf rest _ u2) as [[e2 seen2] final2].
    cbn [fst snd] in Herr', Hfinal. subst e2.
    destruct (truthy err1); cbn [fst snd]; split; try reflexivity; exact Hfinal.
Qed.

Lemma storeExcludes_same_store (q1 q2 : JsValue) (serviceStore : string) :
  get q1 "store" = get q2 "store" ->
  Index.storeExcludes q1 serviceStore = Index.storeExcludes q2 serviceStore.
Proof. intros H. unfold Index.storeExcludes. rewrite H. reflexivity. Qed.

Lemma validateQueueFields_callback (q callback skipFields v : JsValue) :
  validateQueueFields q callback skipFields = Returns v ->
  isUndefined callback = false /\ typeof callback = "function".
Proof.
  unfold validateQueueFields. intros H.
  destruct (isUndefined callback); [discriminate H|]. split; [reflexivity|].
  destruct (String.eqb_spec (typeof callback) "function") as [E|E]; [exact E|discriminate H].
Qed.

(** C5, as amended. Once the request fields are valid, Insert rejects a value
    that is missing, not an object or empty, and it also rejects a value whose
    [targetType] is missing, not an array or empty; these two checks are all
    that is read of the value: two valid requests with the same identifier, key
    and store whose values pass both checks get the same outcome, whatever
    else the values hold. *)
Theorem insert_checks_value_and_targetType (this : QueueHandler) (q1 q2 callback : JsValue)
  (w : World) :
  validateQueueFields q1 callback JUndefined = Returns (JBool false) ->
  validateQueueFields q2 callback JUndefined = Returns (JBool false) ->
  get q1 "identifier" = get q2 "identifier" ->
  get q1 "key" = get q2 "key" ->
  get q1 "store" = get q2 "store" ->
  (emptyObject (get q1 "value") = true ->
   Index.pushToQueue this q1 callback w = (CalledBack (JStr msgValue) JNull, w)) /\
  (emptyObject (get q1 "value") = false ->
   badTargetType (get (get q1 "value") "targetType") = true ->
   Index.pushToQueue this q1 callback w = (CalledBack (JStr msgTargetType) JNull, w)) /\
  (emptyObject (get q1 "value") = false ->
   badTargetType (get (get q1 "value") "targetType") = false ->
   emptyObject (get q2 "value") = false ->
   badTargetType (get (get q2 "value") "targetType") = false ->
   fst (Index.pushToQueue this q1 callback w) = fst (Index.pushToQueue this q2 callback w)).
Proof.
  intros Hv1 Hv2 Hid Hkey Hstore.
  destruct (validateQueueFields_callback _ _ _ _ Hv1) as [Hdef Hfun].
  unfold Index.pushToQueue, invoke. rewrite Hv1, Hv2, Hdef, Hfun.
  cbn [truthy negb String.eqb Ascii.eqb Bool.eqb].
  split; [|split].
  - intros ->. reflexivity.
  - intros -> ->. reflexivity.
  - intros -> -> -> ->.
    destruct (eachOf_push_outcome_payload Index.storeExcludes q1 q2 (connectionHandler this)
                (fun s => storeExcludes_same_store q1 q2 s Hstore) Hid Hkey w w eq_refl)
      as [Herr _].
    destruct (eachOf (connectionHandler this) _ w) as [[e1 seen1] final1].
    destruct (eachOf (connectionHandler this) _ w) as [[e2 seen2] final2].
    cbn [fst snd] in Herr. subst e2. reflexivity.
Qed.

Lemma insert_checks_value_and_targetType_witness :
  fst (Index.pushToQueue Sample.handler (Sample.order "o1" Sample.email) JFun Sample.ready) =
  fst (Index.pushToQueue Sample.handler (Sample.order "o1" Sample.sized) JFun Sample.ready).
Proof.
  apply (insert_checks_value_and_targetType Sample.handler
           (Sample.order "o1" Sample.email) (Sample.order "o1" Sample.sized) JFun Sample.ready);
    reflexivity.
Defined.

(** C5, as stated, fails: two values that are both present, object-typed and
    non-empty, told apart by a field inside them. [{targetType: ["email"]}] is
    accepted; [{kind: "email"}] is refused for its target type. *)
Lemma insert_reads_targetType :
  let refused := JObj [("kind", JStr "email")] in
  emptyObject Sample.email = false /\
  emptyObject refused = false /\
  fst (Index.pushToQueue Sample.handler (Sample.order "o1" Sample.email) JFun Sample.ready) =
    CalledBack JNull JUndefined /\
  fst (Index.pushToQueue Sample.handler (Sample.order "o1" refused) JFun Sample.ready) =
    CalledBack (JStr msgTargetType) JNull.
Proof. cbv zeta. repeat split; vm_compute; reflexivity. Qed.

(** ** Construction *)

Lemma emitAll_app (a b : list Event) (w : World) :
  emitAll (a ++ b) w = emitAll b (emitAll a w).
Proof. unfold emitAll. apply fold_left_app. Qed.

Lemma emitAll_store (events : list Event) (w : World) : store (emitAll events w) = store w.
Proof.
  revert w. induction events as [|e rest IH]; intros w; [reflexivity|].
  cbn [emitAll fold_left]. fold (emitAll rest (emit e w)). rewrite IH. reflexivity.
Qed.

Lemma emitAll_failure (events : list Event) (w : World) :
  failure (emitAll events w) = failure w.
Proof.
  revert w. induction events as [|e rest IH]; intros w; [reflexivity|].
  cbn [emitAll fold_left]. fold (emitAll rest (emit e w)). rewrite IH. reflexivity.
Qed.

Lemma emitAll_invariant (P : World -> Prop) (info : string) :
  (forall u key, P u -> P (emit (EvGet info key) u)) ->
  forall (keys : list string) (w : World), P w -> P (emitAll (map (EvGet info) keys) w).
Proof.
  intros Hget keys. induction keys as [|key rest IH]; intros w HP; [exact HP|].
  cbn [map emitAll fold_left]. fold (emitAll (map (EvGet info) rest) (emit (EvGet info key) w)).
  apply IH. apply Hget. exact HP.
Qed.

Lemma getHashObject_answer (info key : string) (w w0 : World) :
  store w = store w0 -> failure w = failure w0 ->
  getHashObject info key w =
    (lookupErr (answerOf info w0 key), lookupResponse (answerOf info w0 key),
     emit (EvGet info key) w)
  /\ lookupKey (answerOf info w0 key) = key.
Proof.
  intros Hstore Hfail. unfold getHashObject, answerOf, storedValue, hashOf.
  rewrite Hstore, Hfail.
  destruct (failure w0 OpGetHashObject info key); split; reflexivity.
Qed.

Lemma answerOf_eta (info key : string) (w0 : World) :
  mkLookup key (lookupErr (answerOf info w0 key)) (lookupResponse (answerOf info w0 key)) =
    answerOf info w0 key.
Proof. unfold answerOf. destruct (failure w0 OpGetHashObject info key); reflexivity. Qed.

Lemma registeredNames_cons (name : string) (rest : list string) :
  registeredNames (name :: rest) =
    if String.eqb (trim name) "" then registeredNames rest
    else trim name :: registeredNames rest.
Proof.
  unfold registeredNames. cbn [List.filter].
  destruct (String.eqb (trim name) ""); reflexivity.
Qed.

(** What the constructor has done when it returns, for one entry: the
    identifiers on the set and the lookups sent, each with the answer the
    backend has for it. *)
Lemma registerEach_sent (info service : string) (w0 : World) :
  forall (names registered : list string) (sent : list Lookup) (w : World),
    store w = store w0 -> failure w = failure w0 ->
    registerEach info service names registered sent w =
      ((registered ++ registeredNames names)%list,
       (sent ++ map (answerOf info w0)
                  (map (registrationKey service) (registeredNames names)))%list,
       emitAll (map (EvGet info) (map (registrationKey service) (registeredNames names))) w).
Proof.
  intros names. induction names as [|name rest IH]; intros registered sent w Hstore Hfail.
  - cbn. rewrite !app_nil_r. reflexivity.
  - cbn [registerEach]. rewrite registeredNames_cons.
    destruct (String.eqb (trim name) ""); [apply IH; assumption|].
    destruct (getHashObject_answer info (registrationKey service (trim name)) w w0 Hstore Hfail)
      as [-> _].
    rewrite answerOf_eta, IH by assumption.
    cbn [map emitAll fold_left]. rewrite <- !app_assoc. reflexivity.
Qed.

Lemma keysOf_cons (element : string * Config.t) (rest : list (string * Config.t)) :
  keysOf (element :: rest) =
    (map (registrationKey (Config.serviceName (snd element)))
       (registeredNames (Config.identifierSet (snd element))) ++ keysOf rest)%list.
Proof. reflexivity. Qed.

(** The same for the whole configuration, up to the first store that is not
    redis. *)
Lemma registerStores_sent (info : string) (w0 : World) :
  forall (elements : list (string * Config.t)) (handlers : list (string * Entry))
         (sent : list Lookup) (w : World),
    store w = store w0 -> failure w = failure w0 ->
    registerStores info elements handlers sent w =
      (if forallb isRedis elements then JNull else JStr msgNotValidStore,
       fold_left (fun table element => assignEntry "redis" (entryOf (snd element)) table)
         (redisStores elements) handlers,
       (sent ++ map (answerOf info w0) (keysOf (redisStores elements)))%list,
       emitAll (map (EvGet info) (keysOf (redisStores elements))) w).
Proof.
  intros elements. induction elements as [|[serviceStore value] rest IH];
    intros handlers sent w Hstore Hfail.
  - cbn. rewrite app_nil_r. reflexivity.
  - cbn [registerStores].
    change (forallb isRedis ((serviceStore, value) :: rest))
      with (isRedis (serviceStore, value) && forallb isRedis rest)%bool.
    change (redisStores ((serviceStore, value) :: rest))
      with (if isRedis (serviceStore, value) then (serviceStore, value) :: redisStores rest
            else []).
    change (isRedis (serviceStore, value)) with (String.eqb (toLowerCase serviceStore) "redis").
    destruct (String.eqb (toLowerCase serviceStore) "redis").
    + rewrite (registerEach_sent info (Config.serviceName value) w0) by assumption.
      rewrite IH by (rewrite ?emitAll_store, ?emitAll_failure; assumption).
      cbn [andb fold_left snd app].
      rewrite keysOf_cons. cbn [snd]. rewrite !map_app, emitAll_app, <- app_assoc.
      reflexivity.
    + cbn. rewrite app_nil_r. reflexivity.
Qed.

(** The constructor in one piece: the lookups of the configured identifiers
    are sent, the instance is there, and the answers follow. *)
Lemma constructor_sent (connectionConfig : list (string * Config.t)) (w : World) :
  connectionConfig <> [] ->
  constructor connectionConfig w =
    (if forallb isRedis connectionConfig then
       if truthy (fst (answerEach "registeredServices" (now w)
                         (map (answerOf "registeredServices" w)
                            (keysOf (redisStores connectionConfig)))
                         (emitAll (map (EvGet "registeredServices")
                                     (keysOf (redisStores connectionConfig))) w)))
       then BuildsThenThrows
              {| connectionHandler :=
                   fold_left
                     (fun table element => assignEntry "redis" (entryOf (snd element)) table)
                     (redisStores connectionConfig) [];
                 servicesInfo := "registeredServices";
                 redisReadDate := JUndefined |}
              (fst (answerEach "registeredServices" (now w)
                      (map (answerOf "registeredServices" w)
                         (keysOf (redisStores connectionConfig)))
                      (emitAll (map (EvGet "registeredServices")
                                  (keysOf (redisStores connectionConfig))) w)))
       else Builds
              {| connectionHandler :=
                   fold_left
                     (fun table element => assignEntry "redis" (entryOf (snd element)) table)
                     (redisStores connectionConfig) [];
                 servicesInfo := "registeredServices";
                 redisReadDate := JUndefined |}
     else Fails (JStr msgNotValidStore),
     snd (answerEach "registeredServices" (now w)
            (map (answerOf "registeredServices" w) (keysOf (redisStores connectionConfig)))
            (emitAll (map (EvGet "registeredServices")
                        (keysOf (redisStores connectionConfig))) w))).
Proof.
  intros Hsome. unfold constructor, paramsValidator.
  destruct connectionConfig as [|element rest]; [contradiction|]. cbn [length Nat.eqb].
  rewrite (registerStores_sent "registeredServices" w) by reflexivity. cbn [app].
  destruct (answerEach _ _ _ _) as [late w2]. cbn [fst snd].
  destruct (forallb isRedis (element :: rest)); [|reflexivity].
  cbn [truthy]. destruct (truthy late); reflexivity.
Qed.

Lemma answerEach_cons (info date : string) (w0 : World) (key : string) (rest : list string)
  (u : World) :
  answerEach info date (map (answerOf info w0) (key :: rest)) u =
    match failure w0 OpGetHashObject info key with
    | Some msg =>
        (adapterError msg, snd (answerEach info date (map (answerOf info w0) rest) u))
    | None =>
        if truthy (storedValue info key w0) then
          answerEach info date (map (answerOf info w0) rest) u
        else
          answerEach info date (map (answerOf info w0) rest)
            (snd (setHashObject info key (JStr date) u))
    end.
Proof.
  cbn [map answerEach].
  generalize (answerEach info date (map (answerOf info w0) rest)). intros continue.
  unfold answerOf. destruct (failure w0 OpGetHashObject info key);
    cbn [lookupErr lookupResponse lookupKey adapterError truthy].
  - destruct (continue u). reflexivity.
  - destruct (truthy (storedValue info key w0)); [reflexivity|].
    destruct (setHashObject info key (JStr date) u) as [[e r] w1]. reflexivity.
Qed.

(** A property of the world that every first-seen write keeps, when it is for
    a key whose lookup found nothing, holds once the answers are through. *)
Lemma answerEach_invariant (P : World -> Prop) (info date : string) (w0 : World) :
  (forall u key, P u ->
     failure w0 OpGetHashObject info key = None ->
     truthy (storedValue info key w0) = false ->
     P (snd (setHashObject info key (JStr date) u))) ->
  forall (keys : list string) (u : World),
    P u -> P (snd (answerEach info date (map (answerOf info w0) keys) u)).
Proof.
  intros Hset keys. induction keys as [|key rest IH]; intros u HP; [exact HP|].
  rewrite answerEach_cons.
  destruct (failure w0 OpGetHashObject info key) eqn:Hok.
  - cbn [snd]. apply IH. exact HP.
  - destruct (truthy (storedValue info key w0)) eqn:Hfound; [apply IH; exact HP|].
    apply IH. apply Hset; assumption.
Qed.

(** What the final callback gets: nothing when no lookup fails, and the error
    of the first lookup that fails otherwise. *)
Lemma answerEach_quiet (info date : string) (w0 : World) (keys : list string) (u : World) :
  (forall key, In key keys -> failure w0 OpGetHashObject info key = None) ->
  fst (answerEach info date (map (answerOf info w0) keys) u) = JNull.
Proof.
  revert u. induction keys as [|key rest IH]; intros u Hok; [reflexivity|].
  rewrite answerEach_cons, (Hok key (or_introl eq_refl)).
  destruct (truthy (storedValue info key w0));
    apply IH; intros k Hk; apply Hok; right; exact Hk.
Qed.


(** A property of the world that every lookup keeps, and every first-seen
    write for a key that the backend did not hold when construction began,
    holds when construction is through. *)
Lemma constructor_invariant (P : World -> Prop) (connectionConfig : list (string * Config.t))
  (w : World) :
  (forall u key, P u -> P (emit (EvGet "registeredServices" key) u)) ->
  (forall u key, P u -> truthy (storedValue "registeredServices" key w) = false ->
     P (snd (setHashObject "registeredServices" key (JStr (now w)) u))) ->
  P w -> P (snd (constructor connectionConfig w)).
Proof.
  intros Hget Hset HP.
  destruct connectionConfig as [|element rest]; [exact HP|].
  rewrite constructor_sent by discriminate. cbn [snd].
  apply answerEach_invariant.
  - intros u key Hu _ Hfound. apply Hset; assumption.
  - apply emitAll_invariant; assumption.
Qed.

Lemma faultFree_emit (e : Event) (w : World) : faultFree w -> faultFree (emit e w).
Proof. intros H op group field. apply H. Qed.

Lemma faultFree_set (group field : string) (value : JsValue) (w : World) :
  faultFree w -> faultFree (snd (setHashObject group field value w)).
Proof. intros H op g f. rewrite setHashObject_failure. apply H. Qed.

Lemma lookup_after_set_other (group field other : string) (value : JsValue) (w : World) :
  field <> other ->
  lookupProp other (hashOf group (snd (setHashObject group field value w))) =
  lookupProp other (hashOf group w).
Proof.
  intros Hne. unfold setHashObject. destruct (failure w _ _ _); cbn [snd]; [reflexivity|].
  rewrite hashOf_withStore_insert. apply lookupProp_hset_ne. exact Hne.
Qed.

Lemma lookup_after_set_same (group field : string) (value : JsValue) (w : World) :
  failure w OpSetHashObject group field = None ->
  lookupProp field (hashOf group (snd (setHashObject group field value w))) =
    Some (held w value).
Proof.
  intros H. rewrite (setHashObject_ok _ _ _ _ H). cbn [snd].
  rewrite hashOf_withStore_insert. apply lookupProp_hset_eq.
Qed.

Lemma storedValue_lookup (group field : string) (v : JsValue) (w : World) :
  lookupProp field (hashOf group w) = Some v -> storedValue group field w = v.
Proof. intros H. unfold storedValue. rewrite H. reflexivity. Qed.

Lemma storedValue_truthy_lookup (group field : string) (w : World) :
  truthy (storedValue group field w) = true ->
  exists v, lookupProp field (hashOf group w) = Some v /\ truthy v = true.
Proof.
  unfold storedValue. destruct (lookupProp field (hashOf group w)) as [v|]; intros H.
  - exists v. split; [reflexivity|exact H].
  - discriminate H.
Qed.

(** A lookup that found nothing is never for a field that holds a truthy value. *)
Lemma unseen_is_another_field (group field key : string) (v : JsValue) (w : World) :
  lookupProp field (hashOf group w) = Some v -> truthy v = true ->
  truthy (storedValue group key w) = false -> key <> field.
Proof.
  intros Hheld Hv Hunseen ->. rewrite (storedValue_lookup _ _ _ _ Hheld) in Hunseen.
  congruence.
Qed.

Lemma allRedis_forallb (elements : list (string * Config.t)) :
  allRedis elements -> forallb isRedis elements = true /\ redisStores elements = elements.
Proof.
  unfold allRedis. induction elements as [|element rest IH]; intros Hall;
    [split; reflexivity|].
  inversion Hall as [|? ? Hredis Hrest]; subst. destruct (IH Hrest) as [Hb Hsame].
  assert (Hhere : isRedis element = true).
  { unfold isRedis. rewrite Hredis. reflexivity. }
  cbn [forallb redisStores]. rewrite Hhere, Hb, Hsame. split; reflexivity.
Qed.

Lemma forallb_allRedis (elements : list (string * Config.t)) :
  forallb isRedis elements = true -> allRedis elements.
Proof.
  unfold allRedis. induction elements as [|element rest IH]; intros Hall; [constructor|].
  cbn [forallb] in Hall. apply andb_prop in Hall. destruct Hall as [Hredis Hrest].
  constructor; [|apply IH; exact Hrest].
  unfold isRedis in Hredis. apply String.eqb_eq. exact Hredis.
Qed.

Lemma table_of_stores (elements : list (string * Config.t)) :
  fold_left (fun table element => assignEntry "redis" (entryOf (snd element)) table)
    elements [] = [] /\ elements = []
  \/ exists front last,
       elements = (front ++ [last])%list
       /\ fold_left (fun table element => assignEntry "redis" (entryOf (snd element)) table)
            elements [] = [("redis", entryOf (snd last))].
Proof.
  induction elements as [|last front IH] using rev_ind.
  - left. split; reflexivity.
  - right. exists front, last. split; [reflexivity|].
    rewrite fold_left_app. cbn [fold_left].
    destruct IH as [[-> _]|(front' & last' & _ & ->)]; reflexivity.
Qed.

Lemma keysOf_in (elements : list (string * Config.t)) (element : string * Config.t)
  (name : string) :
  In element elements -> In name (Config.identifierSet (snd element)) -> trim name <> "" ->
  In (registrationKey (Config.serviceName (snd element)) (trim name)) (keysOf elements).
Proof.
  intros Hin Hname Hfilled. unfold keysOf. apply in_flat_map. exists element.
  split; [exact Hin|]. apply in_map. unfold registeredNames. apply in_map. apply filter_In.
  split; [exact Hname|]. destruct (String.eqb_spec (trim name) ""); [contradiction|reflexivity].
Qed.

(** ** The registered identifiers *)

Lemma constructor_table (connectionConfig : list (string * Config.t))
  (w w' : World) (this : QueueHandler) :
  constructor connectionConfig w = (Builds this, w') ->
  exists front serviceStore value,
    connectionConfig = (front ++ [(serviceStore, value)])%list
    /\ connectionHandler this = [("redis", entryOf value)]
    /\ servicesInfo this = "registeredServices"
    /\ redisReadDate this = JUndefined.
Proof.
  destruct connectionConfig as [|element rest]; [intros H; discriminate H|].
  rewrite constructor_sent by discriminate.
  destruct (forallb isRedis (element :: rest)) eqn:Hall; [|intros H; discriminate H].
  destruct (truthy _); [intros H; discriminate H|].
  intros H. injection H as <- _. cbn [connectionHandler servicesInfo redisReadDate].
  change (if isRedis element then element :: redisStores rest else [])
    with (redisStores (element :: rest)).
  destruct (allRedis_forallb _ (forallb_allRedis _ Hall)) as [_ ->].
  destruct (table_of_stores (element :: rest)) as [[_ Hnil]|(front & [s value] & Hcfg & ->)].
  - discriminate Hnil.
  - exists front, s, value. split; [exact Hcfg|]. repeat split.
Qed.

(** C7, as amended. A construction that succeeds leaves one entry, [redis],
    whose [identifierSet] holds the trimmed identifiers of the supplied set
    that are not blank, in the order supplied and as often as supplied: blank
    entries are skipped, repeated ones are kept. (When the configuration names
    the redis store more than once, the last entry is the one that stays.) *)
Theorem constructed_identifierSet (connectionConfig : list (string * Config.t))
  (w w' : World) (this : QueueHandler) :
  constructor connectionConfig w = (Builds this, w') ->
  exists front serviceStore value,
    connectionConfig = (front ++ [(serviceStore, value)])%list
    /\ connectionHandler this =
       [("redis",
         {| connection := Config.queueConnector value;
            serviceName := Config.serviceName value;
            identifierSet :=
              map trim
                (List.filter (fun name => negb (String.eqb (trim name) ""))
                   (Config.identifierSet value)) |})].
Proof.
  intros Hbuilt.
  destruct (constructor_table connectionConfig w w' this Hbuilt)
    as (front & serviceStore & value & Hcfg & Htable & _).
  exists front, serviceStore, value. split; [exact Hcfg|exact Htable].
Qed.

Lemma constructed_identifierSet_witness :
  exists front serviceStore value,
    [("redis", Config.make JNull "svc" ["orders"; "  "; " bills "])] =
      (front ++ [(serviceStore, value)])%list
    /\ connectionHandler
         {| connectionHandler :=
              [("redis",
                {| connection := JNull; serviceName := "svc";
                   identifierSet := ["orders"; "bills"] |})];
            servicesInfo := "registeredServices";
            redisReadDate := JUndefined |} =
       [("redis",
         {| connection := Config.queueConnector value;
            serviceName := Config.serviceName value;
            identifierSet :=
              map trim
                (List.filter (fun name => negb (String.eqb (trim name) ""))
                   (Config.identifierSet value)) |})].
Proof.
  apply (constructed_identifierSet
           [("redis", Config.make JNull "svc" ["orders"; "  "; " bills "])]
           Sample.world
           (snd (constructor [("redis", Config.make JNull "svc" ["orders"; "  "; " bills "])]
                   Sample.world))).
  reflexivity.
Defined.

(** C7, as stated, fails: nothing removes duplicates. Constructing with
    [identifierSet = ["orders", " orders "]] registers [orders] twice. *)
Lemma constructed_identifierSet_keeps_duplicates :
  exists this entry,
    fst (constructor [("redis", Config.make JNull "svc" ["orders"; " orders "])] Sample.world) =
      Builds this
    /\ connectionHandler this = [("redis", entry)]
    /\ identifierSet entry = ["orders"; "orders"]
    /\ ~ NoDup (identifierSet entry).
Proof.
  eexists. eexists. split; [vm_compute; reflexivity|].
  split; [reflexivity|]. split; [reflexivity|].
  cbn [identifierSet]. intros H. apply NoDup_cons_1_1 in H. apply H. left.
Qed.

(** ** Adapter errors during construction *)

(** On a configuration of redis stores the constructor returns this instance:
    the last entry's, with every identifier of it that is not blank. *)
Lemma constructor_returns (front : list (string * Config.t)) (serviceStore : string)
  (value : Config.t) (w : World) :
  allRedis (front ++ [(serviceStore, value)])%list ->
  constructor (front ++ [(serviceStore, value)])%list w =
    (let late :=
       fst (answerEach "registeredServices" (now w)
              (map (answerOf "registeredServices" w)
                 (keysOf (front ++ [(serviceStore, value)])%list))
              (emitAll (map (EvGet "registeredServices")
                          (keysOf (front ++ [(serviceStore, value)])%list)) w)) in
     let this := {| connectionHandler := [("redis", entryOf value)];
                    servicesInfo := "registeredServices";
                    redisReadDate := JUndefined |} in
     if truthy late then BuildsThenThrows this late else Builds this,
     snd (constructor (front ++ [(serviceStore, value)])%list w)).
Proof.
  intros Hredis. destruct (allRedis_forallb _ Hredis) as [Hall Hsame].
  assert (Hsome : (front ++ [(serviceStore, value)])%list <> [])
    by (destruct front; discriminate).
  rewrite (constructor_sent _ w Hsome) at 1. rewrite Hall, Hsame. cbn [snd fst].
  assert (Htable :
    fold_left (fun table element => assignEntry "redis" (entryOf (snd element)) table)
      (front ++ [(serviceStore, value)])%list [] = [("redis", entryOf value)]).
  { destruct (table_of_stores (front ++ [(serviceStore, value)])%list)
      as [[_ Hnil]|(front' & last' & Hsplit & ->)]; [contradiction|].
    apply app_inj_tail in Hsplit. destruct Hsplit as [_ <-]. reflexivity. }
  rewrite Htable, (constructor_sent _ w Hsome), Hsame. cbn [snd]. reflexivity.
Qed.



(** C3, as stated, fails for a lookup: on a server that answers no lookup
    the constructor hands out the instance all the same; the error is thrown
    afterwards, from the final callback; and the instance is usable: an insert
    under its identifier goes through. *)
Example construction_outlives_lookup_error :
  fst (constructor Sample.config Sample.unreachable) =
    BuildsThenThrows Sample.handler (adapterError "ECONNREFUSED") /\
  trace (snd (constructor Sample.config Sample.unreachable)) =
    [EvGet "registeredServices" "svc_orders"] /\
  fst (Index.pushToQueue Sample.handler (Sample.order "o1" Sample.email) JFun
         (snd (constructor Sample.config Sample.unreachable))) = CalledBack JNull JUndefined.
Proof. repeat split; vm_compute; reflexivity. Qed.


(** ** Registering again *)

Lemma faultFree_constructor (connectionConfig : list (string * Config.t)) (w : World) :
  faultFree w -> faultFree (snd (constructor connectionConfig w)).
Proof.
  apply (constructor_invariant faultFree).
  - intros u key H. apply faultFree_emit. exact H.
  - intros u key H _. apply faultFree_set. exact H.
Qed.

Lemma constructor_builds (front : list (string * Config.t)) (serviceStore : string)
  (value : Config.t) (w : World) :
  faultFree w ->
  allRedis (front ++ [(serviceStore, value)])%list ->
  fst (constructor (front ++ [(serviceStore, value)])%list w) =
    Builds {| connectionHandler := [("redis", entryOf value)];
              servicesInfo := "registeredServices";
              redisReadDate := JUndefined |}
  /\ faultFree (snd (constructor (front ++ [(serviceStore, value)])%list w)).
Proof.
  intros Hw Hredis. split; [|apply faultFree_constructor; exact Hw].
  rewrite (constructor_returns front serviceStore value w Hredis). cbn [fst].
  rewrite answerEach_quiet by (intros key _; apply Hw). reflexivity.
Qed.

(** A field of the meta-group is either as it was or holds this
    construction's date. *)
Lemma first_seen_or_untouched (connectionConfig : list (string * Config.t)) (w : World)
  (field : string) :
  lookupProp field (hashOf "registeredServices" w) = None ->
  lookupProp field (hashOf "registeredServices" (snd (constructor connectionConfig w))) = None
  \/ lookupProp field (hashOf "registeredServices" (snd (constructor connectionConfig w))) =
     Some (JStr (now w)).
Proof.
  intros Hnone.
  apply (constructor_invariant
           (fun u => lookupProp field (hashOf "registeredServices" u) = None
                     \/ lookupProp field (hashOf "registeredServices" u) = Some (JStr (now w)))).
  - intros u key H. exact H.
  - intros u key H _.
    destruct (String.eqb_spec key field) as [->|Hother].
    + unfold setHashObject. destruct (failure _ _ _ _); cbn [snd]; [exact H|].
      right. rewrite hashOf_withStore_insert. apply lookupProp_hset_eq.
    + rewrite lookup_after_set_other by exact Hother. exact H.
  - left. exact Hnone.
Qed.

Lemma held_kept_by_constructor (connectionConfig : list (string * Config.t)) (w : World)
  (field : string) (v : JsValue) :
  lookupProp field (hashOf "registeredServices" w) = Some v ->
  truthy v = true ->
  exists events,
    extends w (snd (constructor connectionConfig w)) events
    /\ (forall x, ~ In (EvSet "registeredServices" field x) events)
    /\ lookupProp field (hashOf "registeredServices" (snd (constructor connectionConfig w))) =
       Some v.
Proof.
  intros Hheld Hv.
  apply (constructor_invariant
           (fun u => exists events,
                extends w u events
                /\ (forall x, ~ In (EvSet "registeredServices" field x) events)
                /\ lookupProp field (hashOf "registeredServices" u) = Some v)).
  - intros u key (events & Hext & Hnone & Hkept).
    exists (EvGet "registeredServices" key :: events). split; [|split].
    + unfold extends in *. cbn [trace emit]. rewrite Hext. reflexivity.
    + intros x [Habsurd|Hin]; [discriminate Habsurd|exact (Hnone x Hin)].
    + exact Hkept.
  - intros u key (events & Hext & Hnone & Hkept) Hunseen.
    pose proof (unseen_is_another_field _ _ _ _ _ Hheld Hv Hunseen) as Hother.
    exists (EvSet "registeredServices" key (JStr (now w)) :: events).
    split; [|split].
    + unfold extends in *. rewrite setHashObject_trace. rewrite Hext. reflexivity.
    + intros x [Habsurd|Hin].
      * injection Habsurd as Hfield _. contradiction.
      * exact (Hnone x Hin).
    + rewrite lookup_after_set_other by exact Hother. exact Hkept.
  - exists []. split; [reflexivity|]. split; [intros x []|exact Hheld].
Qed.

(** Once a key's turn has come, the backend holds a truthy value under it,
    and the answers that follow leave one there. *)
Lemma answerEach_registers (info date : string) (w0 : World) (key : string) :
  truthy (JStr date) = true ->
  faultFree w0 ->
  forall (keys : list string) (u : World),
    failure u = failure w0 ->
    (forall field v, lookupProp field (hashOf info w0) = Some v -> truthy v = true ->
                     lookupProp field (hashOf info u) = Some v) ->
    (In key keys
     \/ exists v, lookupProp key (hashOf info u) = Some v /\ truthy v = true) ->
    exists v,
      lookupProp key (hashOf info (snd (answerEach info date (map (answerOf info w0) keys) u))) =
        Some v
      /\ truthy v = true.
Proof.
  intros Hdate Hw keys. induction keys as [|head rest IH]; intros u Hfail Hkept Hcase.
  - destruct Hcase as [[]|Hheld]. exact Hheld.
  - rewrite answerEach_cons, (Hw OpGetHashObject).
    destruct (truthy (storedValue info head w0)) eqn:Hfound.
    + apply IH; [exact Hfail|exact Hkept|].
      destruct Hcase as [[->|Hin]|Hheld]; [|left; exact Hin|right; exact Hheld].
      right. destruct (storedValue_truthy_lookup _ _ _ Hfound) as (v & Hv & Htruthy).
      exists v. split; [apply Hkept; assumption|exact Htruthy].
    + pose proof (lookup_after_set_same info head (JStr date) u) as Hsame.
      pose proof (fun other => lookup_after_set_other info head other (JStr date) u) as Hother.
      pose proof (setHashObject_failure info head (JStr date) u) as Hfail1.
      apply IH.
      * rewrite Hfail1. exact Hfail.
      * intros field v Hv Htruthy. rewrite Hother; [apply Hkept; assumption|].
        apply (unseen_is_another_field info field head v w0 Hv Htruthy Hfound).
      * destruct (String.eqb_spec head key) as [->|Hne].
        -- right. exists (JStr date). split; [|exact Hdate].
           apply Hsame. rewrite Hfail. apply Hw.
        -- destruct Hcase as [[Heq|Hin]|(v & Hv & Htruthy)];
             [contradiction|left; exact Hin|].
           right. exists v. split; [|exact Htruthy]. rewrite Hother by exact Hne. exact Hv.
Qed.

Lemma constructor_registers (connectionConfig : list (string * Config.t)) (w : World)
  (element : string * Config.t) (name : string) :
  faultFree w ->
  allRedis connectionConfig ->
  In element connectionConfig -> In name (Config.identifierSet (snd element)) ->
  trim name <> "" ->
  exists v,
    lookupProp (registrationKey (Config.serviceName (snd element)) (trim name))
      (hashOf "registeredServices" (snd (constructor connectionConfig w))) = Some v
    /\ truthy v = true.
Proof.
  intros Hw Hall Hin Hname Hfilled.
  destruct connectionConfig as [|head rest]; [destruct Hin|].
  rewrite constructor_sent by discriminate. cbn [snd].
  destruct (allRedis_forallb _ Hall) as [_ ->].
  apply (answerEach_registers "registeredServices" (now w) w _ (now_truthy w) Hw).
  - apply emitAll_failure.
  - intros field v Hv _. unfold hashOf. rewrite emitAll_store. exact Hv.
  - left. apply keysOf_in; assumption.
Qed.

(** C6. Registration is idempotent. A registration key that is present in
    [registeredServices] with a timestamp (any truthy value) is left untouched
    by construction: no write is issued for it and it holds the same value
    afterwards. And when no adapter call fails, constructing twice against the
    same backend leaves under the key of every configured, non-blank
    identifier the value it had after the first construction, which is the
    first construction's timestamp when the key was not there before. *)
Theorem registration_idempotent (connectionConfig : list (string * Config.t)) (w : World) :
  (forall field v,
     lookupProp field (hashOf "registeredServices" w) = Some v -> truthy v = true ->
     exists events,
       extends w (snd (constructor connectionConfig w)) events
       /\ (forall x, ~ In (EvSet "registeredServices" field x) events)
       /\ lookupProp field (hashOf "registeredServices" (snd (constructor connectionConfig w))) =
          Some v) /\
  (faultFree w -> allRedis connectionConfig ->
   forall element name,
     In element connectionConfig -> In name (Config.identifierSet (snd element)) ->
     trim name <> "" ->
     let field := registrationKey (Config.serviceName (snd element)) (trim name) in
     let first := snd (constructor connectionConfig w) in
     let second := snd (constructor connectionConfig first) in
     exists stamp,
       lookupProp field (hashOf "registeredServices" first) = Some stamp
       /\ truthy stamp = true
       /\ lookupProp field (hashOf "registeredServices" second) = Some stamp
       /\ (lookupProp field (hashOf "registeredServices" w) = None -> stamp = JStr (now w))).
Proof.
  split.
  - intros field v Hheld Hv. apply held_kept_by_constructor; assumption.
  - intros Hw Hall element name Hin Hname Hfilled field first second.
    destruct (constructor_registers connectionConfig w element name Hw Hall Hin Hname Hfilled)
      as [stamp [Hfirst Hstamp]].
    fold field first in Hfirst.
    exists stamp. split; [exact Hfirst|]. split; [exact Hstamp|]. split.
    + destruct (held_kept_by_constructor connectionConfig first field stamp Hfirst Hstamp)
        as (events & _ & _ & Hsecond).
      exact Hsecond.
    + intros Hnone.
      destruct (first_seen_or_untouched connectionConfig w field Hnone) as [Habsurd|Hdate];
        fold first in Habsurd || fold first in Hdate; congruence.
Qed.

Lemma registration_idempotent_witness :
  let first := snd (constructor Sample.config Sample.world) in
  let second := snd (constructor Sample.config first) in
  exists stamp,
    lookupProp "svc_orders" (hashOf "registeredServices" first) = Some stamp
    /\ truthy stamp = true
    /\ lookupProp "svc_orders" (hashOf "registeredServices" second) = Some stamp
    /\ (lookupProp "svc_orders" (hashOf "registeredServices" Sample.world) = None ->
        stamp = JStr (now Sample.world)).
Proof.
  apply (proj2 (registration_idempotent Sample.config Sample.world))
    with (element := ("redis", Config.make JNull "svc" ["orders"])) (name := "orders").
  - intros op group field. reflexivity.
  - constructor; [reflexivity|constructor].
  - left. reflexivity.
  - left. reflexivity.
  - intros H. vm_compute in H. discriminate H.
Defined.

Example registration_idempotent_sample :
  now Sample.world = "2023-11-14T22:13:20" /\
  now (snd (constructor Sample.config Sample.world)) = "2023-11-14T22:13:22" /\
  storedValue "registeredServices" "svc_orders"
    (snd (constructor Sample.config (snd (constructor Sample.config Sample.world)))) =
    JStr "2023-11-14T22:13:20".
Proof. repeat split; vm_compute; reflexivity. Qed.

(** ** The slot [redisReadDate] and the batch of readKeysAndValuesFromQueue *)

Lemma readLeg_events (excludes : JsValue -> string -> bool) (this : QueueHandler)
  (q : JsValue) (value : Entry) (serviceStore : string) (st : JsValue * World) :
  exists events,
    trace (snd (snd (readLeg excludes this q value serviceStore st))) =
      (events ++ trace (snd st))%list
    /\ Forall (readEvent (redisReadDate this)) events.
Proof.
  unfold readLeg.
  destruct (excludes q serviceStore); [exists []; split; [reflexivity|constructor]|].
  destruct (String.eqb (toLowerCase serviceStore) "redis");
    [|exists []; split; [reflexivity|constructor]].
  destruct (notRegistered value (get q "identifier"));
    [exists []; split; [reflexivity|constructor]|].
  unfold getHashObject.
  destruct (failure (snd st) OpGetHashObject _ _).
  - cbn. eexists [_]. split; [reflexivity|]. constructor; [exact I|constructor].
  - cbn [truthy].
    destruct (truthy (match lookupProp _ _ with Some v => v | None => absent end)).
    + cbn [negb].
      pose proof (setHashObject_trace (servicesInfo this)
                    (registrationKey (serviceName value) (stringOf (get q "identifier")))
                    (if truthy (redisReadDate this) then redisReadDate this
                     else JStr (now (emit (EvGet (stringOf (get q "identifier"))
                                             (stringOf (get q "key"))) (snd st))))
                    (emit (EvGet (stringOf (get q "identifier")) (stringOf (get q "key")))
                       (snd st))) as Htrace.
      destruct (setHashObject _ _ _ _) as [[e r] w2]. cbn [snd] in Htrace |- *.
      rewrite Htrace. eexists [_; _]. split; [reflexivity|].
      constructor; [|constructor; [exact I|constructor]].
      cbn. intros Hslot. rewrite Hslot. reflexivity.
    + cbn. eexists [_]. split; [reflexivity|]. constructor; [exact I|constructor].
Qed.

Lemma readDispatch_events (excludes : JsValue -> string -> bool) (this : QueueHandler)
  (q : JsValue) (w : World) :
  exists events,
    trace (snd (readDispatch excludes this q w)) = (events ++ trace w)%list
    /\ Forall (readEvent (redisReadDate this)) events.
Proof.
  unfold readDispatch.
  enough (Hlegs : forall (handlers : list (string * Entry)) (st : JsValue * World),
             exists events,
               trace (snd (snd (eachOf handlers
                                  (fun value serviceStore =>
                                     atOnce (readLeg excludes this q value serviceStore)) st))) =
                 (events ++ trace (snd st))%list
               /\ Forall (readEvent (redisReadDate this)) events).
  { destruct (Hlegs (connectionHandler this) (JObj [], w)) as (events & Htrace & Hevents).
    destruct (eachOf (connectionHandler this) _ (JObj [], w)) as [[err seen] final].
    exists events. split; [exact Htrace|exact Hevents]. }
  induction handlers as [|[name value] rest IH]; intros st.
  - exists []. split; [reflexivity|constructor].
  - rewrite eachOf_atOnce_cons.
    destruct (readLeg_events excludes this q value name st) as (first & Hfirst & Hfirstok).
    destruct (readLeg excludes this q value name st) as [err st1].
    cbn [snd] in Hfirst.
    destruct (IH st1) as (others & Hothers & Hothersok).
    destruct (eachOf rest _ st1) as [[err' seen'] st2]. cbn [snd] in Hothers.
    exists (others ++ first)%list. split.
    + destruct (truthy err); cbn [snd]; rewrite Hothers, Hfirst, app_assoc; reflexivity.
    + apply Forall_app. split; assumption.
Qed.










Lemma get_assign_eq (name : string) (x : JsValue) (props : list (string * JsValue)) :
  get (assign name x (JObj props)) name = x.
Proof. cbn [assign get]. rewrite lookupProp_assignProp_eq. reflexivity. Qed.

Lemma get_assign_ne (name other : string) (x : JsValue) (props : list (string * JsValue)) :
  name <> other -> get (assign name x (JObj props)) other = get (JObj props) other.
Proof.
  intros Hne. cbn [assign get]. rewrite lookupProp_assignProp_ne by exact Hne. reflexivity.
Qed.

Lemma assignProp_filled (name : string) (x : JsValue) (props : list (string * JsValue)) :
  (Z.of_nat (length (assignProp name x props)) =? 0)%Z = false.
Proof.
  apply Z.eqb_neq. destruct props as [|[k v] rest]; cbn [assignProp].
  - cbn. lia.
  - destruct (String.eqb k name); cbn [length]; lia.
Qed.

Lemma addressed_is_object (q : JsValue) (identifier : string) :
  get q "identifier" = JStr identifier -> exists props, q = JObj props.
Proof.
  destruct q as [| |b|n|s|items|props|]; cbn; intros H; try discriminate H.
  exists props. reflexivity.
Qed.

Lemma keyRequest_addresses (q : JsValue) (identifier key : string) :
  addressesGroup q identifier -> trim key <> "" ->
  addresses
    (assign "store" (JArr [JStr "redis"]) (assign "key" (JStr key) (objectAssignEmpty q)))
    identifier key.
Proof.
  intros (Hobj & Hid & Hidn & _ & _) Hkey.
  destruct (addressed_is_object q identifier Hid) as [props ->].
  cbn [objectAssignEmpty]. unfold addresses, Index.storeExcludes.
  change (assign "key" (JStr key) (JObj props)) with (JObj (assignProp "key" (JStr key) props)).
  rewrite !(get_assign_ne "store") by (intros H; discriminate H).
  rewrite get_assign_eq.
  change (JObj (assignProp "key" (JStr key) props)) with (assign "key" (JStr key) (JObj props)).
  rewrite get_assign_eq.
  rewrite (get_assign_ne "key" "identifier") by (intros H; discriminate H).
  split; [|split; [exact Hid|split; [exact Hidn|split; [reflexivity|split; [exact Hkey|]]]]].
  - unfold emptyObject. cbn [assign truthy typeof objectKeysLength negb orb].
    rewrite assignProp_filled. reflexivity.
  - split; reflexivity.
Qed.










(** A batch over two keys on the sample deployment: one listing, one
    assignment of the slot, two reads stamped with it, one clearing. *)
Example batch_trace_sample :
  let w := insertAll Sample.handler "orders" [("o1", Sample.email); ("o2", Sample.sized)]
             Sample.ready in
  let run := Index.readKeysAndValuesFromQueue Sample.handler Sample.orders JFun w in
  firstn 7 (trace (snd run)) =
    [EvReadDate JNull;
     EvSet "registeredServices" "svc_orders" (JStr "2023-11-14T22:13:25");
     EvGet "orders" "o2";
     EvSet "registeredServices" "svc_orders" (JStr "2023-11-14T22:13:25");
     EvGet "orders" "o1";
     EvReadDate (JStr "2023-11-14T22:13:25");
     EvKeys "orders"]
  /\ redisReadDate (snd (fst run)) = JNull.
Proof. vm_compute. split; reflexivity. Qed.

(** A batch in which the read of the first key fails: the slot is cleared at
    once, and the read of the second key, already under way, stamps the time
    of its own completion. *)
Example batch_trace_failed_read :
  let w := insertAll Sample.handler "orders" [("o1", Sample.sized); ("o2", Sample.sized)]
             Sample.ready in
  let broken :=
    withFailure
      (fun op group field =>
         match op with
         | OpGetHashObject => if String.eqb field "o1" then Some "EIO" else None
         | _ => None
         end) w in
  let run := Index.readKeysAndValuesFromQueue Sample.handler Sample.orders JFun broken in
  firstn 6 (trace (snd run)) =
    [EvSet "registeredServices" "svc_orders" (JStr "2023-11-14T22:13:29");
     EvGet "orders" "o2";
     EvReadDate JNull;
     EvGet "orders" "o1";
     EvReadDate (JStr "2023-11-14T22:13:25");
     EvKeys "orders"]
  /\ fst (fst run) = CalledBack (adapterError "EIO") (JObj [("redis", JArr [])])
  /\ redisReadDate (snd (fst run)) = JNull.
Proof. vm_compute. repeat split; reflexivity. Qed.

(** ** Listing keys and values after inserts *)

Lemma writtenValues_app (a b : list Event) :
  writtenValues (a ++ b) = (writtenValues a ++ writtenValues b)%list.
Proof. unfold writtenValues. apply flat_map_app. Qed.

Lemma readEachKey_rows (q : JsValue) (identifier ts : string) (entry : Entry) :
  addressesGroup q identifier ->
  truthy (JStr ts) = true ->
  forall (kvs : list (string * JsValue)) (st : Frame) (rows : list JsValue),
    connectionHandler (self st) = [("redis", entry)] ->
    In identifier (identifierSet entry) ->
    redisReadDate (self st) = JStr ts ->
    identifier <> servicesInfo (self st) ->
    faultFree (world st) ->
    result st = JObj [("redis", JArr rows)] ->
    (forall kv, In kv kvs ->
       lookupProp (fst kv) (hashOf identifier (world st)) = Some (snd kv)
       /\ trim (fst kv) <> "") ->
    exists events final,
      Index.readEachKey q (map (fun kv => JStr (fst kv)) kvs) None st = (JNull, final, final)
      /\ result final = JObj [("redis", JArr (rows ++ rowsOf q kvs))]
      /\ trace (world final) = (EvReadDate JNull :: events ++ trace (world st))%list
      /\ writtenValues events = repeat (JStr ts) (truthyValues kvs)
      /\ (forall group field v,
            In (EvSet group field v) events ->
            group = servicesInfo (self st)
            /\ field = registrationKey (serviceName entry) identifier)
      /\ (storedValue (servicesInfo (self st))
            (registrationKey (serviceName entry) identifier) (world st) = JStr ts
          \/ truthyValues kvs <> 0%nat ->
          storedValue (servicesInfo (self st))
            (registrationKey (serviceName entry) identifier) (world final) = JStr ts).
Proof.
  intros Hq Hts kvs.
  induction kvs as [|[key v] rest IH]; intros st rows Hthis Hreg Hslot Hother Hw Hres Hheld.
  - exists [], (setReadDate JNull st). cbn [map Index.readEachKey].
    split; [reflexivity|]. split; [cbn; rewrite Hres, app_nil_r; reflexivity|].
    split; [reflexivity|]. split; [reflexivity|]. split; [intros group field x []|].
    intros [Hstored|Hnone]; [exact Hstored|contradiction Hnone; reflexivity].
  - destruct (Hheld (key, v) (or_introl eq_refl)) as [Hv Hkey]. cbn [fst snd] in Hv, Hkey.
    cbn [map Index.readEachKey fst].
    rewrite (readFromQueue_registered (self st) entry _ identifier key (world st) Hthis Hreg
               (keyRequest_addresses q identifier key Hq Hkey) (Hw _ _ _)).
    rewrite (storedValue_lookup _ _ _ _ Hv).
    unfold stampOf. rewrite Hslot, Hts.
    set (dataObj := assign "store" (JArr [JStr "redis"])
                      (assign "key" (JStr key) (objectAssignEmpty q))).
    set (field := registrationKey (serviceName entry) identifier).
    set (w1 := if truthy v
               then snd (setHashObject (servicesInfo (self st)) field (JStr ts)
                           (emit (EvGet identifier key) (world st)))
               else emit (EvGet identifier key) (world st)).
    assert (Hw1 : faultFree w1).
    { unfold w1. destruct (truthy v);
        [apply faultFree_set, faultFree_emit|apply faultFree_emit]; exact Hw. }
    assert (Hhash : hashOf identifier w1 = hashOf identifier (world st)).
    { unfold w1. destruct (truthy v); [|reflexivity].
      rewrite setHashObject_other_group by (intros H; apply Hother; symmetry; exact H).
      reflexivity. }
    assert (Hstamp : truthy v = true ->
              storedValue (servicesInfo (self st)) field w1 = JStr ts).
    { unfold w1. intros ->. apply storedValue_after_set. apply Hw. }
    assert (Hsame : truthy v = false ->
              storedValue (servicesInfo (self st)) field w1 =
              storedValue (servicesInfo (self st)) field (world st)).
    { unfold w1. intros ->. reflexivity. }
    assert (Htrace : trace w1 =
              ((if truthy v then [EvSet (servicesInfo (self st)) field (JStr ts)] else [])
                 ++ EvGet identifier key :: trace (world st))%list).
    { unfold w1. destruct (truthy v); [rewrite setHashObject_trace|]; reflexivity. }
    clearbody w1.
    set (next := if (truthy v && truthy (get v "length"))%bool
                 then withResult (pushRow (assign "value" v dataObj) (result st))
                        (withWorld w1 st)
                 else withWorld w1 st).
    assert (Hstep :
      (let '(err, response) :=
         (JNull, if (truthy v && truthy (get v "length"))%bool
                 then JObj [("redis", v)] else JObj []) in
       if truthy err then
         Index.readEachKey q (map (fun kv => JStr (fst kv)) rest)
           (Some (err,
                  setReadDate JNull
                    (if (truthy response && truthy (get response "redis")
                         && truthy (get (get response "redis") "length"))%bool
                     then withResult
                            (pushRow (assign "value" (get response "redis") dataObj)
                               (result st)) (withWorld w1 st)
                     else withWorld w1 st)))
           (setReadDate JNull
              (if (truthy response && truthy (get response "redis")
                   && truthy (get (get response "redis") "length"))%bool
               then withResult
                      (pushRow (assign "value" (get response "redis") dataObj) (result st))
                      (withWorld w1 st)
               else withWorld w1 st))
       else
         Index.readEachKey q (map (fun kv => JStr (fst kv)) rest) None
           (if (truthy response && truthy (get response "redis")
                && truthy (get (get response "redis") "length"))%bool
            then withResult
                   (pushRow (assign "value" (get response "redis") dataObj) (result st))
                   (withWorld w1 st)
            else withWorld w1 st)) =
      Index.readEachKey q (map (fun kv => JStr (fst kv)) rest) None next).
    { unfold next. cbn [truthy].
      destruct (truthy v) eqn:Hvt; destruct (truthy (get v "length")) eqn:Hlen;
        cbn [andb truthy get lookupProp String.eqb Ascii.eqb Bool.eqb];
        rewrite ?Hvt, ?Hlen; reflexivity. }
    cbn [fst snd]. rewrite Hstep. clear Hstep.
    assert (Hnext_self : self next = self st)
      by (unfold next; destruct (_ && _)%bool; reflexivity).
    assert (Hnext_world : world next = w1)
      by (unfold next; destruct (_ && _)%bool; reflexivity).
    assert (Hnext_result :
              result next =
              JObj [("redis",
                     JArr (rows ++ (if (truthy v && truthy (get v "length"))%bool
                                    then [rowOf q key v] else []))%list)]).
    { unfold next. destruct (_ && _)%bool.
      - cbn [result withResult]. rewrite Hres. reflexivity.
      - cbn [result withWorld]. rewrite Hres, app_nil_r. reflexivity. }
    clearbody next.
    destruct (IH next (rows ++ (if (truthy v && truthy (get v "length"))%bool
                                then [rowOf q key v] else []))%list)
      as (events & final & Hrun & Hrows & Hfinal & Hwritten & Hwhere & Hstored).
    + rewrite Hnext_self. exact Hthis.
    + exact Hreg.
    + rewrite Hnext_self. exact Hslot.
    + rewrite Hnext_self. exact Hother.
    + rewrite Hnext_world. exact Hw1.
    + exact Hnext_result.
    + intros kv Hin. rewrite Hnext_world, Hhash. apply Hheld. right. exact Hin.
    + exists (events ++ (if truthy v
                         then [EvSet (servicesInfo (self st)) field (JStr ts)] else [])
                ++ [EvGet identifier key])%list, final.
      split; [exact Hrun|]. split.
      { rewrite Hrows. unfold rowsOf. cbn [flat_map fst snd].
        rewrite <- app_assoc. reflexivity. }
      split.
      { rewrite Hfinal, Hnext_world, Htrace. rewrite <- !app_assoc. reflexivity. }
      split.
      { rewrite !writtenValues_app, Hwritten. unfold truthyValues. cbn [List.filter snd].
        destruct (truthy v); cbn [writtenValues flat_map app length].
        - rewrite <- repeat_cons. reflexivity.
        - apply app_nil_r. }
      split.
      { intros group fld x Hin. apply in_app_or in Hin. destruct Hin as [Hin|Hin].
        { rewrite <- Hnext_self. exact (Hwhere group fld x Hin). }
        apply in_app_or in Hin. destruct Hin as [Hin|[Hin|[]]]; [|discriminate Hin].
        destruct (truthy v); [|destruct Hin].
        destruct Hin as [Hin|[]]. injection Hin as <- <- _. split; reflexivity. }
      rewrite Hnext_self, Hnext_world in Hstored. fold field in Hstored.
      intros Hcase. apply Hstored.
      destruct (truthy v) eqn:Hvt.
      { left. apply Hstamp. reflexivity. }
      rewrite (Hsame eq_refl).
      destruct Hcase as [Hbefore|Hsome]; [left; exact Hbefore|right].
      unfold truthyValues in Hsome. cbn [List.filter snd] in Hsome. rewrite Hvt in Hsome.
      exact Hsome.
Qed.

Lemma lookupProp_listed (kvs : list (string * JsValue)) :
  NoDup (map fst kvs) ->
  forall kv, In kv kvs -> lookupProp (fst kv) kvs = Some (snd kv).
Proof.
  induction kvs as [|[k v] rest IH]; intros Hnodup kv Hin; [destruct Hin|].
  cbn [map fst] in Hnodup. apply NoDup_cons in Hnodup. destruct Hnodup as [Hfresh Hrest].
  cbn [lookupProp]. destruct Hin as [<-|Hin].
  - cbn [fst snd]. rewrite String.eqb_refl. reflexivity.
  - destruct (String.eqb_spec k (fst kv)) as [->|_]; [|apply IH; assumption].
    contradiction Hfresh. apply list_elem_of_In, in_map. exact Hin.
Qed.

Lemma insertRequest_addresses (identifier key : string) (value : JsValue) :
  trim identifier <> "" -> trim key <> "" ->
  addresses (insertRequest identifier key value) identifier key.
Proof.
  intros Hid Hkey. unfold addresses. repeat split; try reflexivity; assumption.
Qed.

Lemma insertAt_perm {A : Type} (n : nat) (x : A) (xs : list A) :
  Permutation (insertAt n x xs) (x :: xs).
Proof.
  revert xs. induction n as [|m IH]; intros xs.
  - destruct xs; apply Permutation_refl.
  - destruct xs as [|y rest]; cbn [insertAt]; [apply Permutation_refl|].
    apply (Permutation_trans (l' := y :: x :: rest)).
    + apply perm_skip. apply IH.
    + apply perm_swap.
Qed.

Lemma removeProp_absent (name : string) (props : list (string * JsValue)) :
  lookupProp name props = None -> removeProp name props = props.
Proof.
  induction props as [|[k v] rest IH]; [reflexivity|].
  cbn [removeProp lookupProp]. destruct (String.eqb k name); [discriminate|].
  intros H. rewrite (IH H). reflexivity.
Qed.

(** The fields a group holds after the inserts: the ones it had and the new
    ones, each in the form the backend holds it, in the order the backend
    keeps them. *)
Lemma insertAll_hash (this : QueueHandler) (entry : Entry) (identifier : string) :
  connectionHandler this = [("redis", entry)] ->
  In identifier (identifierSet entry) ->
  trim identifier <> "" ->
  forall (kvs : list (string * JsValue)) (w : World),
    faultFree w ->
    Forall insertable kvs ->
    NoDup (map fst kvs) ->
    (forall kv, In kv kvs -> lookupProp (fst kv) (hashOf identifier w) = None) ->
    faultFree (insertAll this identifier kvs w)
    /\ wire (insertAll this identifier kvs w) = wire w
    /\ Permutation (hashOf identifier (insertAll this identifier kvs w))
         (hashOf identifier w ++ map (fun kv => (fst kv, held w (snd kv))) kvs).
Proof.
  intros Hthis Hreg Hid kvs.
  induction kvs as [|[key v] rest IH]; intros w Hw Hvalid Hnodup Hfresh.
  - cbn. rewrite app_nil_r. split; [exact Hw|]. split; [reflexivity|apply Permutation_refl].
  - inversion Hvalid as [|? ? (Hkey & Hobj & Htarget) Hrest]; subst.
    cbn [fst snd] in Hkey, Hobj, Htarget.
    cbn [map fst] in Hnodup. apply NoDup_cons in Hnodup. destruct Hnodup as [Hnew Hnodup].
    pose proof (pushToQueue_registered this entry _ identifier key w Hthis Hreg
                  (insertRequest_addresses identifier key v Hid Hkey) Hobj Htarget (Hw _ _ _))
      as Hpush.
    change (get (insertRequest identifier key v) "value") with v in Hpush.
    pose proof (Hfresh (key, v) (or_introl eq_refl)) as Hkeyfresh. cbn [fst] in Hkeyfresh.
    unfold hset in Hpush. rewrite (removeProp_absent _ _ Hkeyfresh) in Hpush.
    set (position := place w identifier key (map fst (hashOf identifier w))) in Hpush.
    set (w1 := withStore
                 (<[identifier := insertAt position (key, held w v) (hashOf identifier w)]>
                    (store w))
                 (emit (EvSet identifier key v) w)) in Hpush.
    assert (Hstep : insertAll this identifier ((key, v) :: rest) w =
                    insertAll this identifier rest w1).
    { unfold insertAll. cbn [fold_left fst snd]. rewrite Hpush. reflexivity. }
    rewrite Hstep.
    assert (Hhash1 : hashOf identifier w1 =
                     insertAt position (key, held w v) (hashOf identifier w))
      by apply hashOf_withStore_insert.
    destruct (IH w1) as (Hfinal & Hwire & Hhash).
    + intros op group field. apply Hw.
    + exact Hrest.
    + exact Hnodup.
    + intros kv Hin. rewrite Hhash1, lookupProp_insertAt_ne.
      * apply Hfresh. right. exact Hin.
      * intros Heq. apply Hnew. rewrite Heq. apply list_elem_of_In, in_map. exact Hin.
    + split; [exact Hfinal|]. split; [exact Hwire|].
      apply (Permutation_trans Hhash). rewrite Hhash1. cbn [map fst snd].
      change (map (fun kv => (fst kv, held w1 (snd kv))) rest)
        with (map (fun kv => (fst kv, held w (snd kv))) rest).
      apply (Permutation_trans
               (l' := ((key, held w v) :: hashOf identifier w)
                        ++ map (fun kv => (fst kv, held w (snd kv))) rest)).
      * apply Permutation_app_tail. apply insertAt_perm.
      * cbn [app]. apply Permutation_middle.
Qed.

Lemma truthyValues_all (kvs : list (string * JsValue)) :
  Forall (fun kv => truthy (snd kv) = true) kvs -> truthyValues kvs = length kvs.
Proof.
  unfold truthyValues. induction kvs as [|kv rest IH]; intros Hall; [reflexivity|].
  inversion Hall as [|? ? Hv Hrest]; subst.
  cbn [List.filter]. rewrite Hv. cbn [length]. rewrite (IH Hrest). reflexivity.
Qed.

Lemma heldFields_keys (w : World) (kvs : list (string * JsValue)) :
  map fst (map (fun kv => (fst kv, held w (snd kv))) kvs) = map fst kvs.
Proof. rewrite map_map. reflexivity. Qed.

Lemma readKeysAndValues_rows (this : QueueHandler) (entry : Entry) (q : JsValue)
  (identifier : string) (w : World) :
  connectionHandler this = [("redis", entry)] ->
  In identifier (identifierSet entry) ->
  identifier <> servicesInfo this ->
  addressesGroup q identifier ->
  faultFree w ->
  hashOf identifier w <> [] ->
  NoDup (map fst (hashOf identifier w)) ->
  Forall (fun kv => trim (fst kv) <> "") (hashOf identifier w) ->
  fst (fst (Index.readKeysAndValuesFromQueue this q JFun w)) =
    CalledBack JNull (JObj [("redis", JArr (rowsOf q (hashOf identifier w)))])
  /\ exists events,
       extends w (snd (Index.readKeysAndValuesFromQueue this q JFun w)) events
       /\ writtenValues events =
          repeat (JStr (now (emit (EvKeys identifier) w))) (truthyValues (hashOf identifier w))
       /\ (forall group field v,
             In (EvSet group field v) events ->
             group = servicesInfo this
             /\ field = registrationKey (serviceName entry) identifier)
       /\ (truthyValues (hashOf identifier w) <> 0%nat ->
           storedValue (servicesInfo this) (registrationKey (serviceName entry) identifier)
             (snd (Index.readKeysAndValuesFromQueue this q JFun w)) =
           JStr (now (emit (EvKeys identifier) w))).
Proof.
  intros Hthis Hreg Hother Hq Hw Hsome Hnodup Hkeys.
  unfold Index.readKeysAndValuesFromQueue. rewrite (validateQueueFields_group _ _ Hq).
  cbn [truthy]. rewrite Hthis. cbn [eachOf]. unfold Index.keysAndValuesLeg.
  destruct Hq as (Hobj & Hid & Hidn & Hstore & Hex).
  rewrite Hex. change (toLowerCase "redis") with "redis". cbn [String.eqb Ascii.eqb Bool.eqb].
  rewrite Hid. cbn [stringOf world]. rewrite (registered_found _ _ Hreg).
  unfold getHashKey. rewrite (Hw OpGetHashKey). cbn [truthy negb orb itemsOf].
  assert (Hfilled : lengthIsZero (JArr (map (fun kv => JStr (fst kv)) (hashOf identifier w))) =
                    false).
  { unfold lengthIsZero. cbn [get String.eqb Ascii.eqb Bool.eqb]. apply Z.eqb_neq.
    rewrite length_map. destruct (hashOf identifier w); [contradiction|cbn [length]; lia]. }
  rewrite Hfilled.
  set (ts := now (emit (EvKeys identifier) w)).
  destruct (readEachKey_rows q identifier ts entry
              (conj Hobj (conj Hid (conj Hidn (conj Hstore Hex)))) (now_truthy _)
              (hashOf identifier w)
              (withResult (assign "redis" (JArr []) (JObj []))
                 (setReadDate (JStr ts)
                    (withWorld (emit (EvKeys identifier) w)
                       {| self := this; result := JObj []; world := w |})))
              []) as (events & final & Hrun & Hrows & Hfinal & Hwritten & Hwhere & Hstored).
  - exact Hthis.
  - exact Hreg.
  - reflexivity.
  - exact Hother.
  - intros op group field. apply Hw.
  - reflexivity.
  - intros kv Hin. split.
    + apply (lookupProp_listed _ Hnodup kv Hin).
    + rewrite List.Forall_forall in Hkeys. exact (Hkeys kv Hin).
  - cbn [result withResult setReadDate withWorld] in Hrun |- *. rewrite Hrun.
    cbn [truthy fst snd invoke typeof String.eqb Ascii.eqb Bool.eqb].
    split; [rewrite Hrows; reflexivity|].
    exists (EvReadDate JNull :: events
              ++ [EvReadDate (JStr ts); EvKeys identifier])%list.
    split; [|split; [|split]].
    + unfold extends. rewrite Hfinal. cbn [world withResult setReadDate withWorld trace emit].
      cbn [app]. rewrite <- app_assoc. reflexivity.
    + change (EvReadDate JNull :: events ++ [EvReadDate (JStr ts); EvKeys identifier])%list
        with ([EvReadDate JNull] ++ events ++ [EvReadDate (JStr ts); EvKeys identifier])%list.
      rewrite !writtenValues_app, Hwritten. cbn [writtenValues flat_map app].
      apply app_nil_r.
    + intros group field v [Hin|Hin]; [discriminate Hin|].
      apply in_app_or in Hin. destruct Hin as [Hin|[Hin|[Hin|[]]]];
        [exact (Hwhere group field v Hin)|discriminate Hin|discriminate Hin].
    + intros Hcount. apply Hstored. right. exact Hcount.
Qed.

Lemma rowsOf_all_sized (q : JsValue) (kvs : list (string * JsValue)) :
  Forall (fun kv => truthy (snd kv) = true /\ truthy (get (snd kv) "length") = true) kvs ->
  rowsOf q kvs = map (fun kv => rowOf q (fst kv) (snd kv)) kvs.
Proof.
  unfold rowsOf. induction kvs as [|kv rest IH]; intros Hall; [reflexivity|].
  inversion Hall as [|? ? [Hv Hlen] Hrest]; subst.
  cbn [flat_map map]. rewrite Hv, Hlen, (IH Hrest). reflexivity.
Qed.

(** C4, as amended. On a backend where no call fails, after the distinct keys
    k1..kn have been inserted, with values Insert accepts, into a group that
    holds no field, of a registered identifier (other than
    [registeredServices] itself), the group holds the n fields, each in the
    form in which the backend holds it, in the order in which the backend
    lists them. [readKeysAndValuesFromQueue] then reports no error and
    returns, in that order, a row for those fields whose held value is truthy
    and has a truthy [length]; it issues one timestamp write for each field
    whose held value is truthy, all to the identifier's field of
    [registeredServices] and all carrying the one timestamp taken at the key
    listing, which is what that field holds afterwards when there is such a
    write. When the backend holds every value in a form that is truthy and
    has a truthy [length], that is a row for each of the n keys, and n
    timestamp writes, one per key read, not a single one. *)
Theorem list_after_inserts (this : QueueHandler) (entry : Entry) (q : JsValue)
  (identifier : string) (kvs : list (string * JsValue)) (w0 : World) :
  connectionHandler this = [("redis", entry)] ->
  In identifier (identifierSet entry) ->
  identifier <> servicesInfo this ->
  addressesGroup q identifier ->
  faultFree w0 ->
  hashOf identifier w0 = [] ->
  kvs <> [] ->
  NoDup (map fst kvs) ->
  Forall insertable kvs ->
  let w := insertAll this identifier kvs w0 in
  let run := Index.readKeysAndValuesFromQueue this q JFun w in
  let ts := now (emit (EvKeys identifier) w) in
  let field := registrationKey (serviceName entry) identifier in
  Permutation (hashOf identifier w) (map (fun kv => (fst kv, held w0 (snd kv))) kvs) /\
  fst (fst run) = CalledBack JNull (JObj [("redis", JArr (rowsOf q (hashOf identifier w)))]) /\
  (exists events,
     extends w (snd run) events
     /\ writtenValues events = repeat (JStr ts) (truthyValues (hashOf identifier w))
     /\ (forall group fld v,
           In (EvSet group fld v) events -> group = servicesInfo this /\ fld = field)
     /\ (truthyValues (hashOf identifier w) <> 0%nat ->
         storedValue (servicesInfo this) field (snd run) = JStr ts)) /\
  (Forall (fun kv => sized (held w0 (snd kv)) = true) kvs ->
   rowsOf q (hashOf identifier w) =
     map (fun kv => rowOf q (fst kv) (snd kv)) (hashOf identifier w)
   /\ truthyValues (hashOf identifier w) = length kvs).
Proof.
  intros Hthis Hreg Hother Hq Hw0 Hfresh Hsome Hnodup Hvalid w run ts field.
  assert (Hidn : trim identifier <> "") by (destruct Hq as (_ & _ & H & _); exact H).
  destruct (insertAll_hash this entry identifier Hthis Hreg Hidn kvs w0 Hw0 Hvalid Hnodup)
    as (Hw & _ & Hhash).
  { intros kv _. rewrite Hfresh. reflexivity. }
  rewrite Hfresh in Hhash. cbn [app] in Hhash. fold w in Hw, Hhash.
  assert (Hkeys : Forall (fun kv => trim (fst kv) <> "") (hashOf identifier w)).
  { apply (Permutation_Forall (Permutation_sym Hhash)).
    apply List.Forall_map. apply (List.Forall_impl _ (P := insertable)); [|exact Hvalid].
    intros kv (H & _). exact H. }
  assert (Hfilled : hashOf identifier w <> []).
  { intros Hnil. rewrite Hnil in Hhash. apply Permutation_nil in Hhash.
    destruct kvs; [contradiction|discriminate Hhash]. }
  assert (Hdistinct : NoDup (map fst (hashOf identifier w))).
  { assert (Hsame : Permutation (map fst (hashOf identifier w)) (map fst kvs)).
    { rewrite <- (heldFields_keys w0 kvs). apply Permutation_map. exact Hhash. }
    rewrite Hsame. exact Hnodup. }
  destruct (readKeysAndValues_rows this entry q identifier w Hthis Hreg Hother Hq Hw Hfilled
              Hdistinct Hkeys) as (Hout & events & Hext & Hwritten & Hwhere & Hstored).
  fold run in Hout, Hext, Hstored. fold ts in Hwritten, Hstored. fold field in Hwhere, Hstored.
  split; [exact Hhash|]. split; [exact Hout|]. split.
  - exists events. split; [exact Hext|]. split; [exact Hwritten|]. split; [exact Hwhere|].
    exact Hstored.
  - intros Hsized.
    assert (Hall : Forall (fun kv => sized (snd kv) = true) (hashOf identifier w)).
    { apply (Permutation_Forall (Permutation_sym Hhash)). apply List.Forall_map.
      exact Hsized. }
    split.
    + apply rowsOf_all_sized. apply (List.Forall_impl _ (P := fun kv => sized (snd kv) = true));
        [|exact Hall].
      intros kv H. unfold sized in H. apply andb_true_iff in H. exact H.
    + rewrite truthyValues_all.
      * rewrite (Permutation_length Hhash). apply length_map.
      * apply (List.Forall_impl _ (P := fun kv => sized (snd kv) = true)); [|exact Hall].
        intros kv H. exact (sized_truthy _ H).
Qed.

Lemma list_after_inserts_witness :
  let kvs := [("o1", Sample.email); ("o2", Sample.sized)] in
  let w := insertAll Sample.handler "orders" kvs Textual.ready in
  let run := Index.readKeysAndValuesFromQueue Sample.handler Sample.orders JFun w in
  let ts := now (emit (EvKeys "orders") w) in
  let field := registrationKey (serviceName Sample.entry) "orders" in
  Permutation (hashOf "orders" w)
    (map (fun kv => (fst kv, held Textual.ready (snd kv))) kvs) /\
  fst (fst run) =
    CalledBack JNull (JObj [("redis", JArr (rowsOf Sample.orders (hashOf "orders" w)))]) /\
  (exists events,
     extends w (snd run) events
     /\ writtenValues events = repeat (JStr ts) (truthyValues (hashOf "orders" w))
     /\ (forall group fld v,
           In (EvSet group fld v) events ->
           group = servicesInfo Sample.handler /\ fld = field)
     /\ (truthyValues (hashOf "orders" w) <> 0%nat ->
         storedValue (servicesInfo Sample.handler) field (snd run) = JStr ts)) /\
  (Forall (fun kv => sized (held Textual.ready (snd kv)) = true) kvs ->
   rowsOf Sample.orders (hashOf "orders" w) =
     map (fun kv => rowOf Sample.orders (fst kv) (snd kv)) (hashOf "orders" w)
   /\ truthyValues (hashOf "orders" w) = length kvs).
Proof.
  apply (list_after_inserts Sample.handler Sample.entry Sample.orders "orders"
           [("o1", Sample.email); ("o2", Sample.sized)] Textual.ready).
  - reflexivity.
  - left. reflexivity.
  - intros H. discriminate H.
  - unfold addressesGroup. repeat split; try reflexivity.
    intros H. vm_compute in H. discriminate H.
  - intros op group fld. reflexivity.
  - vm_compute. reflexivity.
  - intros H. discriminate H.
  - apply NoDup_cons. split; [|apply NoDup_cons; split; [|apply NoDup_nil; exact I]].
    + intros H. apply list_elem_of_In in H. destruct H as [H|[]]. discriminate H.
    + intros H. apply list_elem_of_In in H. destruct H.
  - constructor; [|constructor; [|constructor]]; unfold insertable; repeat split;
      try reflexivity; intros H; vm_compute in H; discriminate H.
Defined.

(** C4, as stated, fails on the number of timestamp updates. On a backend
    that holds values as text, after inserting [o1] and [o2] the listing
    returns the rows of both keys, in the order in which that backend lists
    them, and the batch writes the timestamp of [orders] twice, once per key
    read, not once. *)
Lemma list_after_inserts_stamps_per_key :
  let kvs := [("o1", Sample.email); ("o2", Sample.sized)] in
  let w := insertAll Sample.handler "orders" kvs Textual.ready in
  let run := Index.readKeysAndValuesFromQueue Sample.handler Sample.orders JFun w in
  let events := firstn (length (trace (snd run)) - length (trace w)) (trace (snd run)) in
  fst (fst run) =
    CalledBack JNull
      (JObj [("redis",
              JArr [rowOf Sample.orders "o1" (JStr (Textual.stringify Sample.email));
                    rowOf Sample.orders "o2" (JStr (Textual.stringify Sample.sized))])]) /\
  List.filter (fun e => match e with EvSet _ _ _ => true | _ => false end) events =
    [EvSet "registeredServices" "svc_orders" (JStr "2023-11-14T22:13:25");
     EvSet "registeredServices" "svc_orders" (JStr "2023-11-14T22:13:25")].
Proof. vm_compute. repeat split; reflexivity. Qed.

(** ** A store filter that is present and empty *)

Lemma readDispatch_reaches (excludes : JsValue -> string -> bool) (this : QueueHandler)
  (entry : Entry) (q : JsValue) (identifier key : string) (w : World) :
  connectionHandler this = [("redis", entry)] ->
  excludes q "redis" = false ->
  get q "identifier" = JStr identifier ->
  get q "key" = JStr key ->
  In identifier (identifierSet entry) ->
  exists events,
    trace (snd (readDispatch excludes this q w)) =
      (events ++ EvGet identifier key :: trace w)%list.
Proof.
  intros Hthis Hex Hid Hkey Hreg.
  unfold readDispatch. rewrite Hthis. cbn [eachOf]. unfold atOnce, readLeg.
  rewrite Hex. change (toLowerCase "redis") with "redis". cbn [String.eqb Ascii.eqb Bool.eqb].
  rewrite Hid, Hkey. cbn [stringOf fst snd]. rewrite (registered_found _ _ Hreg).
  unfold getHashObject. destruct (failure w OpGetHashObject identifier key).
  - exists []. reflexivity.
  - cbn [truthy].
    destruct (truthy (match lookupProp key (hashOf identifier w) with
                      | Some x => x
                      | None => absent
                      end)); cbn [negb].
    + match goal with
      | |- context [setHashObject ?g ?f ?x ?u] =>
          pose proof (setHashObject_trace g f x u) as Htrace;
          destruct (setHashObject g f x u) as [[e r] w2]
      end.
      cbn [snd] in Htrace. cbn [fst snd truthy]. rewrite Htrace. eexists [_]. reflexivity.
    + exists []. reflexivity.
Qed.

Lemma part000_readFromQueue_trace (this : QueueHandler) (q callback : JsValue) (w : World) :
  exists events,
    trace (snd (Part000.readFromQueue this q callback w)) = (events ++ trace w)%list.
Proof.
  unfold Part000.readFromQueue.
  repeat match goal with
         | |- context [if ?b then _ else _] =>
             destruct b; [exists []; reflexivity|]
         end.
  destruct (readDispatch_events Part000.storeExcludes this (Part000.defaultStore q) w)
    as (events & Htrace & _).
  destruct (readDispatch Part000.storeExcludes this (Part000.defaultStore q) w)
    as [[err res] w1].
  exists events. exact Htrace.
Qed.

Lemma part000_readEachKey_fired (q : JsValue) (keyList : list JsValue) (err0 : JsValue)
  (seen0 st : Frame) :
  fst (fst (Part000.readEachKey q keyList (Some (err0, seen0)) st)) = err0
  /\ snd (fst (Part000.readEachKey q keyList (Some (err0, seen0)) st)) = seen0
  /\ exists events,
       trace (world (snd (Part000.readEachKey q keyList (Some (err0, seen0)) st))) =
         (events ++ trace (world st))%list.
Proof.
  revert st. induction keyList as [|name rest IH]; intros st.
  - split; [reflexivity|]. split; [reflexivity|]. exists []. reflexivity.
  - cbn [Part000.readEachKey].
    destruct (part000_readFromQueue_trace (self st) (assign "key" name (objectAssignEmpty q))
                JFun (world st)) as (events & Htrace).
    destruct (Part000.readFromQueue (self st) _ JFun (world st)) as [[outcome dataObj] w1].
    cbn [snd] in Htrace.
    destruct (match outcome with
              | CalledBack err response => (err, response)
              | _ => (JUndefined, JUndefined)
              end) as [err response].
    match goal with
    | |- context [Part000.readEachKey q rest _ ?frame] =>
        assert (Hworld : world frame = w1) by (destruct (_ && _)%bool; reflexivity);
        destruct (IH frame) as (Herr & Hseen & later & Hlater)
    end.
    split; [exact Herr|]. split; [exact Hseen|].
    exists (later ++ events)%list. rewrite Hlater, Hworld, Htrace, app_assoc. reflexivity.
Qed.

Lemma validateQueueFields_empty_store (q skipFields : JsValue) (identifier key : string) :
  emptyObject q = false ->
  get q "identifier" = JStr identifier -> trim identifier <> "" ->
  get q "key" = JStr key -> trim key <> "" ->
  get q "store" = JArr [] ->
  validateQueueFields q JFun skipFields = Returns (JStr msgStore).
Proof.
  intros Hobj Hid Hidn Hkey Hkeyn Hstore. unfold validateQueueFields.
  cbn [isUndefined typeof String.eqb Ascii.eqb Bool.eqb negb orb].
  rewrite Hobj, Hid, Hkey, Hstore, (blankString_JStr _ Hidn), (blankString_JStr _ Hkeyn).
  rewrite andb_false_r. reflexivity.
Qed.

(** C9. For a store filter that is present and empty the source holds two
    policies side by side. Validation reports it as an error:
    [validateQueueFields], which every operation of [src/index.js] calls
    first, and the checks at the head of the earlier revision's operations
    reject the request before any backend is reached. The dispatch loop of the
    earlier revision treats it as no filter: with [store] an empty array every
    configured backend takes part (the loop of [src/index.js] would let none
    in). Both meet in the earlier revision's [readKeysAndValuesFromQueue]
    called without a filter: it puts an empty [store] on the request, its
    dispatch lists the keys of the backend all the same, and each per-key
    read, handed a copy of that request, is rejected for its empty store. *)
Theorem empty_store_two_policies (this : QueueHandler) (entry : Entry) (q q0 : JsValue)
  (identifier key first : string) (v : JsValue) (others : list (string * JsValue))
  (w : World) :
  connectionHandler this = [("redis", entry)] ->
  In identifier (identifierSet entry) ->
  trim identifier <> "" ->
  emptyObject q = false ->
  get q "identifier" = JStr identifier ->
  get q "key" = JStr key -> trim key <> "" ->
  get q "store" = JArr [] ->
  emptyObject q0 = false ->
  get q0 "identifier" = JStr identifier ->
  get q0 "store" = JUndefined ->
  failure w OpGetHashKey identifier "" = None ->
  hashOf identifier w = (first, v) :: others -> trim first <> "" ->
  (validateQueueFields q JFun JUndefined = Returns (JStr msgStore)
   /\ validateQueueFields q JFun (JObj [("key", JBool true)]) = Returns (JStr msgStore)
   /\ Index.readFromQueue this q JFun w = (CalledBack (JStr msgStore) JUndefined, w)
   /\ Part000.readFromQueue this q JFun w = (CalledBack (JStr msgStore) JUndefined, q, w)) /\
  ((forall serviceStore, Part000.storeExcludes q serviceStore = false)
   /\ (exists events,
         trace (snd (readDispatch Part000.storeExcludes this q w)) =
           (events ++ EvGet identifier key :: trace w)%list)
   /\ (forall serviceStore, Index.storeExcludes q serviceStore = true)
   /\ readDispatch Index.storeExcludes this q w = (JNull, JObj [], w)) /\
  (let run := Part000.readKeysAndValuesFromQueue this q0 JFun w in
   get (snd (fst (fst run))) "store" = JArr []
   /\ (exists events, trace (snd run) = (events ++ EvKeys identifier :: trace w)%list)
   /\ fst (fst (fst run)) = CalledBack (JStr msgStore) (JObj [("redis", JArr [])])).
Proof.
  intros Hthis Hreg Hidn Hobj Hid Hkey Hkeyn Hstore Hobj0 Hid0 Hstore0 Hlist Hhash Hfirst.
  pose proof (validateQueueFields_empty_store q JUndefined identifier key
                Hobj Hid Hidn Hkey Hkeyn Hstore) as Hvalid.
  split; [|split].
  - split; [exact Hvalid|]. split.
    + exact (validateQueueFields_empty_store q _ identifier key Hobj Hid Hidn Hkey Hkeyn Hstore).
    + split.
      * unfold Index.readFromQueue. rewrite Hvalid. reflexivity.
      * unfold Part000.readFromQueue.
        rewrite Hobj, Hid, Hkey, Hstore, (blankString_JStr _ Hidn), (blankString_JStr _ Hkeyn).
        reflexivity.
  - split; [intros s; unfold Part000.storeExcludes; rewrite Hstore; reflexivity|].
    split; [|split; [intros s; unfold Index.storeExcludes; rewrite Hstore; reflexivity|]].
    + apply (readDispatch_reaches Part000.storeExcludes this entry q identifier key w
               Hthis); [|exact Hid|exact Hkey|exact Hreg].
      unfold Part000.storeExcludes. rewrite Hstore. reflexivity.
    + unfold readDispatch. rewrite Hthis. cbn [eachOf]. unfold atOnce, readLeg.
      unfold Index.storeExcludes. rewrite Hstore. reflexivity.
  - cbv zeta. unfold Part000.readKeysAndValuesFromQueue.
    rewrite Hobj0, Hid0, Hstore0, (blankString_JStr _ Hidn).
    cbn [badStore isUndefined negb andb orb typeof String.eqb Ascii.eqb Bool.eqb].
    destruct (addressed_is_object q0 identifier Hid0) as [props ->].
    unfold Part000.defaultStore. rewrite Hstore0. cbn [isUndefined].
    set (q1 := assign "store" (JArr []) (JObj props)).
    assert (Hstore1 : get q1 "store" = JArr []) by apply get_assign_eq.
    assert (Hid1 : get q1 "identifier" = JStr identifier).
    { unfold q1. rewrite get_assign_ne by (intros H; discriminate H). exact Hid0. }
    assert (Hex1 : Part000.storeExcludes q1 "redis" = false)
      by (unfold Part000.storeExcludes; rewrite Hstore1; reflexivity).
    rewrite Hthis. cbn [eachOf]. unfold Part000.keysAndValuesLeg.
    rewrite Hex1. change (toLowerCase "redis") with "redis".
    cbn [String.eqb Ascii.eqb Bool.eqb].
    rewrite Hid1. cbn [stringOf world]. rewrite (registered_found _ _ Hreg).
    unfold getHashKey. rewrite Hlist, Hhash.
    cbn [map fst truthy negb orb lengthIsZero get String.eqb Ascii.eqb Bool.eqb length itemsOf].
    match goal with
    | |- context [(Z.of_nat (S ?n) =? 0)%Z] => change (Z.of_nat (S n) =? 0)%Z with false
    end.
    cbn [Part000.readEachKey].
    assert (Hrejected :
      forall u : World,
        Part000.readFromQueue
          (self (withResult (assign "redis" (JArr []) (JObj []))
                   (setReadDate (JStr (now (emit (EvKeys identifier) w)))
                      (withWorld (emit (EvKeys identifier) w)
                         {| self := this; result := JObj []; world := w |}))))
          (assign "key" (JStr first) (objectAssignEmpty q1)) JFun u =
        (CalledBack (JStr msgStore) JUndefined,
         assign "key" (JStr first) (objectAssignEmpty q1), u)).
    { intros u. unfold Part000.readFromQueue, q1. cbn [assign objectAssignEmpty].
      change (JObj (assignProp "key" (JStr first) (assignProp "store" (JArr []) props)))
        with (assign "key" (JStr first) (JObj (assignProp "store" (JArr []) props))).
      rewrite get_assign_eq.
      rewrite !(get_assign_ne "key") by (intros H; discriminate H).
      change (JObj (assignProp "store" (JArr []) props)) with q1.
      rewrite Hid1, Hstore1, (blankString_JStr _ Hidn), (blankString_JStr _ Hfirst).
      assert (Hfilled : emptyObject (assign "key" (JStr first) q1) = false).
      { unfold q1, emptyObject. cbn [assign truthy typeof objectKeysLength negb orb].
        rewrite assignProp_filled. reflexivity. }
      rewrite Hfilled. reflexivity. }
    rewrite Hrejected. cbn [truthy andb].
    change (negb (String.eqb msgStore "")) with true. cbn iota.
    match goal with
    | |- context [Part000.readEachKey q1 ?keys (Some (?e, ?seen)) ?st] =>
        destruct (part000_readEachKey_fired q1 keys e seen st)
          as (Herr & Hseen & events & Htrace);
        destruct (Part000.readEachKey q1 keys (Some (e, seen)) st) as [[err seen'] final]
    end.
    cbn [fst snd] in Herr, Hseen, Htrace. subst err seen'.
    cbn [truthy]. change (negb (String.eqb msgStore "")) with true. cbn iota.
    cbn [fst snd invoke typeof String.eqb Ascii.eqb Bool.eqb result withResult setReadDate].
    split; [exact Hstore1|]. split; [|reflexivity].
    rewrite Htrace. cbn [world setReadDate withResult withWorld trace emit].
    eexists (events ++ [_; _])%list. rewrite <- app_assoc. reflexivity.
Qed.

Lemma empty_store_two_policies_witness :
  let q := JObj [("identifier", JStr "orders"); ("key", JStr "o1"); ("store", JArr [])] in
  let w := insertAll Sample.handler "orders" [("o1", Sample.sized)] Sample.ready in
  Index.readFromQueue Sample.handler q JFun w = (CalledBack (JStr msgStore) JUndefined, w) /\
  (forall serviceStore, Part000.storeExcludes q serviceStore = false) /\
  fst (fst (fst (Part000.readKeysAndValuesFromQueue Sample.handler Sample.orders JFun w))) =
    CalledBack (JStr msgStore) (JObj [("redis", JArr [])]).
Proof.
  intros q w.
  destruct (empty_store_two_policies Sample.handler Sample.entry q Sample.orders
              "orders" "o1" "o1" Sample.sized [] w)
    as ((_ & _ & Hindex & _) & (Hpart & _) & (_ & _ & Hboth)).
  - reflexivity.
  - left. reflexivity.
  - intros H. vm_compute in H. discriminate H.
  - reflexivity.
  - reflexivity.
  - reflexivity.
  - intros H. vm_compute in H. discriminate H.
  - reflexivity.
  - reflexivity.
  - reflexivity.
  - reflexivity.
  - reflexivity.
  - vm_compute. reflexivity.
  - intros H. vm_compute in H. discriminate H.
  - split; [exact Hindex|]. split; [exact Hpart|exact Hboth].
Defined.

(** The earlier revision writes the empty [store] onto the caller's request:
    the request that was served without a filter is refused when it is
    passed again. *)
Example part000_request_reused :
  let w := insertAll Sample.handler "orders" [("o1", Sample.sized)] Sample.ready in
  let once := Part000.readKeysFromQueue Sample.handler Sample.orders JFun w in
  let twice := Part000.readKeysFromQueue Sample.handler (snd (fst once)) JFun (snd once) in
  fst (fst once) = CalledBack JNull (JObj [("redis", JArr [JStr "o1"])]) /\
  snd (fst once) = JObj [("identifier", JStr "orders"); ("store", JArr [])] /\
  fst (fst twice) = CalledBack (JStr msgStore) JUndefined.
Proof. vm_compute. repeat split; reflexivity. Qed.


(** * Further properties of the operations *)

(** ** An identifier that is not registered *)

Lemma msgNotRegistered_truthy (identifier : string) :
  truthy (JStr (msgNotRegistered identifier)) = true.
Proof. reflexivity. Qed.

Lemma addresses_group (q : JsValue) (identifier key : string) :
  addresses q identifier key -> addressesGroup q identifier.
Proof.
  intros (Hobj & Hid & Hidn & _ & _ & Hstore & Hex). repeat split; assumption.
Qed.

(** X1. On an instance with its one redis entry, a well-formed request whose
    identifier is not in the entry's [identifierSet] is answered by every
    operation with the error "This service is not registered with redis store
    for the '...' identifier" and an empty result, and the backend is not
    called: the world is left exactly as it was. *)
Theorem unregistered_identifier_rejected (this : QueueHandler) (entry : Entry) (q : JsValue)
  (identifier key : string) (w : World) :
  connectionHandler this = [("redis", entry)] ->
  ~ In identifier (identifierSet entry) ->
  addresses q identifier key ->
  Index.readFromQueue this q JFun w =
    (CalledBack (JStr (msgNotRegistered identifier)) (JObj []), w) /\
  Index.readKeysFromQueue this q JFun w =
    (CalledBack (JStr (msgNotRegistered identifier)) (JObj []), w) /\
  Index.readKeysAndValuesFromQueue this q JFun w =
    (CalledBack (JStr (msgNotRegistered identifier)) (JObj []), this, w) /\
  Index.deleteKeyFromQueue this q JFun w =
    (CalledBack (JStr (msgNotRegistered identifier)) (JObj []), w) /\
  (emptyObject (get q "value") = false ->
   badTargetType (get (get q "value") "targetType") = false ->
   Index.pushToQueue this q JFun w =
     (CalledBack (JStr (msgNotRegistered identifier)) JUndefined, w)).
Proof.
  intros Hthis Hout Hq.
  pose proof (validateQueueFields_addressed _ _ _ Hq) as Hvalid.
  pose proof (validateQueueFields_group _ _ (addresses_group _ _ _ Hq)) as Hgroup.
  destruct Hq as (_ & Hid & _ & Hkey & _ & _ & Hex).
  pose proof (unregistered_missing entry identifier Hout) as Hmiss.
  split; [|split; [|split; [|split]]].
  - unfold Index.readFromQueue, readDispatch. rewrite Hvalid, Hthis. cbn [truthy eachOf].
    unfold atOnce, readLeg. rewrite Hex. change (toLowerCase "redis") with "redis".
    cbn [String.eqb Ascii.eqb Bool.eqb]. rewrite Hid, Hmiss. reflexivity.
  - unfold Index.readKeysFromQueue. rewrite Hgroup, Hthis. cbn [truthy eachOf].
    unfold atOnce, readKeysLeg. rewrite Hex. change (toLowerCase "redis") with "redis".
    cbn [String.eqb Ascii.eqb Bool.eqb]. rewrite Hid, Hmiss. reflexivity.
  - unfold Index.readKeysAndValuesFromQueue. rewrite Hgroup, Hthis. cbn [truthy eachOf].
    unfold Index.keysAndValuesLeg. rewrite Hex. change (toLowerCase "redis") with "redis".
    cbn [String.eqb Ascii.eqb Bool.eqb]. rewrite Hid, Hmiss. reflexivity.
  - unfold Index.deleteKeyFromQueue. rewrite Hvalid, Hthis. cbn [truthy eachOf].
    unfold atOnce, deleteLeg. rewrite Hex. change (toLowerCase "redis") with "redis".
    cbn [String.eqb Ascii.eqb Bool.eqb]. rewrite Hid, Hmiss. reflexivity.
  - intros Hval Htarget. unfold Index.pushToQueue. rewrite Hvalid, Hval, Htarget, Hthis.
    cbn [truthy eachOf]. unfold atOnce, pushLeg. rewrite Hex.
    change (toLowerCase "redis") with "redis".
    cbn [String.eqb Ascii.eqb Bool.eqb]. rewrite Hid, Hmiss. reflexivity.
Qed.

Lemma unregistered_identifier_rejected_witness :
  let q := JObj [("identifier", JStr "bills"); ("key", JStr "b1"); ("value", Sample.email)] in
  Index.readFromQueue Sample.handler q JFun Sample.ready =
    (CalledBack (JStr (msgNotRegistered "bills")) (JObj []), Sample.ready) /\
  Index.readKeysFromQueue Sample.handler q JFun Sample.ready =
    (CalledBack (JStr (msgNotRegistered "bills")) (JObj []), Sample.ready) /\
  Index.readKeysAndValuesFromQueue Sample.handler q JFun Sample.ready =
    (CalledBack (JStr (msgNotRegistered "bills")) (JObj []), Sample.handler, Sample.ready) /\
  Index.deleteKeyFromQueue Sample.handler q JFun Sample.ready =
    (CalledBack (JStr (msgNotRegistered "bills")) (JObj []), Sample.ready) /\
  (emptyObject (get q "value") = false ->
   badTargetType (get (get q "value") "targetType") = false ->
   Index.pushToQueue Sample.handler q JFun Sample.ready =
     (CalledBack (JStr (msgNotRegistered "bills")) JUndefined, Sample.ready)).
Proof.
  apply (unregistered_identifier_rejected Sample.handler Sample.entry
           (JObj [("identifier", JStr "bills"); ("key", JStr "b1"); ("value", Sample.email)])
           "bills" "b1" Sample.ready).
  - reflexivity.
  - intros [H|[]]. discriminate H.
  - unfold addresses. repeat split; try reflexivity; intros H; vm_compute in H; discriminate H.
Defined.

(** ** Identifiers are registered in trimmed form *)

Lemma trimEnd_filled (c : ascii) (rest : string) :
  isSpace c = false -> trimEnd (String c rest) = String c (trimEnd rest).
Proof.
  intros Hc. cbn [trimEnd]. rewrite Hc. destruct (trimEnd rest); reflexivity.
Qed.

Lemma trimEnd_idempotent (s : string) : trimEnd (trimEnd s) = trimEnd s.
Proof.
  induction s as [|c rest IH]; [reflexivity|].
  cbn [trimEnd]. destruct (trimEnd rest) as [|d kept] eqn:Hrest.
  - destruct (isSpace c) eqn:Hc; [reflexivity|]. cbn [trimEnd]. rewrite Hc. reflexivity.
  - cbn [trimEnd]. cbn [trimEnd] in IH. rewrite IH. reflexivity.
Qed.

Lemma trimStart_head (s : string) :
  trimStart s = "" \/ exists c rest, trimStart s = String c rest /\ isSpace c = false.
Proof.
  induction s as [|c rest IH]; [left; reflexivity|].
  cbn [trimStart]. destruct (isSpace c) eqn:Hc; [exact IH|].
  right. exists c, rest. split; [reflexivity|exact Hc].
Qed.

Lemma trim_idempotent (s : string) : trim (trim s) = trim s.
Proof.
  unfold trim. destruct (trimStart_head s) as [->|(c & rest & -> & Hc)]; [reflexivity|].
  rewrite (trimEnd_filled c rest Hc). cbn [trimStart]. rewrite Hc.
  rewrite <- (trimEnd_filled c rest Hc). apply trimEnd_idempotent.
Qed.

Lemma registeredNames_trimmed (names0 : list string) (identifier : string) :
  In identifier (registeredNames names0) -> trim identifier = identifier /\ identifier <> "".
Proof.
  unfold registeredNames. intros Hin. apply in_map_iff in Hin.
  destruct Hin as (name & <- & Hname). apply filter_In in Hname. destruct Hname as [_ Hfilled].
  split; [apply trim_idempotent|].
  intros Hblank. rewrite Hblank in Hfilled. discriminate Hfilled.
Qed.

Lemma registeredNames_holds (names0 : list string) (name : string) :
  In name names0 -> trim name <> "" -> In (trim name) (registeredNames names0).
Proof.
  intros Hin Hfilled. unfold registeredNames. apply in_map. apply filter_In.
  split; [exact Hin|]. destruct (String.eqb_spec (trim name) ""); [contradiction|reflexivity].
Qed.

(** X2. Identifiers are registered trimmed and compared as given. On any
    instance the constructor builds, a request whose identifier carries
    leading or trailing blanks passes validation (which trims before it tests
    for blankness) and is then refused as not registered, even when its
    trimmed form is registered; the backend is not called. *)
Theorem untrimmed_identifier_not_registered (connectionConfig : list (string * Config.t))
  (w0 w1 : World) (this : QueueHandler) (q : JsValue) (identifier key : string) (w : World) :
  constructor connectionConfig w0 = (Builds this, w1) ->
  addresses q identifier key ->
  trim identifier <> identifier ->
  Index.readFromQueue this q JFun w =
    (CalledBack (JStr (msgNotRegistered identifier)) (JObj []), w)
  /\ (emptyObject (get q "value") = false ->
      badTargetType (get (get q "value") "targetType") = false ->
      Index.pushToQueue this q JFun w =
        (CalledBack (JStr (msgNotRegistered identifier)) JUndefined, w)).
Proof.
  intros Hbuilt Hq Hblanks.
  destruct (constructor_table connectionConfig w0 w1 this Hbuilt)
    as (front & serviceStore & value & _ & Htable & _).
  assert (Hout : ~ In identifier (identifierSet (entryOf value))).
  { cbn [identifierSet entryOf]. intros Hin.
    destruct (registeredNames_trimmed _ _ Hin) as [Hsame _]. contradiction. }
  pose proof (validateQueueFields_addressed _ _ _ Hq) as Hvalid.
  destruct Hq as (_ & Hid & _ & Hkey & _ & _ & Hex).
  pose proof (unregistered_missing (entryOf value) identifier Hout) as Hmiss.
  split.
  - unfold Index.readFromQueue, readDispatch. rewrite Hvalid, Htable. cbn [truthy eachOf].
    unfold atOnce, readLeg. rewrite Hex. change (toLowerCase "redis") with "redis".
    cbn [String.eqb Ascii.eqb Bool.eqb]. rewrite Hid, Hmiss. reflexivity.
  - intros Hval Htarget. unfold Index.pushToQueue. rewrite Hvalid, Hval, Htarget, Htable.
    cbn [truthy eachOf]. unfold atOnce, pushLeg. rewrite Hex.
    change (toLowerCase "redis") with "redis".
    cbn [String.eqb Ascii.eqb Bool.eqb]. rewrite Hid, Hmiss. reflexivity.
Qed.

Lemma untrimmed_identifier_not_registered_witness :
  let q := JObj [("identifier", JStr " orders"); ("key", JStr "o1")] in
  Index.readFromQueue Sample.handler q JFun Sample.ready =
    (CalledBack (JStr (msgNotRegistered " orders")) (JObj []), Sample.ready)
  /\ (emptyObject (get q "value") = false ->
      badTargetType (get (get q "value") "targetType") = false ->
      Index.pushToQueue Sample.handler q JFun Sample.ready =
        (CalledBack (JStr (msgNotRegistered " orders")) JUndefined, Sample.ready)).
Proof.
  apply (untrimmed_identifier_not_registered Sample.config Sample.world Sample.ready
           Sample.handler (JObj [("identifier", JStr " orders"); ("key", JStr "o1")])
           " orders" "o1" Sample.ready).
  - apply injective_projections; [vm_compute; reflexivity|reflexivity].
  - unfold addresses. repeat split; try reflexivity; intros H; vm_compute in H; discriminate H.
  - intros H. vm_compute in H. discriminate H.
Defined.

(** ** A store filter that leaves the backend out *)

Lemma filtersOut_excludes (q : JsValue) (items : list JsValue) :
  filtersOut q items -> Index.storeExcludes q "redis" = true /\ badStore (get q "store") = false.
Proof.
  intros (Hstore & Hsome & Hnone). unfold Index.storeExcludes, badStore. rewrite Hstore.
  split.
  - cbn [isUndefined negb andb arrayIndexOf]. change (toLowerCase "redis") with "redis".
    apply Z.eqb_eq. apply indexOfFrom_missing. exact Hnone.
  - cbn [isUndefined negb andb instanceofArray orb]. unfold lengthIsZero.
    cbn [get String.eqb Ascii.eqb Bool.eqb]. apply Z.eqb_neq.
    destruct items; [contradiction|cbn [length]; lia].
Qed.

Lemma validateQueueFields_names (q : JsValue) (identifier key : string) :
  names q identifier key -> badStore (get q "store") = false ->
  validateQueueFields q JFun JUndefined = Returns (JBool false)
  /\ validateQueueFields q JFun (JObj [("key", JBool true)]) = Returns (JBool false).
Proof.
  intros (Hobj & Hid & Hidn & Hkey & Hkeyn) Hstore.
  unfold validateQueueFields. cbn [isUndefined typeof String.eqb Ascii.eqb Bool.eqb negb orb].
  rewrite Hobj, Hid, Hkey, Hstore, (blankString_JStr _ Hidn), (blankString_JStr _ Hkeyn).
  split; reflexivity.
Qed.

(** X3. The store filter restricts execution, and it is compared as given
    against the lower-cased backend name. With a filter that is a non-empty
    array in which no item is the string [redis] (so also [["Redis"]]), every
    operation succeeds with an empty result and never calls the adapter,
    whether or not the identifier is registered. *)
Theorem filtered_out_backend_untouched (this : QueueHandler) (entry : Entry) (q : JsValue)
  (identifier key : string) (items : list JsValue) (w : World) :
  connectionHandler this = [("redis", entry)] ->
  names q identifier key ->
  filtersOut q items ->
  Index.readFromQueue this q JFun w = (CalledBack JNull (JObj []), w) /\
  Index.readKeysFromQueue this q JFun w = (CalledBack JNull (JObj []), w) /\
  Index.readKeysAndValuesFromQueue this q JFun w = (CalledBack JNull (JObj []), this, w) /\
  Index.deleteKeyFromQueue this q JFun w = (CalledBack JNull (JObj []), w) /\
  (emptyObject (get q "value") = false ->
   badTargetType (get (get q "value") "targetType") = false ->
   Index.pushToQueue this q JFun w = (CalledBack JNull JUndefined, w)).
Proof.
  intros Hthis Hq Hfilter.
  destruct (filtersOut_excludes q items Hfilter) as [Hex Hstore].
  destruct (validateQueueFields_names q identifier key Hq Hstore) as [Hvalid Hgroup].
  split; [|split; [|split; [|split]]].
  - unfold Index.readFromQueue, readDispatch. rewrite Hvalid, Hthis. cbn [truthy eachOf].
    unfold atOnce, readLeg. rewrite Hex. reflexivity.
  - unfold Index.readKeysFromQueue. rewrite Hgroup, Hthis. cbn [truthy eachOf].
    unfold atOnce, readKeysLeg. rewrite Hex. reflexivity.
  - unfold Index.readKeysAndValuesFromQueue. rewrite Hgroup, Hthis. cbn [truthy eachOf].
    unfold Index.keysAndValuesLeg. rewrite Hex. reflexivity.
  - unfold Index.deleteKeyFromQueue. rewrite Hvalid, Hthis. cbn [truthy eachOf].
    unfold atOnce, deleteLeg. rewrite Hex. reflexivity.
  - intros Hval Htarget. unfold Index.pushToQueue. rewrite Hvalid, Hval, Htarget, Hthis.
    cbn [truthy eachOf]. unfold atOnce, pushLeg. rewrite Hex. reflexivity.
Qed.

Lemma filtered_out_backend_untouched_witness :
  let q := JObj [("identifier", JStr "orders"); ("key", JStr "o1");
                 ("store", JArr [JStr "Redis"; JStr "mongo"])] in
  Index.readFromQueue Sample.handler q JFun Sample.ready =
    (CalledBack JNull (JObj []), Sample.ready) /\
  Index.readKeysFromQueue Sample.handler q JFun Sample.ready =
    (CalledBack JNull (JObj []), Sample.ready) /\
  Index.readKeysAndValuesFromQueue Sample.handler q JFun Sample.ready =
    (CalledBack JNull (JObj []), Sample.handler, Sample.ready) /\
  Index.deleteKeyFromQueue Sample.handler q JFun Sample.ready =
    (CalledBack JNull (JObj []), Sample.ready) /\
  (emptyObject (get q "value") = false ->
   badTargetType (get (get q "value") "targetType") = false ->
   Index.pushToQueue Sample.handler q JFun Sample.ready =
     (CalledBack JNull JUndefined, Sample.ready)).
Proof.
  apply (filtered_out_backend_untouched Sample.handler Sample.entry
           (JObj [("identifier", JStr "orders"); ("key", JStr "o1");
                  ("store", JArr [JStr "Redis"; JStr "mongo"])])
           "orders" "o1" [JStr "Redis"; JStr "mongo"] Sample.ready).
  - reflexivity.
  - unfold names. repeat split; try reflexivity; intros H; vm_compute in H; discriminate H.
  - split; [reflexivity|]. split; [intros H; discriminate H|].
    intros item [<-|[<-|[]]]; reflexivity.
Defined.

(** ** What Insert, Delete and ListKeys do to a group *)

Lemma storedValue_elsewhere (identifier key group field : string)
  (h : list (string * JsValue)) (w w1 : World) :
  (forall other, key <> other -> lookupProp other h = lookupProp other (hashOf identifier w)) ->
  group <> identifier \/ field <> key ->
  storedValue group field (withStore (<[identifier := h]> (store w)) w1) =
    storedValue group field w.
Proof.
  intros Hkeeps Hother. unfold storedValue.
  destruct (String.eqb_spec identifier group) as [<-|Hgroup].
  - rewrite hashOf_withStore_insert. destruct Hother as [Hne|Hne]; [contradiction|].
    rewrite Hkeeps by (intros Heq; apply Hne; symmetry; exact Heq). reflexivity.
  - rewrite hashOf_withStore_insert_ne by exact Hgroup. reflexivity.
Qed.

(** X5. Delete removes one field and nothing else, and it can be repeated. On
    a registered identifier, when the call does not fail, [deleteKeyFromQueue]
    reports the backend's acknowledgement exactly when the field was there,
    leaves no value under the request's identifier and key and keeps every
    other field of every group; a second delete of the same field reports
    nothing and changes nothing in the group. *)
Theorem delete_removes_one_field (this : QueueHandler) (entry : Entry) (q : JsValue)
  (identifier key : string) (w : World) :
  connectionHandler this = [("redis", entry)] ->
  In identifier (identifierSet entry) ->
  addresses q identifier key ->
  failure w OpDeleteHashKey identifier key = None ->
  fst (Index.deleteKeyFromQueue this q JFun w) =
    CalledBack JNull
      (match lookupProp key (hashOf identifier w) with
       | Some _ => JObj [("redis", ack)]
       | None => JObj []
       end)
  /\ storedValue identifier key (snd (Index.deleteKeyFromQueue this q JFun w)) = absent
  /\ (forall group field, group <> identifier \/ field <> key ->
        storedValue group field (snd (Index.deleteKeyFromQueue this q JFun w)) =
          storedValue group field w)
  /\ fst (Index.deleteKeyFromQueue this q JFun (snd (Index.deleteKeyFromQueue this q JFun w))) =
       CalledBack JNull (JObj [])
  /\ hashOf identifier
       (snd (Index.deleteKeyFromQueue this q JFun
               (snd (Index.deleteKeyFromQueue this q JFun w)))) =
     hashOf identifier (snd (Index.deleteKeyFromQueue this q JFun w)).
Proof.
  intros Hthis Hreg Hq Hok.
  rewrite (deleteKeyFromQueue_registered _ _ _ _ _ _ Hthis Hreg Hq Hok). cbn [fst snd].
  rewrite (deleteKeyFromQueue_registered _ _ _ _ _ _ Hthis Hreg Hq) by exact Hok.
  cbn [fst snd]. rewrite !hashOf_withStore_insert, lookupProp_removeProp_eq.
  split; [reflexivity|]. split.
  { unfold storedValue. rewrite hashOf_withStore_insert, lookupProp_removeProp_eq. reflexivity. }
  split.
  { intros group field Hother. apply (storedValue_elsewhere identifier key); [|exact Hother].
    intros other Hne. apply lookupProp_removeProp_other. exact Hne. }
  split; [reflexivity|].
  apply removeProp_absent. apply lookupProp_removeProp_eq.
Qed.

Lemma delete_removes_one_field_witness :
  fst (Index.deleteKeyFromQueue Sample.handler (Sample.order "o1" JNull) JFun Faulty.stocked) =
    CalledBack JNull
      (match lookupProp "o1" (hashOf "orders" Faulty.stocked) with
       | Some _ => JObj [("redis", ack)]
       | None => JObj []
       end)
  /\ storedValue "orders" "o1"
       (snd (Index.deleteKeyFromQueue Sample.handler (Sample.order "o1" JNull) JFun
               Faulty.stocked)) = absent
  /\ (forall group field, group <> "orders" \/ field <> "o1" ->
        storedValue group field
          (snd (Index.deleteKeyFromQueue Sample.handler (Sample.order "o1" JNull) JFun
                  Faulty.stocked)) =
          storedValue group field Faulty.stocked)
  /\ fst (Index.deleteKeyFromQueue Sample.handler (Sample.order "o1" JNull) JFun
            (snd (Index.deleteKeyFromQueue Sample.handler (Sample.order "o1" JNull) JFun
                    Faulty.stocked))) =
       CalledBack JNull (JObj [])
  /\ hashOf "orders"
       (snd (Index.deleteKeyFromQueue Sample.handler (Sample.order "o1" JNull) JFun
               (snd (Index.deleteKeyFromQueue Sample.handler (Sample.order "o1" JNull) JFun
                       Faulty.stocked)))) =
     hashOf "orders"
       (snd (Index.deleteKeyFromQueue Sample.handler (Sample.order "o1" JNull) JFun
               Faulty.stocked)).
Proof.
  apply (delete_removes_one_field Sample.handler Sample.entry (Sample.order "o1" JNull)
           "orders" "o1" Faulty.stocked).
  - reflexivity.
  - simpl. left. reflexivity.
  - apply sample_order_addresses. intros H. vm_compute in H. discriminate H.
  - reflexivity.
Defined.

Lemma readKeysFromQueue_registered (this : QueueHandler) (entry : Entry) (q : JsValue)
  (identifier : string) (w : World) :
  connectionHandler this = [("redis", entry)] ->
  In identifier (identifierSet entry) ->
  addressesGroup q identifier ->
  failure w OpGetHashKey identifier "" = None ->
  Index.readKeysFromQueue this q JFun w =
    (CalledBack JNull
       (match hashOf identifier w with
        | [] => JObj []
        | _ => JObj [("redis", JArr (map (fun kv => JStr (fst kv)) (hashOf identifier w)))]
        end),
     emit (EvKeys identifier) w).
Proof.
  intros Hthis Hreg Hq Hok.
  unfold Index.readKeysFromQueue. rewrite (validateQueueFields_group _ _ Hq). cbn [truthy].
  destruct Hq as (_ & Hid & _ & _ & Hex).
  rewrite Hthis. cbn [eachOf]. unfold atOnce, readKeysLeg.
  rewrite Hex. change (toLowerCase "redis") with "redis". cbn [String.eqb Ascii.eqb Bool.eqb].
  rewrite Hid. cbn [stringOf fst snd]. rewrite (registered_found _ _ Hreg).
  unfold getHashKey. rewrite Hok.
  destruct (hashOf identifier w) as [|kv rest]; reflexivity.
Qed.

(** X6. ListKeys reads the group and changes nothing. After the fields [kvs]
    (distinct keys, none of them in the group yet) have been inserted under a
    registered identifier on a backend where no call fails,
    [readKeysFromQueue] reports the keys of the group as the backend lists
    them: the keys the group had and the inserted ones, each once, in the
    backend's order (and no entry at all for an empty group), with one
    adapter call and the stored data left as it was. *)
Theorem list_keys_after_inserts (this : QueueHandler) (entry : Entry) (q : JsValue)
  (identifier : string) (kvs : list (string * JsValue)) (w : World) :
  connectionHandler this = [("redis", entry)] ->
  In identifier (identifierSet entry) ->
  addressesGroup q identifier ->
  faultFree w ->
  Forall insertable kvs ->
  NoDup (map fst kvs) ->
  (forall kv, In kv kvs -> lookupProp (fst kv) (hashOf identifier w) = None) ->
  let listed := map fst (hashOf identifier (insertAll this identifier kvs w)) in
  Permutation listed (map fst (hashOf identifier w) ++ map fst kvs)
  /\ Index.readKeysFromQueue this q JFun (insertAll this identifier kvs w) =
       (CalledBack JNull
          (match listed with
           | [] => JObj []
           | keys => JObj [("redis", JArr (map JStr keys))]
           end),
        emit (EvKeys identifier) (insertAll this identifier kvs w)).
Proof.
  intros Hthis Hreg Hq Hw Hkvs Hdistinct Hfresh listed.
  destruct Hq as (Hobj & Hid & Hidn & Hstore & Hex).
  destruct (insertAll_hash this entry identifier Hthis Hreg Hidn kvs w Hw Hkvs Hdistinct Hfresh)
    as (Hfree & _ & Hhash).
  split.
  - unfold listed. rewrite <- (heldFields_keys w kvs), <- map_app.
    apply Permutation_map. exact Hhash.
  - rewrite (readKeysFromQueue_registered this entry q identifier _ Hthis Hreg
               (conj Hobj (conj Hid (conj Hidn (conj Hstore Hex)))) (Hfree _ _ _)).
    unfold listed.
    destruct (hashOf identifier (insertAll this identifier kvs w)) as [|kv rest];
      [reflexivity|].
    rewrite <- (map_map fst JStr). reflexivity.
Qed.

Lemma list_keys_after_inserts_witness :
  let kvs := [("o2", Sample.email); ("o3", Sample.sized)] in
  let w := snd (Index.pushToQueue Sample.handler (Sample.order "o1" Sample.sized) JFun
                  Textual.ready) in
  let listed := map fst (hashOf "orders" (insertAll Sample.handler "orders" kvs w)) in
  Permutation listed (map fst (hashOf "orders" w) ++ map fst kvs)
  /\ Index.readKeysFromQueue Sample.handler Sample.orders JFun
       (insertAll Sample.handler "orders" kvs w) =
       (CalledBack JNull
          (match listed with
           | [] => JObj []
           | keys => JObj [("redis", JArr (map JStr keys))]
           end),
        emit (EvKeys "orders") (insertAll Sample.handler "orders" kvs w)).
Proof.
  apply (list_keys_after_inserts Sample.handler Sample.entry Sample.orders "orders"
           [("o2", Sample.email); ("o3", Sample.sized)]
           (snd (Index.pushToQueue Sample.handler (Sample.order "o1" Sample.sized) JFun
                   Textual.ready))).
  - reflexivity.
  - simpl. left. reflexivity.
  - unfold addressesGroup. repeat split; try reflexivity. intros H. vm_compute in H. discriminate H.
  - intros op group field. reflexivity.
  - repeat constructor; try reflexivity; intros H; vm_compute in H; discriminate H.
  - apply NoDup_cons. split.
    + intros H. apply list_elem_of_In in H. destruct H as [H|[]]. discriminate H.
    + apply NoDup_cons. split; [intros H; apply list_elem_of_In in H; destruct H|apply NoDup_nil_2].
  - intros kv [<-|[<-|[]]]; vm_compute; reflexivity.
Defined.

(** The order is the backend's: one that keeps fields as they were first
    written lists the keys in that order, one that puts a new field in front
    lists them most recently inserted first. *)
Example list_keys_backend_order :
  let kvs := [("o1", Sample.sized); ("o2", Sample.email); ("o3", Sample.sized)] in
  fst (Index.readKeysFromQueue Sample.handler Sample.orders JFun
         (insertAll Sample.handler "orders" kvs Textual.ready)) =
    CalledBack JNull (JObj [("redis", JArr [JStr "o1"; JStr "o2"; JStr "o3"])])
  /\ fst (Index.readKeysFromQueue Sample.handler Sample.orders JFun
            (insertAll Sample.handler "orders" kvs
               (snd (constructor Sample.config Textual.fronting)))) =
       CalledBack JNull (JObj [("redis", JArr [JStr "o3"; JStr "o2"; JStr "o1"])]).
Proof. vm_compute. split; reflexivity. Qed.

(** ** When the backend fails *)

(** X7. An error of the adapter call an operation makes is handed to the
    callback as it is, with an empty result, and nothing is written: the read
    does not stamp, and the listing of keys and values sets its timestamp slot
    and clears it again. *)
Theorem adapter_error_reported (this : QueueHandler) (entry : Entry) (q : JsValue)
  (identifier key msg : string) (w : World) :
  connectionHandler this = [("redis", entry)] ->
  In identifier (identifierSet entry) ->
  addresses q identifier key ->
  (failure w OpGetHashObject identifier key = Some msg ->
   Index.readFromQueue this q JFun w =
     (CalledBack (adapterError msg) (JObj []), emit (EvGet identifier key) w))
  /\ (failure w OpGetHashKey identifier "" = Some msg ->
      Index.readKeysFromQueue this q JFun w =
        (CalledBack (adapterError msg) (JObj []), emit (EvKeys identifier) w))
  /\ (failure w OpDeleteHashKey identifier key = Some msg ->
      Index.deleteKeyFromQueue this q JFun w =
        (CalledBack (adapterError msg) (JObj []), emit (EvDelete identifier key) w))
  /\ (failure w OpSetHashObject identifier key = Some msg ->
      emptyObject (get q "value") = false ->
      badTargetType (get (get q "value") "targetType") = false ->
      Index.pushToQueue this q JFun w =
        (CalledBack (adapterError msg) JUndefined,
         emit (EvSet identifier key (get q "value")) w))
  /\ (failure w OpGetHashKey identifier "" = Some msg ->
      fst (fst (Index.readKeysAndValuesFromQueue this q JFun w)) =
        CalledBack (adapterError msg) (JObj [])
      /\ redisReadDate (snd (fst (Index.readKeysAndValuesFromQueue this q JFun w))) = JNull
      /\ store (snd (Index.readKeysAndValuesFromQueue this q JFun w)) = store w
      /\ trace (snd (Index.readKeysAndValuesFromQueue this q JFun w)) =
           EvReadDate JNull :: EvReadDate (JStr (now (emit (EvKeys identifier) w)))
             :: EvKeys identifier :: trace w).
Proof.
  intros Hthis Hreg Hq.
  pose proof (validateQueueFields_addressed _ _ _ Hq) as Hvalid.
  pose proof (validateQueueFields_group q identifier (addresses_group _ _ _ Hq)) as Hgroup.
  destruct Hq as (_ & Hid & _ & Hkey & _ & _ & Hex).
  pose proof (registered_found _ _ Hreg) as Hfound.
  split; [|split; [|split; [|split]]].
  - intros Hfail. unfold Index.readFromQueue, readDispatch. rewrite Hvalid, Hthis.
    cbn [truthy eachOf]. unfold atOnce, readLeg. rewrite Hex.
    change (toLowerCase "redis") with "redis". cbn [String.eqb Ascii.eqb Bool.eqb].
    rewrite Hid, Hkey. cbn [stringOf fst snd]. rewrite Hfound.
    unfold getHashObject. rewrite Hfail. reflexivity.
  - intros Hfail. unfold Index.readKeysFromQueue. rewrite Hgroup, Hthis.
    cbn [truthy eachOf]. unfold atOnce, readKeysLeg. rewrite Hex.
    change (toLowerCase "redis") with "redis". cbn [String.eqb Ascii.eqb Bool.eqb].
    rewrite Hid. cbn [stringOf fst snd]. rewrite Hfound.
    unfold getHashKey. rewrite Hfail. reflexivity.
  - intros Hfail. unfold Index.deleteKeyFromQueue. rewrite Hvalid, Hthis.
    cbn [truthy eachOf]. unfold atOnce, deleteLeg. rewrite Hex.
    change (toLowerCase "redis") with "redis". cbn [String.eqb Ascii.eqb Bool.eqb].
    rewrite Hid, Hkey. cbn [stringOf fst snd]. rewrite Hfound.
    unfold deleteHashKey. rewrite Hfail. reflexivity.
  - intros Hfail Hval Htarget. unfold Index.pushToQueue. rewrite Hvalid, Hval, Htarget, Hthis.
    cbn [truthy eachOf]. unfold atOnce, pushLeg. rewrite Hex.
    change (toLowerCase "redis") with "redis". cbn [String.eqb Ascii.eqb Bool.eqb].
    rewrite Hid, Hkey. cbn [stringOf]. rewrite Hfound.
    unfold setHashObject. rewrite Hfail. reflexivity.
  - intros Hfail. unfold Index.readKeysAndValuesFromQueue. rewrite Hgroup, Hthis.
    cbn [truthy eachOf]. unfold Index.keysAndValuesLeg. rewrite Hex.
    change (toLowerCase "redis") with "redis". cbn [String.eqb Ascii.eqb Bool.eqb].
    rewrite Hid. cbn [stringOf]. rewrite Hfound.
    unfold getHashKey. cbn [world]. rewrite Hfail. cbn. repeat split; reflexivity.
Qed.

Lemma adapter_error_reported_witness :
  (failure (Faulty.down "ECONNRESET" Faulty.stocked) OpGetHashObject "orders" "o1" =
     Some "ECONNRESET" ->
   Index.readFromQueue Sample.handler (Sample.order "o1" Sample.email) JFun
     (Faulty.down "ECONNRESET" Faulty.stocked) =
     (CalledBack (adapterError "ECONNRESET") (JObj []),
      emit (EvGet "orders" "o1") (Faulty.down "ECONNRESET" Faulty.stocked)))
  /\ (failure (Faulty.down "ECONNRESET" Faulty.stocked) OpGetHashKey "orders" "" =
        Some "ECONNRESET" ->
      Index.readKeysFromQueue Sample.handler (Sample.order "o1" Sample.email) JFun
        (Faulty.down "ECONNRESET" Faulty.stocked) =
        (CalledBack (adapterError "ECONNRESET") (JObj []),
         emit (EvKeys "orders") (Faulty.down "ECONNRESET" Faulty.stocked)))
  /\ (failure (Faulty.down "ECONNRESET" Faulty.stocked) OpDeleteHashKey "orders" "o1" =
        Some "ECONNRESET" ->
      Index.deleteKeyFromQueue Sample.handler (Sample.order "o1" Sample.email) JFun
        (Faulty.down "ECONNRESET" Faulty.stocked) =
        (CalledBack (adapterError "ECONNRESET") (JObj []),
         emit (EvDelete "orders" "o1") (Faulty.down "ECONNRESET" Faulty.stocked)))
  /\ (failure (Faulty.down "ECONNRESET" Faulty.stocked) OpSetHashObject "orders" "o1" =
        Some "ECONNRESET" ->
      emptyObject (get (Sample.order "o1" Sample.email) "value") = false ->
      badTargetType (get (get (Sample.order "o1" Sample.email) "value") "targetType") = false ->
      Index.pushToQueue Sample.handler (Sample.order "o1" Sample.email) JFun
        (Faulty.down "ECONNRESET" Faulty.stocked) =
        (CalledBack (adapterError "ECONNRESET") JUndefined,
         emit (EvSet "orders" "o1" (get (Sample.order "o1" Sample.email) "value"))
           (Faulty.down "ECONNRESET" Faulty.stocked)))
  /\ (failure (Faulty.down "ECONNRESET" Faulty.stocked) OpGetHashKey "orders" "" =
        Some "ECONNRESET" ->
      fst (fst (Index.readKeysAndValuesFromQueue Sample.handler
                  (Sample.order "o1" Sample.email) JFun
                  (Faulty.down "ECONNRESET" Faulty.stocked))) =
        CalledBack (adapterError "ECONNRESET") (JObj [])
      /\ redisReadDate
           (snd (fst (Index.readKeysAndValuesFromQueue Sample.handler
                        (Sample.order "o1" Sample.email) JFun
                        (Faulty.down "ECONNRESET" Faulty.stocked)))) = JNull
      /\ store (snd (Index.readKeysAndValuesFromQueue Sample.handler
                       (Sample.order "o1" Sample.email) JFun
                       (Faulty.down "ECONNRESET" Faulty.stocked))) =
         store (Faulty.down "ECONNRESET" Faulty.stocked)
      /\ trace (snd (Index.readKeysAndValuesFromQueue Sample.handler
                       (Sample.order "o1" Sample.email) JFun
                       (Faulty.down "ECONNRESET" Faulty.stocked))) =
           EvReadDate JNull
             :: EvReadDate
                  (JStr (now (emit (EvKeys "orders") (Faulty.down "ECONNRESET" Faulty.stocked))))
             :: EvKeys "orders" :: trace (Faulty.down "ECONNRESET" Faulty.stocked)).
Proof.
  apply (adapter_error_reported Sample.handler Sample.entry (Sample.order "o1" Sample.email)
           "orders" "o1" "ECONNRESET" (Faulty.down "ECONNRESET" Faulty.stocked)).
  - reflexivity.
  - simpl. left. reflexivity.
  - apply sample_order_addresses. intros H. vm_compute in H. discriminate H.
Defined.

(** X8. A failure of the last-read timestamp write is not reported. When the
    field read holds a truthy value and the write of the timestamp to the
    meta-group fails, [readFromQueue] still calls back without an error and
    with the value it would report otherwise; the write was attempted once and
    the meta-group keeps what it held. *)
Theorem read_swallows_stamp_error (this : QueueHandler) (entry : Entry) (q : JsValue)
  (identifier key msg : string) (w : World) :
  connectionHandler this = [("redis", entry)] ->
  In identifier (identifierSet entry) ->
  addresses q identifier key ->
  failure w OpGetHashObject identifier key = None ->
  truthy (storedValue identifier key w) = true ->
  failure w OpSetHashObject (servicesInfo this)
    (registrationKey (serviceName entry) identifier) = Some msg ->
  Index.readFromQueue this q JFun w =
    (CalledBack JNull
       (if truthy (get (storedValue identifier key w) "length")
        then JObj [("redis", storedValue identifier key w)] else JObj []),
     emit (EvSet (servicesInfo this) (registrationKey (serviceName entry) identifier)
             (stampOf this (emit (EvGet identifier key) w)))
       (emit (EvGet identifier key) w))
  /\ store (snd (Index.readFromQueue this q JFun w)) = store w.
Proof.
  intros Hthis Hreg Hq Hget Hheld Hset.
  rewrite (readFromQueue_registered _ _ _ _ _ _ Hthis Hreg Hq Hget).
  rewrite Hheld. cbn [andb snd]. unfold setHashObject. cbn [failure emit].
  rewrite Hset. split; reflexivity.
Qed.

Lemma read_swallows_stamp_error_witness :
  Index.readFromQueue Sample.handler (Sample.order "o1" JNull) JFun
    (Faulty.stampless "READONLY" Faulty.stocked) =
    (CalledBack JNull
       (if truthy (get (storedValue "orders" "o1" (Faulty.stampless "READONLY" Faulty.stocked))
                     "length")
        then JObj [("redis",
                    storedValue "orders" "o1" (Faulty.stampless "READONLY" Faulty.stocked))]
        else JObj []),
     emit (EvSet (servicesInfo Sample.handler)
             (registrationKey (serviceName Sample.entry) "orders")
             (stampOf Sample.handler
                (emit (EvGet "orders" "o1") (Faulty.stampless "READONLY" Faulty.stocked))))
       (emit (EvGet "orders" "o1") (Faulty.stampless "READONLY" Faulty.stocked)))
  /\ store (snd (Index.readFromQueue Sample.handler (Sample.order "o1" JNull) JFun
                   (Faulty.stampless "READONLY" Faulty.stocked))) =
     store (Faulty.stampless "READONLY" Faulty.stocked).
Proof.
  apply (read_swallows_stamp_error Sample.handler Sample.entry (Sample.order "o1" JNull)
           "orders" "o1" "READONLY" (Faulty.stampless "READONLY" Faulty.stocked)).
  - reflexivity.
  - simpl. left. reflexivity.
  - apply sample_order_addresses. intros H. vm_compute in H. discriminate H.
  - reflexivity.
  - vm_compute. reflexivity.
  - reflexivity.
Defined.

Lemma validateQueueFields_function (q skipFields : JsValue) :
  exists v, validateQueueFields q JFun skipFields = Returns v.
Proof.
  unfold validateQueueFields. cbn [isUndefined typeof String.eqb Ascii.eqb Bool.eqb negb orb].
  destruct (emptyObject q); [eexists; reflexivity|].
  destruct (blankString (get q "identifier")); [eexists; reflexivity|].
  destruct (_ && blankString (get q "key"))%bool; [eexists; reflexivity|].
  destruct (badStore (get q "store")); eexists; reflexivity.
Qed.

(** X9. With a function for a callback the writing operations never throw:
    they call back, and a write that reports an error has stored nothing. For
    every request, well-formed or not, [pushToQueue] and [deleteKeyFromQueue]
    on an instance with its one redis entry end in a call of the callback, and
    when the error handed over is truthy the stored data is what it was. *)
Theorem failed_write_stores_nothing (this : QueueHandler) (entry : Entry) (q : JsValue)
  (w : World) :
  connectionHandler this = [("redis", entry)] ->
  (exists err res,
      fst (Index.pushToQueue this q JFun w) = CalledBack err res
      /\ (truthy err = true -> store (snd (Index.pushToQueue this q JFun w)) = store w))
  /\ (exists err res,
         fst (Index.deleteKeyFromQueue this q JFun w) = CalledBack err res
         /\ (truthy err = true ->
             store (snd (Index.deleteKeyFromQueue this q JFun w)) = store w)).
Proof.
  intros Hthis. split.
  - unfold Index.pushToQueue.
    destruct (validateQueueFields_function q JUndefined) as [v ->].
    cbn [isUndefined negb]. unfold invoke. cbn [typeof String.eqb Ascii.eqb Bool.eqb].
    destruct (truthy v); [eexists _, _; split; [reflexivity|intros _; reflexivity]|].
    destruct (emptyObject (get q "value"));
      [eexists _, _; split; [reflexivity|intros _; reflexivity]|].
    destruct (badTargetType _); [eexists _, _; split; [reflexivity|intros _; reflexivity]|].
    rewrite Hthis. cbn [eachOf]. unfold atOnce, pushLeg.
    destruct (Index.storeExcludes q "redis");
      [eexists _, _; split; [reflexivity|intros Herr; discriminate Herr]|].
    change (toLowerCase "redis") with "redis". cbn [String.eqb Ascii.eqb Bool.eqb].
    destruct (notRegistered entry _);
      [eexists _, _; split; [cbn; reflexivity|intros _; cbn; reflexivity]|].
    unfold setHashObject. destruct (failure w OpSetHashObject _ _).
    + eexists _, _. split; [cbn; reflexivity|intros _; cbn; reflexivity].
    + eexists _, _. split; [cbn; reflexivity|cbn; intros Herr; discriminate Herr].
  - unfold Index.deleteKeyFromQueue.
    destruct (validateQueueFields_function q JUndefined) as [v ->].
    cbn [isUndefined negb]. unfold invoke. cbn [typeof String.eqb Ascii.eqb Bool.eqb].
    destruct (truthy v); [eexists _, _; split; [reflexivity|intros _; reflexivity]|].
    rewrite Hthis. cbn [eachOf]. unfold atOnce, deleteLeg.
    destruct (Index.storeExcludes q "redis");
      [eexists _, _; split; [reflexivity|intros Herr; discriminate Herr]|].
    change (toLowerCase "redis") with "redis". cbn [String.eqb Ascii.eqb Bool.eqb].
    destruct (notRegistered entry _);
      [eexists _, _; split; [cbn; reflexivity|intros _; cbn; reflexivity]|].
    unfold deleteHashKey. cbn [snd]. destruct (failure w OpDeleteHashKey _ _).
    + eexists _, _. split; [cbn; reflexivity|intros _; cbn; reflexivity].
    + eexists _, _. split; [cbn; reflexivity|cbn; intros Herr; discriminate Herr].
Qed.

Lemma failed_write_stores_nothing_witness :
  (exists err res,
      fst (Index.pushToQueue Sample.handler (Sample.order "o1" Sample.email) JFun
             (Faulty.down "ECONNRESET" Faulty.stocked)) = CalledBack err res
      /\ (truthy err = true ->
          store (snd (Index.pushToQueue Sample.handler (Sample.order "o1" Sample.email) JFun
                        (Faulty.down "ECONNRESET" Faulty.stocked))) =
          store (Faulty.down "ECONNRESET" Faulty.stocked)))
  /\ (exists err res,
         fst (Index.deleteKeyFromQueue Sample.handler (Sample.order "o1" Sample.email) JFun
                (Faulty.down "ECONNRESET" Faulty.stocked)) = CalledBack err res
         /\ (truthy err = true ->
             store (snd (Index.deleteKeyFromQueue Sample.handler
                           (Sample.order "o1" Sample.email) JFun
                           (Faulty.down "ECONNRESET" Faulty.stocked))) =
             store (Faulty.down "ECONNRESET" Faulty.stocked))).
Proof.
  apply (failed_write_stores_nothing Sample.handler Sample.entry
           (Sample.order "o1" Sample.email) (Faulty.down "ECONNRESET" Faulty.stocked)).
  reflexivity.
Defined.

(** ** What the reading operations leave alone *)

Lemma eachOf_final {A S : Type} (P : S -> Prop) (iteratee : A -> string -> Leg S) :
  (forall value key s, P s -> P (snd (iteratee value key s))) ->
  forall (coll : list (string * A)) (s : S), P s -> P (snd (eachOf coll iteratee s)).
Proof.
  intros Hleg coll. induction coll as [|[key value] rest IH]; intros s Hs; [exact Hs|].
  cbn [eachOf]. pose proof (Hleg value key s Hs) as Hfinal.
  destruct (iteratee value key s) as [[err seen] s1]. cbn [snd] in Hfinal.
  pose proof (IH s1 Hfinal) as Hrest.
  destruct (eachOf rest iteratee s1) as [[err' seen'] s2]. cbn [snd] in Hrest.
  destruct (truthy err); exact Hrest.
Qed.

Lemma readLeg_data (excludes : JsValue -> string -> bool) (this : QueueHandler) (q : JsValue)
  (value : Entry) (serviceStore : string) (st : JsValue * World) (group : string) :
  group <> servicesInfo this ->
  hashOf group (snd (snd (readLeg excludes this q value serviceStore st))) =
    hashOf group (snd st).
Proof.
  intros Hgroup. unfold readLeg.
  destruct (excludes q serviceStore); [reflexivity|].
  destruct (String.eqb (toLowerCase serviceStore) "redis"); [|reflexivity].
  destruct (notRegistered value _); [reflexivity|].
  unfold getHashObject. destruct (failure (snd st) OpGetHashObject _ _); [reflexivity|].
  cbn [truthy]. destruct (negb (truthy _)); [reflexivity|].
  destruct (setHashObject _ _ _ _) as [[e r] w2] eqn:Hset. cbn [snd].
  change w2 with (snd (e, r, w2)). rewrite <- Hset.
  rewrite setHashObject_other_group by (intros Heq; apply Hgroup; symmetry; exact Heq).
  reflexivity.
Qed.

Lemma readFromQueue_data (this : QueueHandler) (q callback : JsValue) (w : World)
  (group : string) :
  group <> servicesInfo this ->
  hashOf group (snd (Index.readFromQueue this q callback w)) = hashOf group w.
Proof.
  intros Hgroup. unfold Index.readFromQueue.
  destruct (validateQueueFields q callback JUndefined) as [msg|v]; [reflexivity|].
  destruct (truthy v); [reflexivity|].
  unfold readDispatch.
  pose proof (eachOf_final (fun st : JsValue * World => hashOf group (snd st) = hashOf group w)
                (fun value serviceStore =>
                   atOnce (readLeg Index.storeExcludes this q value serviceStore))) as Hall.
  specialize (Hall (fun value key s Hs =>
    ltac:(unfold atOnce;
          pose proof (readLeg_data Index.storeExcludes this q value key s group Hgroup) as Hleg;
          destruct (readLeg Index.storeExcludes this q value key s) as [err s1];
          cbn [snd] in *; rewrite Hleg; exact Hs))).
  specialize (Hall (connectionHandler this) (JObj [], w) eq_refl).
  destruct (eachOf _ _ _) as [[err seen] final]. exact Hall.
Qed.

Lemma readEachKey_data (q : JsValue) (info group : string) (w : World) :
  group <> info ->
  forall (keyList : list JsValue) (fired : option (JsValue * Frame)) (st : Frame),
    servicesInfo (self st) = info /\ hashOf group (world st) = hashOf group w ->
    servicesInfo (self (snd (Index.readEachKey q keyList fired st))) = info
    /\ hashOf group (world (snd (Index.readEachKey q keyList fired st))) = hashOf group w.
Proof.
  intros Hgroup keyList. induction keyList as [|name rest IH]; intros fired st [Hinfo Hdata].
  - cbn [Index.readEachKey]. destruct fired as [[err seen]|]; split; assumption.
  - cbn [Index.readEachKey].
    pose proof (readFromQueue_data (self st)
                  (assign "store" (JArr [JStr "redis"])
                     (assign "key" name (objectAssignEmpty q))) JFun (world st) group) as Hread.
    rewrite Hinfo in Hread. specialize (Hread Hgroup).
    destruct (Index.readFromQueue _ _ _ _) as [outcome w1]. cbn [snd] in Hread.
    destruct (match outcome with CalledBack err response => (err, response) | _ => _ end)
      as [err response].
    assert (Hnext : forall st1 : Frame,
              self st1 = self st -> world st1 = w1 ->
              servicesInfo (self st1) = info /\ hashOf group (world st1) = hashOf group w).
    { intros st1 Hself Hworld. rewrite Hself, Hworld, Hread. split; assumption. }
    assert (Hclear : forall (v : JsValue) (st1 : Frame),
              servicesInfo (self st1) = info /\ hashOf group (world st1) = hashOf group w ->
              servicesInfo (self (setReadDate v st1)) = info
              /\ hashOf group (world (setReadDate v st1)) = hashOf group w).
    { intros v st1 [H1 H2]. split; [exact H1|exact H2]. }
    destruct (truthy response && truthy (get response "redis")
              && truthy (get (get response "redis") "length"))%bool.
    + destruct fired as [pair|].
      * apply IH. apply Hnext; reflexivity.
      * destruct (truthy err); apply IH.
        -- apply (Hclear JNull). apply Hnext; reflexivity.
        -- apply Hnext; reflexivity.
    + destruct fired as [pair|].
      * apply IH. apply Hnext; reflexivity.
      * destruct (truthy err); apply IH.
        -- apply (Hclear JNull). apply Hnext; reflexivity.
        -- apply Hnext; reflexivity.
Qed.

Lemma keysAndValuesLeg_data (q : JsValue) (value : Entry) (serviceStore info group : string)
  (w : World) (st : Frame) :
  group <> info ->
  servicesInfo (self st) = info /\ hashOf group (world st) = hashOf group w ->
  servicesInfo (self (snd (Index.keysAndValuesLeg q value serviceStore st))) = info
  /\ hashOf group (world (snd (Index.keysAndValuesLeg q value serviceStore st))) =
     hashOf group w.
Proof.
  intros Hgroup [Hinfo Hdata]. unfold Index.keysAndValuesLeg.
  destruct (Index.storeExcludes q serviceStore); [split; assumption|].
  destruct (String.eqb (toLowerCase serviceStore) "redis"); [|split; assumption].
  destruct (notRegistered value (get q "identifier")); [split; assumption|].
  unfold getHashKey. destruct (failure (world st) OpGetHashKey _ _).
  - cbn. split; assumption.
  - cbn [truthy negb orb]. destruct (lengthIsZero _).
    + cbn. split; assumption.
    + apply readEachKey_data; [exact Hgroup|]. cbn. split; assumption.
Qed.

(** X10. The reading operations change no data. Whatever the request, the
    callback and the registration table, [readFromQueue] and
    [readKeysAndValuesFromQueue] leave every group other than the meta-group
    [servicesInfo] exactly as it was (they only stamp the meta-group), and
    [readKeysFromQueue] writes nothing at all. *)
Theorem reads_keep_the_data (this : QueueHandler) (q callback : JsValue) (w : World)
  (group : string) :
  group <> servicesInfo this ->
  hashOf group (snd (Index.readFromQueue this q callback w)) = hashOf group w
  /\ hashOf group (snd (Index.readKeysAndValuesFromQueue this q callback w)) = hashOf group w
  /\ store (snd (Index.readKeysFromQueue this q callback w)) = store w.
Proof.
  intros Hgroup. split; [apply readFromQueue_data; exact Hgroup|]. split.
  - unfold Index.readKeysAndValuesFromQueue.
    destruct (validateQueueFields q callback _) as [msg|v]; [reflexivity|].
    destruct (truthy v); [reflexivity|].
    pose proof (eachOf_final
                  (fun st : Frame =>
                     servicesInfo (self st) = servicesInfo this
                     /\ hashOf group (world st) = hashOf group w)
                  (Index.keysAndValuesLeg q)
                  (fun value key s Hs =>
                     keysAndValuesLeg_data q value key (servicesInfo this) group w s Hgroup Hs)
                  (connectionHandler this)
                  {| self := this; result := JObj []; world := w |} (conj eq_refl eq_refl))
      as Hall.
    destruct (eachOf _ _ _) as [[err seen] final]. exact (proj2 Hall).
  - unfold Index.readKeysFromQueue.
    destruct (validateQueueFields q callback _) as [msg|v]; [reflexivity|].
    destruct (truthy v); [reflexivity|].
    pose proof (eachOf_final (fun st : JsValue * World => store (snd st) = store w)
                  (fun value serviceStore =>
                     atOnce (readKeysLeg Index.storeExcludes q value serviceStore))) as Hall.
    assert (Hleg : forall (value : Entry) (key : string) (s : JsValue * World),
               store (snd s) = store w ->
               store (snd (snd (atOnce (readKeysLeg Index.storeExcludes q value key) s))) =
                 store w).
    { intros value key s Hs. unfold atOnce, readKeysLeg.
      destruct (Index.storeExcludes q key); [exact Hs|].
      destruct (String.eqb (toLowerCase key) "redis"); [|exact Hs].
      destruct (notRegistered value _); [exact Hs|].
      unfold getHashKey. destruct (failure (snd s) OpGetHashKey _ _); exact Hs. }
    specialize (Hall Hleg (connectionHandler this) (JObj [], w) eq_refl).
    destruct (eachOf _ _ _) as [[err seen] final]. exact Hall.
Qed.

Lemma reads_keep_the_data_witness :
  hashOf "orders" (snd (Index.readFromQueue Sample.handler (Sample.order "o1" JNull) JFun
                          Faulty.stocked)) = hashOf "orders" Faulty.stocked
  /\ hashOf "orders"
       (snd (Index.readKeysAndValuesFromQueue Sample.handler (Sample.order "o1" JNull) JFun
               Faulty.stocked)) = hashOf "orders" Faulty.stocked
  /\ store (snd (Index.readKeysFromQueue Sample.handler (Sample.order "o1" JNull) JFun
                   Faulty.stocked)) = store Faulty.stocked.
Proof.
  apply (reads_keep_the_data Sample.handler (Sample.order "o1" JNull) JFun Faulty.stocked
           "orders").
  intros H. discriminate H.
Defined.

(** ** What construction does to the backend, and what it makes possible *)

(** X11. Construction touches the meta-group only. Whatever the configuration
    and whether or not it ends in an instance, every adapter call the
    constructor makes is a lookup in [registeredServices] or a write to it of
    the one timestamp taken before the first call, and every other group is
    left exactly as it was. *)
Theorem construction_touches_meta_group_only (connectionConfig : list (string * Config.t))
  (w : World) :
  (forall group, group <> "registeredServices" ->
     hashOf group (snd (constructor connectionConfig w)) = hashOf group w)
  /\ exists events,
       extends w (snd (constructor connectionConfig w)) events
       /\ Forall (registrationEvent (now w)) events.
Proof.
  apply (constructor_invariant
           (fun u =>
              (forall group, group <> "registeredServices" -> hashOf group u = hashOf group w)
              /\ exists events, extends w u events /\ Forall (registrationEvent (now w)) events)).
  - intros u key [Hdata (events & Hext & Hall)]. split; [exact Hdata|].
    exists (EvGet "registeredServices" key :: events). split.
    + unfold extends in *. cbn [trace emit]. rewrite Hext. reflexivity.
    + constructor; [left; exists key; reflexivity|exact Hall].
  - intros u key [Hdata (events & Hext & Hall)] _. split.
    + intros group Hgroup.
      rewrite setHashObject_other_group by (intros Heq; apply Hgroup; symmetry; exact Heq).
      apply Hdata. exact Hgroup.
    + exists (EvSet "registeredServices" key (JStr (now w)) :: events). split.
      * unfold extends in *. rewrite setHashObject_trace, Hext. reflexivity.
      * constructor; [right; exists key; reflexivity|exact Hall].
  - split; [reflexivity|]. exists []. split; [reflexivity|constructor].
Qed.

Lemma wire_constructor (connectionConfig : list (string * Config.t)) (w : World) :
  wire (snd (constructor connectionConfig w)) = wire w.
Proof.
  apply (constructor_invariant (fun u => wire u = wire w)).
  - intros u key Hu. exact Hu.
  - intros u key Hu _. rewrite setHashObject_wire. exact Hu.
  - reflexivity.
Qed.

Lemma held_wire (w u : World) (v : JsValue) : wire u = wire w -> held u v = held w v.
Proof. intros Hwire. unfold held. rewrite Hwire. reflexivity. Qed.

(** X12. A configured identifier can be used at once. On a backend where no
    call fails, construction from a configuration of redis entries yields an
    instance, and under any non-blank identifier of the last entry, in its
    trimmed form, a valid Insert succeeds, the value is stored under that
    identifier and key in the form in which the backend holds it, and the
    read that follows raises no error and reports what the backend holds
    exactly when that is truthy and has a truthy [length]. *)
Theorem configured_identifier_usable (front : list (string * Config.t)) (serviceStore : string)
  (value : Config.t) (name key : string) (v : JsValue) (w : World) :
  faultFree w ->
  allRedis (front ++ [(serviceStore, value)])%list ->
  In name (Config.identifierSet value) ->
  trim name <> "" ->
  insertable (key, v) ->
  exists this,
    fst (constructor (front ++ [(serviceStore, value)])%list w) = Builds this
    /\ fst (Index.pushToQueue this (insertRequest (trim name) key v) JFun
              (snd (constructor (front ++ [(serviceStore, value)])%list w))) =
       CalledBack JNull JUndefined
    /\ storedValue (trim name) key
         (snd (Index.pushToQueue this (insertRequest (trim name) key v) JFun
                 (snd (constructor (front ++ [(serviceStore, value)])%list w)))) = held w v
    /\ fst (Index.readFromQueue this (insertRequest (trim name) key v) JFun
              (snd (Index.pushToQueue this (insertRequest (trim name) key v) JFun
                      (snd (constructor (front ++ [(serviceStore, value)])%list w))))) =
       CalledBack JNull (if sized (held w v) then JObj [("redis", held w v)] else JObj []).
Proof.
  intros Hw Hredis Hname Hfilled (Hkey & Hval & Htarget). cbn [fst snd] in Hkey, Hval, Htarget.
  destruct (constructor_builds front serviceStore value w Hw Hredis) as [Hbuilt Hfree].
  pose proof (wire_constructor (front ++ [(serviceStore, value)])%list w) as Hwire.
  set (this := {| connectionHandler := [("redis", entryOf value)];
                  servicesInfo := "registeredServices";
                  redisReadDate := JUndefined |}) in *.
  exists this. split; [exact Hbuilt|].
  assert (Hthis : connectionHandler this = [("redis", entryOf value)]) by reflexivity.
  assert (Hreg : In (trim name) (identifierSet (entryOf value))).
  { cbn [identifierSet entryOf]. apply registeredNames_holds; assumption. }
  assert (Hq : addresses (insertRequest (trim name) key v) (trim name) key).
  { apply insertRequest_addresses; [rewrite trim_idempotent; exact Hfilled|exact Hkey]. }
  rewrite (pushToQueue_registered this (entryOf value) _ _ _ _ Hthis Hreg Hq Hval Htarget
             (Hfree _ _ _)).
  change (get (insertRequest (trim name) key v) "value") with v.
  rewrite (held_wire w _ v Hwire).
  cbn [fst snd]. split; [reflexivity|].
  split.
  - unfold storedValue. rewrite hashOf_withStore_insert, lookupProp_hset_eq. reflexivity.
  - rewrite (readFromQueue_registered this (entryOf value) _ _ _ _ Hthis Hreg Hq)
      by (cbn [failure withStore emit]; apply Hfree).
    cbn [fst]. unfold storedValue.
    rewrite hashOf_withStore_insert, lookupProp_hset_eq. reflexivity.
Qed.

Lemma configured_identifier_usable_witness :
  exists this,
    fst (constructor ([] ++ [("redis", Config.make JNull "svc" ["  orders "])])%list
           Textual.world) = Builds this
    /\ fst (Index.pushToQueue this (insertRequest (trim "  orders ") "o1" Sample.email) JFun
              (snd (constructor ([] ++ [("redis", Config.make JNull "svc" ["  orders "])])%list
                      Textual.world))) =
       CalledBack JNull JUndefined
    /\ storedValue (trim "  orders ") "o1"
         (snd (Index.pushToQueue this (insertRequest (trim "  orders ") "o1" Sample.email) JFun
                 (snd (constructor
                         ([] ++ [("redis", Config.make JNull "svc" ["  orders "])])%list
                         Textual.world)))) = held Textual.world Sample.email
    /\ fst (Index.readFromQueue this (insertRequest (trim "  orders ") "o1" Sample.email) JFun
              (snd (Index.pushToQueue this
                      (insertRequest (trim "  orders ") "o1" Sample.email) JFun
                      (snd (constructor
                              ([] ++ [("redis", Config.make JNull "svc" ["  orders "])])%list
                              Textual.world))))) =
       CalledBack JNull
         (if sized (held Textual.world Sample.email)
          then JObj [("redis", held Textual.world Sample.email)] else JObj []).
Proof.
  apply (configured_identifier_usable [] "redis" (Config.make JNull "svc" ["  orders "])
           "  orders " "o1" Sample.email Textual.world).
  - intros op group field. reflexivity.
  - constructor; [reflexivity|constructor].
  - simpl. left. reflexivity.
  - intros H. vm_compute in H. discriminate H.
  - split; [intros H; vm_compute in H; discriminate H|]. split; reflexivity.
Defined.

(** ** The earlier revision, src/unnamed/part_000 *)

Lemma eachOf_invariant {A S : Type} (P : S -> Prop) (iteratee : A -> string -> Leg S) :
  (forall value key s,
     P s -> P (snd (fst (iteratee value key s))) /\ P (snd (iteratee value key s))) ->
  forall (coll : list (string * A)) (s : S),
    P s -> P (snd (fst (eachOf coll iteratee s))) /\ P (snd (eachOf coll iteratee s)).
Proof.
  intros Hleg coll. induction coll as [|[key value] rest IH]; intros s Hs; [split; exact Hs|].
  cbn [eachOf]. destruct (Hleg value key s Hs) as [Hseen Hfinal].
  destruct (iteratee value key s) as [[err seen] s1]. cbn [fst snd] in Hseen, Hfinal.
  destruct (IH s1 Hfinal) as [Hseen' Hfinal'].
  destruct (eachOf rest iteratee s1) as [[err' seen'] s2]. cbn [fst snd] in Hseen', Hfinal'.
  destruct (truthy err); split; assumption.
Qed.

Lemma eachOf_ext {A S : Type} (f g : A -> string -> Leg S) :
  (forall value key s, f value key s = g value key s) ->
  forall (coll : list (string * A)) (s : S), eachOf coll f s = eachOf coll g s.
Proof.
  intros Hsame coll. induction coll as [|[key value] rest IH]; intros s; [reflexivity|].
  cbn [eachOf]. rewrite Hsame. destruct (g value key s) as [[err seen] s1].
  rewrite IH. reflexivity.
Qed.

Lemma readLeg_unsized (excludes : JsValue -> string -> bool) (this : QueueHandler) (q : JsValue)
  (value : Entry) (serviceStore : string) (st : JsValue * World) :
  (exists props, fst st = JObj props /\ lookupProp "length" props = None) ->
  exists props,
    fst (snd (readLeg excludes this q value serviceStore st)) = JObj props
    /\ lookupProp "length" props = None.
Proof.
  intros (props & Hst & Hprops). unfold readLeg.
  destruct (excludes q serviceStore); [exists props; split; assumption|].
  destruct (String.eqb (toLowerCase serviceStore) "redis"); [|exists props; split; assumption].
  destruct (notRegistered value _); [exists props; split; assumption|].
  destruct (getHashObject _ _ _) as [[err response] w1].
  assert (Hres : exists props1,
            (if (truthy response && truthy (get response "length"))%bool
             then assign "redis" response (fst st) else fst st) = JObj props1
            /\ lookupProp "length" props1 = None).
  { destruct (truthy response && truthy (get response "length"))%bool.
    - rewrite Hst. cbn [assign]. eexists. split; [reflexivity|].
      rewrite lookupProp_assignProp_ne by discriminate. exact Hprops.
    - exists props. split; assumption. }
  destruct (truthy err); [exact Hres|].
  destruct (negb (truthy response)); [exact Hres|].
  destruct (setHashObject _ _ _ _) as [[e r] w2]. exact Hres.
Qed.

Lemma part000_read_unsized (this : QueueHandler) (q : JsValue) (w : World) :
  exists err response,
    fst (fst (Part000.readFromQueue this q JFun w)) = CalledBack err response
    /\ (truthy response && truthy (get response "length"))%bool = false.
Proof.
  unfold Part000.readFromQueue, invoke. cbn [typeof String.eqb Ascii.eqb Bool.eqb isUndefined
                                             negb orb].
  destruct (emptyObject q); [eexists _, _; split; reflexivity|].
  destruct (blankString (get q "identifier")); [eexists _, _; split; reflexivity|].
  destruct (blankString (get q "key")); [eexists _, _; split; reflexivity|].
  destruct (badStore (get q "store")); [eexists _, _; split; reflexivity|].
  unfold readDispatch.
  pose proof (eachOf_invariant
                (fun st : JsValue * World =>
                   exists props, fst st = JObj props /\ lookupProp "length" props = None)
                (fun value serviceStore =>
                   atOnce (readLeg Part000.storeExcludes this (Part000.defaultStore q)
                             value serviceStore))) as Hall.
  assert (Hleg : forall (value : Entry) (key : string) (s : JsValue * World),
             (exists props, fst s = JObj props /\ lookupProp "length" props = None) ->
             (exists props,
                 fst (snd (fst (atOnce (readLeg Part000.storeExcludes this
                                          (Part000.defaultStore q) value key) s))) = JObj props
                 /\ lookupProp "length" props = None)
             /\ (exists props,
                    fst (snd (atOnce (readLeg Part000.storeExcludes this
                                        (Part000.defaultStore q) value key) s)) = JObj props
                    /\ lookupProp "length" props = None)).
  { intros value key s Hs. unfold atOnce.
    pose proof (readLeg_unsized Part000.storeExcludes this (Part000.defaultStore q) value key s
                  Hs) as Hone.
    destruct (readLeg _ _ _ _ _ _) as [err s1]. cbn [fst snd] in *. split; exact Hone. }
  destruct (Hall Hleg (connectionHandler this) (JObj [], w)
              (ex_intro _ [] (conj eq_refl eq_refl))) as [(props & Hseen & Hprops) _].
  destruct (eachOf _ _ _) as [[err seen] final]. cbn [fst snd] in *.
  eexists _, _. split; [reflexivity|].
  rewrite Hseen. cbn [truthy get andb]. rewrite Hprops. reflexivity.
Qed.

Lemma part000_readEachKey_result (q : JsValue) (r : JsValue) :
  forall (keyList : list JsValue) (fired : option (JsValue * Frame)) (st : Frame),
    match fired with Some (_, seen) => result seen = r | None => True end ->
    result st = r ->
    result (snd (fst (Part000.readEachKey q keyList fired st))) = r
    /\ result (snd (Part000.readEachKey q keyList fired st)) = r.
Proof.
  intros keyList. induction keyList as [|name rest IH]; intros fired st Hfired Hst.
  - cbn [Part000.readEachKey]. destruct fired as [[err seen]|]; split; assumption.
  - cbn [Part000.readEachKey].
    destruct (part000_read_unsized (self st) (assign "key" name (objectAssignEmpty q))
                (world st)) as (err & response & Hout & Hunsized).
    destruct (Part000.readFromQueue _ _ _ _) as [[outcome dataObj] w1].
    cbn [fst] in Hout. subst outcome. rewrite Hunsized.
    destruct fired as [[err0 seen0]|].
    + apply IH; [exact Hfired|exact Hst].
    + destruct (truthy err); apply IH; try exact I; exact Hst.
Qed.

(** X13. The earlier revision's listing of keys and values never hands back a
    row. It pushes a row when the object [readFromQueue] hands back has a
    truthy [length], which that object, the per-backend result, never has: so
    for every instance and request, a result that reaches the callback is
    absent, has no [redis] entry, or has an empty one. *)
Theorem part000_listing_has_no_rows (this : QueueHandler) (q callback : JsValue) (w : World)
  (err res : JsValue) :
  fst (fst (fst (Part000.readKeysAndValuesFromQueue this q callback w))) = CalledBack err res ->
  noRows res.
Proof.
  unfold Part000.readKeysAndValuesFromQueue, invoke.
  assert (Habsent : forall (e : JsValue) (x : JsValue) (this1 : QueueHandler) (w1 : World),
            fst (fst (fst (if String.eqb (typeof callback) "function"
                           then CalledBack e JUndefined
                           else Thrown (JStr "TypeError: callback is not a function"),
                           x, this1, w1))) = CalledBack err res -> noRows res).
  { intros e x this1 w1. cbn [fst]. destruct (String.eqb (typeof callback) "function");
      [|discriminate]. intros H. injection H as _ <-. left. reflexivity. }
  destruct (emptyObject q); [apply Habsent|].
  destruct (blankString (get q "identifier")); [apply Habsent|].
  destruct (badStore (get q "store")); [apply Habsent|].
  destruct (isUndefined callback || negb (String.eqb (typeof callback) "function"))%bool;
    [discriminate|].
  pose proof (eachOf_invariant
                (fun st : Frame =>
                   result st = JObj [] \/ result st = JObj [("redis", JArr [])])
                (Part000.keysAndValuesLeg (Part000.defaultStore q))) as Hall.
  assert (Hleg : forall (value : Entry) (key : string) (s : Frame),
             result s = JObj [] \/ result s = JObj [("redis", JArr [])] ->
             (result (snd (fst (Part000.keysAndValuesLeg (Part000.defaultStore q) value key s)))
                = JObj []
              \/ result (snd (fst (Part000.keysAndValuesLeg (Part000.defaultStore q)
                                     value key s))) = JObj [("redis", JArr [])])
             /\ (result (snd (Part000.keysAndValuesLeg (Part000.defaultStore q) value key s))
                   = JObj []
                 \/ result (snd (Part000.keysAndValuesLeg (Part000.defaultStore q) value key s))
                      = JObj [("redis", JArr [])])).
  { intros value key s Hs. unfold Part000.keysAndValuesLeg.
    destruct (Part000.storeExcludes _ key); [split; exact Hs|].
    destruct (String.eqb (toLowerCase key) "redis"); [|split; exact Hs].
    destruct (notRegistered value _); [split; exact Hs|].
    destruct (getHashKey _ _) as [[e keyList] w1].
    destruct (truthy e); [split; exact Hs|].
    destruct (negb (truthy keyList) || lengthIsZero keyList)%bool; [split; exact Hs|].
    destruct (part000_readEachKey_result (Part000.defaultStore q) (JObj [("redis", JArr [])])
                (itemsOf keyList) None
                (withResult (assign "redis" (JArr []) (result (setReadDate (JStr (now w1))
                                                                  (withWorld w1 s))))
                   (setReadDate (JStr (now w1)) (withWorld w1 s))) I) as [Hseen Hfinal].
    { cbn [result withResult setReadDate withWorld].
      destruct Hs as [-> | ->]; reflexivity. }
    split; right; assumption. }
  destruct (Hall Hleg (connectionHandler this) {| self := this; result := JObj []; world := w |}
              (or_introl eq_refl)) as [Hseen _].
  destruct (eachOf _ _ _) as [[e seen] final]. cbn [fst snd] in *.
  destruct (String.eqb (typeof callback) "function"); [|discriminate].
  intros H. injection H as _ <-. destruct Hseen as [-> | ->]; [left|right]; reflexivity.
Qed.

Lemma part000_listing_has_no_rows_witness :
  fst (fst (fst (Part000.readKeysAndValuesFromQueue Sample.handler
                   (JObj [("identifier", JStr "orders"); ("store", JArr [JStr "redis"])])
                   JFun Faulty.stocked))) =
    CalledBack JNull (JObj [("redis", JArr [])])
  /\ noRows (JObj [("redis", JArr [])]).
Proof.
  assert (Hrun :
    fst (fst (fst (Part000.readKeysAndValuesFromQueue Sample.handler
                     (JObj [("identifier", JStr "orders"); ("store", JArr [JStr "redis"])])
                     JFun Faulty.stocked))) =
      CalledBack JNull (JObj [("redis", JArr [])])) by (vm_compute; reflexivity).
  split; [exact Hrun|].
  exact (part000_listing_has_no_rows Sample.handler
           (JObj [("identifier", JStr "orders"); ("store", JArr [JStr "redis"])])
           JFun Faulty.stocked JNull (JObj [("redis", JArr [])]) Hrun).
Defined.

Lemma names_is_object (q : JsValue) (identifier key : string) :
  names q identifier key -> exists props, q = JObj props.
Proof. intros (_ & Hid & _). exact (addressed_is_object q identifier Hid). Qed.

(** X14. The earlier revision writes on the caller's request. For a
    well-formed request without a store filter and a function for a callback,
    each operation of part_000 leaves the request with [store] set to an empty
    array; handing that same object to any of its operations again is refused
    with the store message before the backend is reached. *)
Theorem part000_request_not_reusable (this : QueueHandler) (q : JsValue)
  (identifier key : string) (w u : World) :
  names q identifier key ->
  get q "store" = JUndefined ->
  snd (fst (Part000.readFromQueue this q JFun w)) = assign "store" (JArr []) q
  /\ snd (fst (Part000.readKeysFromQueue this q JFun w)) = assign "store" (JArr []) q
  /\ snd (fst (Part000.deleteKeyFromQueue this q JFun w)) = assign "store" (JArr []) q
  /\ snd (fst (fst (Part000.readKeysAndValuesFromQueue this q JFun w))) =
       assign "store" (JArr []) q
  /\ Part000.readFromQueue this (assign "store" (JArr []) q) JFun u =
       (CalledBack (JStr msgStore) JUndefined, assign "store" (JArr []) q, u)
  /\ Part000.readKeysFromQueue this (assign "store" (JArr []) q) JFun u =
       (CalledBack (JStr msgStore) JUndefined, assign "store" (JArr []) q, u)
  /\ Part000.deleteKeyFromQueue this (assign "store" (JArr []) q) JFun u =
       (CalledBack (JStr msgStore) JUndefined, assign "store" (JArr []) q, u)
  /\ Part000.readKeysAndValuesFromQueue this (assign "store" (JArr []) q) JFun u =
       (CalledBack (JStr msgStore) JUndefined, assign "store" (JArr []) q, this, u).
Proof.
  intros Hq Hstore. destruct (names_is_object _ _ _ Hq) as [props ->].
  destruct Hq as (Hobj & Hid & Hidn & Hkey & Hkeyn).
  assert (Hbad : badStore (get (JObj props) "store") = false) by (rewrite Hstore; reflexivity).
  assert (Hdefault : Part000.defaultStore (JObj props) = assign "store" (JArr []) (JObj props)).
  { unfold Part000.defaultStore. rewrite Hstore. reflexivity. }
  assert (Hobj1 : emptyObject (assign "store" (JArr []) (JObj props)) = false).
  { cbn [assign]. unfold emptyObject. cbn [truthy typeof negb orb String.eqb Ascii.eqb Bool.eqb
                                           objectKeysLength].
    destruct (assignProp "store" (JArr []) props) eqn:Hp; [|reflexivity].
    destruct props as [|[k x] rest]; [discriminate Hp|].
    cbn [assignProp] in Hp. destruct (String.eqb k "store"); discriminate Hp. }
  assert (Hid1 : get (assign "store" (JArr []) (JObj props)) "identifier" = JStr identifier).
  { rewrite get_assign_ne by discriminate. exact Hid. }
  assert (Hkey1 : get (assign "store" (JArr []) (JObj props)) "key" = JStr key).
  { rewrite get_assign_ne by discriminate. exact Hkey. }
  assert (Hstore1 : get (assign "store" (JArr []) (JObj props)) "store" = JArr []).
  { apply get_assign_eq. }
  pose proof (blankString_JStr _ Hidn) as Hidb. pose proof (blankString_JStr _ Hkeyn) as Hkeyb.
  split; [|split; [|split; [|split; [|split; [|split; [|split]]]]]].
  - unfold Part000.readFromQueue. rewrite Hobj, Hid, Hkey, Hbad, Hidb, Hkeyb, Hdefault.
    cbn [isUndefined typeof String.eqb Ascii.eqb Bool.eqb negb orb].
    destruct (readDispatch _ _ _ _) as [[e r] w1]. reflexivity.
  - unfold Part000.readKeysFromQueue. rewrite Hobj, Hid, Hbad, Hidb, Hdefault.
    cbn [isUndefined typeof String.eqb Ascii.eqb Bool.eqb negb orb].
    destruct (eachOf _ _ _) as [[e seen] final]. reflexivity.
  - unfold Part000.deleteKeyFromQueue. rewrite Hobj, Hid, Hkey, Hbad, Hidb, Hkeyb, Hdefault.
    cbn [isUndefined typeof String.eqb Ascii.eqb Bool.eqb negb andb].
    destruct (eachOf _ _ _) as [[e seen] final]. reflexivity.
  - unfold Part000.readKeysAndValuesFromQueue. rewrite Hobj, Hid, Hbad, Hidb, Hdefault.
    cbn [isUndefined typeof String.eqb Ascii.eqb Bool.eqb negb orb].
    destruct (eachOf _ _ _) as [[e seen] final]. reflexivity.
  - unfold Part000.readFromQueue. rewrite Hobj1, Hid1, Hkey1, Hstore1, Hidb, Hkeyb. reflexivity.
  - unfold Part000.readKeysFromQueue. rewrite Hobj1, Hid1, Hstore1, Hidb. reflexivity.
  - unfold Part000.deleteKeyFromQueue. rewrite Hobj1, Hid1, Hkey1, Hstore1, Hidb, Hkeyb.
    reflexivity.
  - unfold Part000.readKeysAndValuesFromQueue. rewrite Hobj1, Hid1, Hstore1, Hidb. reflexivity.
Qed.

Lemma part000_request_not_reusable_witness :
  snd (fst (Part000.readFromQueue Sample.handler (Sample.order "o1" JNull) JFun
              Faulty.stocked)) = assign "store" (JArr []) (Sample.order "o1" JNull)
  /\ snd (fst (Part000.readKeysFromQueue Sample.handler (Sample.order "o1" JNull) JFun
                 Faulty.stocked)) = assign "store" (JArr []) (Sample.order "o1" JNull)
  /\ snd (fst (Part000.deleteKeyFromQueue Sample.handler (Sample.order "o1" JNull) JFun
                 Faulty.stocked)) = assign "store" (JArr []) (Sample.order "o1" JNull)
  /\ snd (fst (fst (Part000.readKeysAndValuesFromQueue Sample.handler
                      (Sample.order "o1" JNull) JFun Faulty.stocked))) =
       assign "store" (JArr []) (Sample.order "o1" JNull)
  /\ Part000.readFromQueue Sample.handler (assign "store" (JArr []) (Sample.order "o1" JNull))
       JFun Sample.ready =
       (CalledBack (JStr msgStore) JUndefined,
        assign "store" (JArr []) (Sample.order "o1" JNull), Sample.ready)
  /\ Part000.readKeysFromQueue Sample.handler
       (assign "store" (JArr []) (Sample.order "o1" JNull)) JFun Sample.ready =
       (CalledBack (JStr msgStore) JUndefined,
        assign "store" (JArr []) (Sample.order "o1" JNull), Sample.ready)
  /\ Part000.deleteKeyFromQueue Sample.handler
       (assign "store" (JArr []) (Sample.order "o1" JNull)) JFun Sample.ready =
       (CalledBack (JStr msgStore) JUndefined,
        assign "store" (JArr []) (Sample.order "o1" JNull), Sample.ready)
  /\ Part000.readKeysAndValuesFromQueue Sample.handler
       (assign "store" (JArr []) (Sample.order "o1" JNull)) JFun Sample.ready =
       (CalledBack (JStr msgStore) JUndefined,
        assign "store" (JArr []) (Sample.order "o1" JNull), Sample.handler, Sample.ready).
Proof.
  apply (part000_request_not_reusable Sample.handler (Sample.order "o1" JNull) "orders" "o1"
           Faulty.stocked Sample.ready).
  - unfold names. repeat split; try reflexivity; intros H; vm_compute in H; discriminate H.
  - reflexivity.
Defined.

Lemma storeExcludes_agree (props : list (string * JsValue)) (serviceStore : string) :
  badStore (get (JObj props) "store") = false ->
  Part000.storeExcludes (Part000.defaultStore (JObj props)) serviceStore =
    Index.storeExcludes (JObj props) serviceStore.
Proof.
  intros Hbad. unfold Part000.storeExcludes, Index.storeExcludes, Part000.defaultStore.
  rewrite get_assign_eq. unfold badStore in Hbad.
  destruct (get (JObj props) "store") as [| |b|n|s|items|ps|] eqn:Hstore;
    cbn [isUndefined negb andb instanceofArray orb] in *; try discriminate Hbad; [reflexivity|].
  rewrite Hbad. reflexivity.
Qed.

Lemma defaultStore_keeps (props : list (string * JsValue)) (name : string) :
  name <> "store" -> get (Part000.defaultStore (JObj props)) name = get (JObj props) name.
Proof.
  intros Hne. unfold Part000.defaultStore. apply get_assign_ne.
  intros Heq. apply Hne. symmetry. exact Heq.
Qed.

Lemma legs_agree (this : QueueHandler) (props : list (string * JsValue)) (value : Entry)
  (serviceStore : string) (st : JsValue * World) :
  badStore (get (JObj props) "store") = false ->
  readLeg Part000.storeExcludes this (Part000.defaultStore (JObj props)) value serviceStore st =
    readLeg Index.storeExcludes this (JObj props) value serviceStore st
  /\ readKeysLeg Part000.storeExcludes (Part000.defaultStore (JObj props)) value serviceStore st =
       readKeysLeg Index.storeExcludes (JObj props) value serviceStore st
  /\ deleteLeg Part000.storeExcludes (Part000.defaultStore (JObj props)) value serviceStore st =
       deleteLeg Index.storeExcludes (JObj props) value serviceStore st
  /\ pushLeg Part000.storeExcludes (Part000.defaultStore (JObj props)) value serviceStore
       (snd st) =
     pushLeg Index.storeExcludes (JObj props) value serviceStore (snd st).
Proof.
  intros Hbad. unfold readLeg, readKeysLeg, deleteLeg, pushLeg.
  rewrite (storeExcludes_agree props serviceStore Hbad).
  rewrite !(defaultStore_keeps props "identifier") by discriminate.
  rewrite !(defaultStore_keeps props "key") by discriminate.
  rewrite !(defaultStore_keeps props "value") by discriminate.
  repeat split; reflexivity.
Qed.

Lemma validated_is_object (q : JsValue) :
  emptyObject q = false -> blankString (get q "identifier") = false ->
  exists props, q = JObj props.
Proof.
  intros _ Hid. destruct q as [| |b|n|s|items|props|];
    try (vm_compute in Hid; discriminate Hid).
  exists props. reflexivity.
Qed.

(** X15. The two revisions answer alike. With a function for a callback,
    [readFromQueue], [readKeysFromQueue] and [deleteKeyFromQueue] of
    [src/index.js] give, for every instance, request and state of the backend,
    the outcome and the backend state that the operation of the same name in
    part_000 gives: the checks that moved into [validateQueueFields] and the
    changed test of the store filter make no difference to them. *)
Theorem revisions_answer_alike (this : QueueHandler) (q : JsValue) (w : World) :
  Index.readFromQueue this q JFun w =
    (fst (fst (Part000.readFromQueue this q JFun w)), snd (Part000.readFromQueue this q JFun w))
  /\ Index.readKeysFromQueue this q JFun w =
       (fst (fst (Part000.readKeysFromQueue this q JFun w)),
        snd (Part000.readKeysFromQueue this q JFun w))
  /\ Index.deleteKeyFromQueue this q JFun w =
       (fst (fst (Part000.deleteKeyFromQueue this q JFun w)),
        snd (Part000.deleteKeyFromQueue this q JFun w)).
Proof.
  unfold Index.readFromQueue, Index.readKeysFromQueue, Index.deleteKeyFromQueue,
    Part000.readFromQueue, Part000.readKeysFromQueue, Part000.deleteKeyFromQueue,
    validateQueueFields, invoke.
  cbn [isUndefined typeof String.eqb Ascii.eqb Bool.eqb negb orb andb truthy get lookupProp].
  destruct (emptyObject q) eqn:Hobj; [repeat split; reflexivity|].
  destruct (blankString (get q "identifier")) eqn:Hid; [repeat split; reflexivity|].
  destruct (validated_is_object q Hobj Hid) as [props ->].
  destruct (badStore (get (JObj props) "store")) eqn:Hbad.
  - destruct (blankString (get (JObj props) "key")); repeat split; reflexivity.
  - split; [|split].
    + destruct (blankString (get (JObj props) "key")); [reflexivity|]. cbn [truthy].
      unfold readDispatch.
      rewrite (eachOf_ext
                 (fun value serviceStore =>
                    atOnce (readLeg Part000.storeExcludes this (Part000.defaultStore (JObj props))
                              value serviceStore))
                 (fun value serviceStore =>
                    atOnce (readLeg Index.storeExcludes this (JObj props) value serviceStore)))
        by (intros value key s; unfold atOnce;
            rewrite (proj1 (legs_agree this props value key s Hbad)); reflexivity).
      destruct (eachOf _ _ _) as [[e seen] final]. reflexivity.
    + cbn [truthy].
      rewrite (eachOf_ext
                 (fun value serviceStore =>
                    atOnce (readKeysLeg Part000.storeExcludes (Part000.defaultStore (JObj props))
                              value serviceStore))
                 (fun value serviceStore =>
                    atOnce (readKeysLeg Index.storeExcludes (JObj props) value serviceStore)))
        by (intros value key s; unfold atOnce;
            rewrite (proj1 (proj2 (legs_agree this props value key s Hbad))); reflexivity).
      destruct (eachOf _ _ _) as [[e seen] final]. reflexivity.
    + destruct (blankString (get (JObj props) "key")); [reflexivity|]. cbn [truthy].
      rewrite (eachOf_ext
                 (fun value serviceStore =>
                    atOnce (deleteLeg Part000.storeExcludes (Part000.defaultStore (JObj props))
                              value serviceStore))
                 (fun value serviceStore =>
                    atOnce (deleteLeg Index.storeExcludes (JObj props) value serviceStore)))
        by (intros value key s; unfold atOnce;
            rewrite (proj1 (proj2 (proj2 (legs_agree this props value key s Hbad))));
            reflexivity).
      destruct (eachOf _ _ _) as [[e seen] final]. reflexivity.
Qed.

(** X16. Insert answers alike in the two revisions whenever the store filter
    is acceptable or the value is: for such a request, with a function for a
    callback, [pushToQueue] of [src/index.js] gives the outcome and the
    backend state of part_000's [pushToQueue]. *)
Theorem insert_revisions_agree (this : QueueHandler) (q : JsValue) (w : World) :
  badStore (get q "store") = false
  \/ (emptyObject (get q "value") = false
      /\ badTargetType (get (get q "value") "targetType") = false) ->
  Index.pushToQueue this q JFun w =
    (fst (fst (Part000.pushToQueue this q JFun w)), snd (Part000.pushToQueue this q JFun w)).
Proof.
  intros Hcase.
  unfold Index.pushToQueue, Part000.pushToQueue, validateQueueFields, invoke.
  cbn [isUndefined typeof String.eqb Ascii.eqb Bool.eqb negb orb andb].
  destruct (emptyObject q) eqn:Hobj; [reflexivity|].
  destruct (blankString (get q "identifier")) eqn:Hid; [reflexivity|].
  destruct (validated_is_object q Hobj Hid) as [props ->].
  destruct (blankString (get (JObj props) "key")); [reflexivity|].
  destruct (badStore (get (JObj props) "store")) eqn:Hbad.
  - destruct Hcase as [Hcase|[Hval Htarget]]; [discriminate Hcase|].
    rewrite Hval, Htarget. reflexivity.
  - cbn [truthy].
    destruct (emptyObject (get (JObj props) "value")); [reflexivity|].
    destruct (badTargetType _); [reflexivity|].
    rewrite (eachOf_ext
               (fun value serviceStore =>
                  atOnce (pushLeg Part000.storeExcludes (Part000.defaultStore (JObj props))
                            value serviceStore))
               (fun value serviceStore =>
                  atOnce (pushLeg Index.storeExcludes (JObj props) value serviceStore)))
      by (intros value key s; unfold atOnce;
          pose proof (proj2 (proj2 (proj2 (legs_agree this props value key (JNull, s) Hbad))))
            as Hleg;
          cbn [snd] in Hleg; rewrite Hleg; reflexivity).
    destruct (eachOf _ _ _) as [[e seen] final]. reflexivity.
Qed.

Lemma insert_revisions_agree_witness :
  Index.pushToQueue Sample.handler (Sample.order "o1" Sample.email) JFun Sample.ready =
    (fst (fst (Part000.pushToQueue Sample.handler (Sample.order "o1" Sample.email) JFun
                 Sample.ready)),
     snd (Part000.pushToQueue Sample.handler (Sample.order "o1" Sample.email) JFun
            Sample.ready)).
Proof.
  apply (insert_revisions_agree Sample.handler (Sample.order "o1" Sample.email) Sample.ready).
  left. reflexivity.
Defined.

(** X17. Where Insert differs between the revisions: the order of two checks.
    For a request that names its group and field, whose store filter is
    present but not a non-empty array and whose value is not acceptable
    either, [pushToQueue] of [src/index.js] reports the store, part_000's
    reports the value or its target type; neither reaches the backend. *)
Theorem insert_revisions_differ (this : QueueHandler) (q : JsValue) (identifier key : string)
  (w : World) :
  names q identifier key ->
  badStore (get q "store") = true ->
  (emptyObject (get q "value") || badTargetType (get (get q "value") "targetType"))%bool
    = true ->
  Index.pushToQueue this q JFun w = (CalledBack (JStr msgStore) JNull, w)
  /\ Part000.pushToQueue this q JFun w =
       (CalledBack
          (JStr (if emptyObject (get q "value") then msgValue else msgTargetType)) JNull,
        q, w).
Proof.
  intros (Hobj & Hid & Hidn & Hkey & Hkeyn) Hbad Hvalue.
  pose proof (blankString_JStr _ Hidn) as Hidb. pose proof (blankString_JStr _ Hkeyn) as Hkeyb.
  split.
  - unfold Index.pushToQueue, validateQueueFields.
    cbn [isUndefined typeof String.eqb Ascii.eqb Bool.eqb negb orb andb truthy].
    rewrite Hobj, Hid, Hkey, Hidb, Hkeyb, Hbad. reflexivity.
  - unfold Part000.pushToQueue. rewrite Hobj, Hid, Hkey, Hidb, Hkeyb.
    destruct (emptyObject (get q "value")); [reflexivity|].
    cbn [orb] in Hvalue. rewrite Hvalue. reflexivity.
Qed.

Lemma insert_revisions_differ_witness :
  Index.pushToQueue Sample.handler
    (JObj [("identifier", JStr "orders"); ("key", JStr "o1"); ("store", JStr "redis")])
    JFun Sample.ready = (CalledBack (JStr msgStore) JNull, Sample.ready)
  /\ Part000.pushToQueue Sample.handler
       (JObj [("identifier", JStr "orders"); ("key", JStr "o1"); ("store", JStr "redis")])
       JFun Sample.ready =
       (CalledBack
          (JStr (if emptyObject
                      (get (JObj [("identifier", JStr "orders"); ("key", JStr "o1");
                                  ("store", JStr "redis")]) "value")
                 then msgValue else msgTargetType)) JNull,
        JObj [("identifier", JStr "orders"); ("key", JStr "o1"); ("store", JStr "redis")],
        Sample.ready).
Proof.
  apply (insert_revisions_differ Sample.handler
           (JObj [("identifier", JStr "orders"); ("key", JStr "o1"); ("store", JStr "redis")])
           "orders" "o1" Sample.ready).
  - unfold names. repeat split; try reflexivity; intros H; vm_compute in H; discriminate H.
  - reflexivity.
  - reflexivity.
Defined.

(** X18. In part_000 the callback of Insert and of Delete is optional. For
    every instance, request and backend state, calling [pushToQueue] without a
    callback does to the backend and to the request what the call with a
    callback does; where the callback would have received a truthy error that
    error is thrown, to the caller when no adapter call has been issued, and
    out of the adapter's answer, after the call has returned, otherwise;
    where the callback would have received no error the call completes.
    [deleteKeyFromQueue] does the same for a request that passes its
    checks. *)
Theorem part000_callback_optional (this : QueueHandler) (q : JsValue) (w : World) :
  (exists err res,
      fst (fst (Part000.pushToQueue this q JFun w)) = CalledBack err res
      /\ Part000.pushToQueue this q JUndefined w =
           (if truthy err then raise w (snd (Part000.pushToQueue this q JFun w)) err
            else Completed,
            snd (fst (Part000.pushToQueue this q JFun w)),
            snd (Part000.pushToQueue this q JFun w)))
  /\ (exists err res,
         fst (fst (Part000.deleteKeyFromQueue this q JFun w)) = CalledBack err res
         /\ Part000.deleteKeyFromQueue this q JUndefined w =
              (match validateQueueFields q JFun JUndefined with
               | Returns (JBool false) =>
                   if truthy err
                   then raise w (snd (Part000.deleteKeyFromQueue this q JFun w)) err
                   else Completed
               | _ => Thrown (JStr "TypeError: callback is not a function")
               end,
               snd (fst (Part000.deleteKeyFromQueue this q JFun w)),
               snd (Part000.deleteKeyFromQueue this q JFun w))).
Proof.
  assert (Hsync : forall e, raise w w e = Thrown e).
  { intros e. unfold raise. rewrite Nat.eqb_refl. reflexivity. }
  split.
  - unfold Part000.pushToQueue, invoke.
    cbn [isUndefined typeof String.eqb Ascii.eqb Bool.eqb negb orb andb].
    destruct (emptyObject q);
      [eexists _, _; split; [reflexivity|cbn [fst snd truthy]; rewrite Hsync; reflexivity]|].
    destruct (blankString (get q "identifier"));
      [eexists _, _; split; [reflexivity|cbn [fst snd truthy]; rewrite Hsync; reflexivity]|].
    destruct (blankString (get q "key"));
      [eexists _, _; split; [reflexivity|cbn [fst snd truthy]; rewrite Hsync; reflexivity]|].
    destruct (emptyObject (get q "value"));
      [eexists _, _; split; [reflexivity|cbn [fst snd truthy]; rewrite Hsync; reflexivity]|].
    destruct (badTargetType _);
      [eexists _, _; split; [reflexivity|cbn [fst snd truthy]; rewrite Hsync; reflexivity]|].
    destruct (badStore (get q "store"));
      [eexists _, _; split; [reflexivity|cbn [fst snd truthy]; rewrite Hsync; reflexivity]|].
    destruct (eachOf _ _ _) as [[e seen] final]. cbn [fst snd].
    eexists _, _. split; [reflexivity|]. destruct (truthy e); reflexivity.
  - unfold Part000.deleteKeyFromQueue, validateQueueFields, invoke.
    cbn [isUndefined typeof String.eqb Ascii.eqb Bool.eqb negb orb andb truthy].
    destruct (emptyObject q); [eexists _, _; split; reflexivity|].
    destruct (blankString (get q "identifier")); [eexists _, _; split; reflexivity|].
    destruct (blankString (get q "key")); [eexists _, _; split; reflexivity|].
    destruct (badStore (get q "store")); [eexists _, _; split; reflexivity|].
    destruct (eachOf _ _ _) as [[e seen] final]. cbn [fst snd].
    eexists _, _. split; [reflexivity|]. destruct (truthy e); reflexivity.
Qed.

(** Insert without a callback on a backend that refuses the write: the call
    returns, and the error is thrown afterwards out of the adapter's answer.
    For an identifier that is not registered no adapter call is issued and
    the error reaches the caller. *)
Example part000_throws_after_return :
  fst (fst (Part000.pushToQueue Sample.handler (Sample.order "o1" Sample.email) JUndefined
              (Faulty.down "EIO" Sample.ready))) = ThrownLater (adapterError "EIO")
  /\ fst (fst (Part000.pushToQueue Sample.handler
                 (JObj [("identifier", JStr "carts"); ("key", JStr "c1");
                        ("value", Sample.email)]) JUndefined Sample.ready)) =
       Thrown (JStr (msgNotRegistered "carts")).
Proof. vm_compute. split; reflexivity. Qed.

(** ** Reading again *)

(** X19. Reading does not consume. On a registered identifier other than the
    meta-group, when the lookup does not fail, [readFromQueue] called again
    with the same request gives the same outcome as the first call: the value
    stays in the group, and only the last-read timestamp in the meta-group
    moves. *)
Theorem read_is_repeatable (this : QueueHandler) (entry : Entry) (q : JsValue)
  (identifier key : string) (w : World) :
  connectionHandler this = [("redis", entry)] ->
  In identifier (identifierSet entry) ->
  addresses q identifier key ->
  identifier <> servicesInfo this ->
  failure w OpGetHashObject identifier key = None ->
  fst (Index.readFromQueue this q JFun (snd (Index.readFromQueue this q JFun w))) =
    fst (Index.readFromQueue this q JFun w)
  /\ storedValue identifier key (snd (Index.readFromQueue this q JFun w)) =
       storedValue identifier key w.
Proof.
  intros Hthis Hreg Hq Hmeta Hok.
  assert (Hkept : storedValue identifier key (snd (Index.readFromQueue this q JFun w)) =
                    storedValue identifier key w).
  { unfold storedValue. rewrite (readFromQueue_data this q JFun w identifier Hmeta).
    reflexivity. }
  split; [|exact Hkept].
  assert (Hok1 : failure (snd (Index.readFromQueue this q JFun w)) OpGetHashObject
                   identifier key = None).
  { rewrite (readFromQueue_registered _ _ _ _ _ _ Hthis Hreg Hq Hok). cbn [snd].
    destruct (truthy (storedValue identifier key w)).
    - rewrite setHashObject_failure. exact Hok.
    - exact Hok. }
  rewrite (readFromQueue_registered this entry q identifier key
             (snd (Index.readFromQueue this q JFun w)) Hthis Hreg Hq Hok1).
  cbn [fst]. rewrite Hkept.
  rewrite (readFromQueue_registered this entry q identifier key w Hthis Hreg Hq Hok).
  reflexivity.
Qed.

Lemma read_is_repeatable_witness :
  fst (Index.readFromQueue Sample.handler (Sample.order "o1" JNull) JFun
         (snd (Index.readFromQueue Sample.handler (Sample.order "o1" JNull) JFun
                 Faulty.stocked))) =
    fst (Index.readFromQueue Sample.handler (Sample.order "o1" JNull) JFun Faulty.stocked)
  /\ storedValue "orders" "o1"
       (snd (Index.readFromQueue Sample.handler (Sample.order "o1" JNull) JFun
               Faulty.stocked)) =
       storedValue "orders" "o1" Faulty.stocked.
Proof.
  apply (read_is_repeatable Sample.handler Sample.entry (Sample.order "o1" JNull)
           "orders" "o1" Faulty.stocked).
  - reflexivity.
  - simpl. left. reflexivity.
  - apply sample_order_addresses. intros H. vm_compute in H. discriminate H.
  - intros H. discriminate H.
  - reflexivity.
Defined.
